(* ===== verification/_CoqProject ===== *)
-Q . S2P
Prelude.v
GoHttp.v
Errors.v
Render.v
Translate.v
TranslateRace.v
Report.v
JSONHandler.v
Headers.v
Transport.v
JSONClient.v
Format.v
TestHelper.v
JSONTyping.v
Base64.v
BasicAuth.v
Tests.v
