(* ===== verification/Prelude.v ===== *)
(** * A verification development for nametaginc/httpx

    The repository is a small Go library with two coupled halves.

    - [httperr] (src/httperr/): an error taxonomy.  An error value is a
      chain of wrappers linked by [Unwrap]: [errorWithStatus] attaches an
      HTTP status code ([Wrap], [Wrapf], [Code] and the generic errors of
      codes.go), [errorWithPublic] attaches a public/private flag
      ([WrapPublic], [WrapPrivate], [Publicf]), and [TooManyRequests] renders
      itself with a [Retry-After] header.  [StatusCode] and [IsPublic] look
      up the outermost wrapper carrying the capability with [errors.As];
      [Write] renders any error as an HTTP response; [RegisterErrorTranslator]
      and [TranslateError] keep a process-wide translator stack;
      [ReportError] translates an error and either hands it to the callback
      installed by [OnError] or renders it with [Write]; [HandlerFunc]
      adapts a [func(w, r) error] into a handler that reports its error.
    - [httpx] (src/json.go): [JSONHandler] inspects the signature of a
      business function once, panicking on a shape it rejects, and returns
      a [HandlerFunc] that decodes the JSON request body, calls the
      function, and either reports its error, answers 204, or encodes the
      result as JSON.
    - [httpx] (src/headers.go): [SplitHeaderOnSpace] splits a header
      value into a prefix and the rest with [strings.Fields] and
      [strings.Index]; [SplitAuthorizationHeader] applies it to the
      Authorization header and lower-cases the prefix.
    - [httpx] client side (src/json_client.go, user_agent.go,
      url_prefix_transport.go, basic_auth_transport.go): [JSONClient]
      builds a JSON request ([NewRequest]), sends it with [Client.Do]
      through a chain of [http.RoundTripper] decorators that edit the
      request in place (user agent, URL prefix, basic credentials), and
      turns the response into an error ([OnError], [HandleJSONError],
      [httperr.Response]) or a decoded value ([HandleResponse],
      [DoJSON]).

    ** Files, in dependency order

    - [Prelude] (this file): the outcome type of Go computations that may
      panic, a state monad [M S] over it with its [do] notation in
      [httpx_scope], the monad laws as rewrite hints of the [httpx] hint
      database, the 64-bit integer bounds, and the generic list lemma
      ([first_map]) behind every "first wrapper in the chain" lookup.
    - [GoHttp]: the parts of Go's net/http the code calls, as the code
      observes them: [http.Header] as a [gmap] from canonical keys
      ([textproto.CanonicalMIMEHeaderKey]) to value lists with
      [Add]/[Set]/[Get]/[Del]; [http.StatusText]; a response writer
      (status, live header map, header snapshot taken at [WriteHeader],
      body) with [WriteHeader] (first call wins, out-of-range codes panic),
      [Write] (implicit 200) and [http.Error].  This is library code, not
      repository code, and is not in the manifest's map.
    - [Errors] (Module [HttpErr]): the error chain as an inductive type
      whose constructors are the Go types of the chain (the nil interface
      value, [errors.New]/[fmt.Errorf] strings, [errorWithStatus],
      [errorWithPublic], pkg/errors' [withMessage] and [withStack],
      [TooManyRequests], and a user-defined error type with any subset of
      the three capabilities); [Unwrap], [errors.As], [Error()],
      [pkgerrors.Cause], [StatusCode], [IsPublic], and the constructors of
      wrap.go, public.go and codes.go.  The abstract specification is the
      list [chain e] of wrappers; [errors.As] refines "the first wrapper
      of the chain with the capability", and is proved to find exactly
      the first error reached by iterating [Unwrap] ([first_hit]) that
      the target captures.
    - [Render] (Module [Render]): [Write] of write.go, [TooManyRequests]'s
      [WriteResponse] with Go's saturating [Time.Sub], and [Response.Error]
      of response.go.  The abstract specification is a [rendering]
      (self-rendered, or generic with a status and an optional public
      message) and [Write] is proved to implement it.
    - [Translate] (Module [Translate]): the translator stack of
      translate.go as global state, registration as a step relation, and
      the invariant that the stack is the registration log reversed, so
      that [TranslateError] applies the last registered translator first.
    - [TranslateRace] (Module [TranslateRace]): concurrent calls of
      [RegisterErrorTranslator], which translate.go documents as not
      go-routine safe.  Each call is a goroutine that reads
      [errorTranslators] and later writes back its holder on the slice
      it read ([reg_step]); a scheduler interleaves the steps ([step],
      [run]).  Holders keep their addresses ([errorTranslatorFuncHolder]).
    - [Report] (Module [Report]): request contexts and [OnError],
      [ReportError] and [HandlerFunc.ServeHTTP] of handler.go, over a world
      holding the response, the translator stack and the log of callback
      invocations.  The class [Handler] is the interface of [http.Handler].
    - [JSONHandler] (Module [JSONHandler]): Go types and reflect values as
      far as [JSONHandler] inspects them, the bind-time validation, and the
      per-request closure, over an abstract JSON codec (class [JSONCodec]).
    - [Headers] (Module [Headers]): Go strings as byte lists, UTF-8
      decoding as [utf8.DecodeRuneInString] does it, [unicode.IsSpace],
      [strings.Fields], [strings.Index], slicing with its panic, and the
      two functions of headers.go.
    - [Format] (Module [Fmt]): [errorWithStatus.Format] of wrap.go with
      the [Format] methods of pkg/errors it delegates to, and fmt's
      printing of an error operand, which recovers panics of [Format] and
      [Error] methods.
    - [Transport] (Module [Transport]): outgoing requests in a heap of
      locations (so the caller, the decorators and the server share one
      [*http.Request]), the class [RoundTripper] with the interface value
      [RoundTripperV], the three decorators as instances, base64 and
      [SetBasicAuth], a recording server end, and [http.Client.Do].  The
      contract [forwards] (edit in place, then hand on) is proved of the
      decorators and composes.
    - [JSONClient] (Module [JSONClient]): [NewRequest], [HandleResponse],
      [DoJSON] and [HandleJSONError] of json_client.go over the codec
      classes of [JSONHandler] and [JSONUnmarshaler].
    - [TestHelper] (Module [TestHelper]): [TestRequest] of test.go: the
      request of [http.NewRequest] with its nil [Body] (the server-side
      [request] of [GoHttp] has [req_body = None] for it), the loop of
      [context.WithValue] binding goji's [pattern.Variable] keys, and
      [r.WithContext]; contexts may be nil, and both context functions
      panic on a nil one as Go's do.
    - [JSONTyping] (Module [JSONTyping]): Go typing of the reflect values
      of [JSONHandler] ([has_type]) and the law of a JSON codec as a class
      ([JSONCodecLaws]), so that the typing of the closure's calls is
      proved against the interface; the demonstration codec is an instance.
    - [Base64] (Module [Base64]): the base64 encoder of the
      basic-credentials decorator compared with a reference encoding by
      base-64 digits, and what that says of the header it sends.
    - [BasicAuth] (Module [BasicAuth]): the server end of the basic
      credentials as net/http has it, [r.BasicAuth()]: the
      case-insensitive ["Basic "] prefix, [base64.StdEncoding.DecodeString]
      (newlines skipped, quanta of four through [decodeMap], padding only
      at the end, each quantum assembled with shifts and ors) and
      [strings.Cut] at the first colon.  Library code, written to connect
      the decorator to the server that reads its header.
    - [Tests] (Module [Tests]): the Go tests of the repository run on
      the model: every [Test*] function of the eight [_test.go] files,
      its inputs as definitions and its asserts as lemmas closed by
      [vm_compute], with a table codec for the JSON texts of
      [TestJSONClient] and recording [FakeServer]s.

    ** Plan (done: the error model, rendering, translation, reporting,
       the handler adapter, header splitting, error formatting, the
       round-tripper decorators, the JSON client, the test helper, the
       typing of the handler's calls, the base64 encoder and the server
       that decodes it, and the repository's tests; what remains is
       library code: redirects in [Client.Do] and [url.Parse])

    The theorems fall in these groups: the chain lookups ([StatusCode],
    [IsPublic], outer-wins) with their refinement of the chain
    specification, and [errors.As] against iterated [Unwrap]; the
    rendering contract (precedence of self-rendering, default 500,
    public message header, private message never leaked, panics on
    out-of-range codes, and the panic of [Error()] on a public error
    propagated); [Retry-After] bounds (never negative, truncation,
    saturation of [Time.Sub]); translation order and the registry
    invariant by rule induction; reporting (callback interception versus
    rendering, most recent [OnError] wins, a nil callback makes every
    failing handler panic); the handler adapter (bind-time rejection,
    400 on decode failure, 204, JSON encoding, the request-time panic of
    the [func(r *http.Request)] shape, and the error results ignored with
    three or more results); formatting ([%v] and [%s] agree with
    [Error()], [%+v] shows the status code only without a public
    wrapper); header splitting (never panics, the join/split round trip
    on ASCII, lower-cased Authorization kind, and the wrong value under
    leading whitespace); the client side (the stack of decorators refines
    the composition of their edits and changes the caller's request, a
    URL that does not parse makes [Client.Do] panic, a re-sent request is
    prefixed twice, the server recovers basic credentials with
    [SplitAuthorizationHeader], the headers [DoJSON] sends, the response
    body it never closes, the end-to-end error message from [Write] to
    [DoJSON], and the status code [HandleJSONError] drops); the test
    helper (its context answers every path variable as the reference
    "last value wins" lookup, it panics exactly on an odd argument list,
    and its nil [Body] makes [JSONHandler] panic); typing (the closure
    calls the business function only with arguments of its parameter
    types, or does not call it, under the codec law); base64 (lemmas:
    the shift-and-mask encoder equals the digit-by-digit reference, and
    decoding undoes encoding; the theorem: a server behind
    [BasicAuthTransport] reads the credentials back exactly when the
    username has no colon); concurrent registration (in any reachable
    interleaving, two calls that read before either writes lose the
    first writer's translator; in every interleaving the stack holds
    only holders of returned calls, none twice, by rule induction on the
    steps; a serial schedule registers last-first as the contract
    [pipeline] of [Translate] says; every interleaving also returns
    every call, [completes_all], which follows from the shape of a call,
    two steps with no loop); and the tests (each assert of the
    repository's Go tests holds of the model on the test's input).

    ** Bounds and fuel

    Only the rune decoder of [Headers] takes fuel: the byte length of the
    string, which is enough because every rune consumes at least one byte
    (the round trip [runes_fuel_concat] is proved under exactly that
    bound, and [runes_fuel_enough] that any larger fuel gives the same
    runes).  Elsewhere no definition needs fuel: the error chain is an
    inductive value, so
    every walk along [Unwrap] is structural recursion and terminates; the
    translator stack and the context are finite lists.  Status codes are
    Go [int]s, kept as [Z] (no range is enforced by the code, and the
    theorems say what happens outside 100..999).  Durations are Go [int64]
    nanoseconds: [Time.Sub] saturates to the [int64] range and that
    saturation is written out.  The conversion of a duration to whole
    seconds goes through a [float64] in the code; the model truncates the
    exact quotient, which is the same value for every duration below
    2^23 seconds (about 97 days), where the [float64] sum
    [float64(sec) + float64(nsec)/1e9] cannot round up to the next
    integer.

    ** Not modelled

    Byte-level I/O of request and response bodies; the JSON codec itself
    (an abstract class with the decoding outcomes encoding/json
    distinguishes: an error, [null], or a value); content sniffing beyond
    the text/binary rule; Unicode case mapping of [strings.ToLower] beyond
    ASCII (a parameter of [SplitAuthorizationHeader]); [url.Parse] (a
    class) and the password redaction of [url.Error]; [Client.Do] with a
    [Timeout] or a [Jar], and its redirects (a parameter); read errors on
    response bodies; the [As(any) bool] method and multi-error
    [Unwrap() []error] of newer Go; concurrency (the code has none of its
    own apart from the registration race of [TranslateRace]; Go's memory
    model is taken as sequentially consistent, each read or write of
    [errorTranslators] one step, and [TranslateError] racing a
    registration is not modelled); the goji router, which reads the
    variables [TestRequest] binds, is a library the code only calls; the
    [context.Context] of outgoing requests (the tests' [r.Context()]
    comparisons).  Every function and method of the implementation is
    modelled; what the map leaves out of src/ is license headers,
    imports, Go doc comments and the struct declarations that the
    constructors of [error] and the records of the transports stand for.
*)

From stdpp Require Export base strings gmap list pretty.
From Stdlib Require Export ZArith Lia Ascii.

(** ** Outcomes of Go computations: a value, or a panic with its message *)

Inductive outcome (A : Type) : Type :=
| Returns (a : A)
| Panics (msg : string).
Arguments Returns {A} a.
Arguments Panics {A} msg.

(** Mapping the value of a computation that returned. *)
#[export] Instance outcome_fmap : FMap outcome :=
  fun A B f o => match o with Returns a => Returns (f a) | Panics msg => Panics msg end.

(** ** The state monad over outcomes *)

Definition M (S A : Type) : Type := S -> outcome (A * S).

Definition ret {S A} (a : A) : M S A := fun s => Returns (a, s).

Definition bind {S A B} (m : M S A) (k : A -> M S B) : M S B :=
  fun s => match m s with
           | Returns (a, s') => k a s'
           | Panics msg => Panics msg
           end.

Definition panic {S A} (msg : string) : M S A := fun _ => Panics msg.
Definition get {S} : M S S := fun s => Returns (s, s).
Definition put {S} (s : S) : M S unit := fun _ => Returns (tt, s).
Definition modify {S} (f : S -> S) : M S unit := fun s => Returns (tt, f s).

(** Run a computation on a part [T] of a larger state [S]. *)
Definition focus {S T A} (proj : S -> T) (upd : T -> S -> S) (m : M T A) : M S A :=
  fun s => match m (proj s) with
           | Returns (a, t) => Returns (a, upd t s)
           | Panics msg => Panics msg
           end.

(** Lift a pure outcome (a Go expression that may panic). *)
Definition lift {S A} (o : outcome A) : M S A :=
  fun s => match o with Returns a => Returns (a, s) | Panics msg => Panics msg end.

(** The final state of a run, when it returns. *)
Definition final {S A} (o : outcome (A * S)) : option S :=
  match o with Returns (_, s) => Some s | Panics _ => None end.

Declare Scope httpx_scope.
Delimit Scope httpx_scope with hx.
Notation "'do' x <- m ; k" := (bind m (fun x => k))
  (at level 60, x name, m at next level, right associativity) : httpx_scope.
Open Scope httpx_scope.

Create HintDb httpx.
Create Rewrite HintDb httpx_rw.

Section MonadLaws.
Context {S : Type}.

Lemma bind_ret_l {A B} (a : A) (k : A -> M S B) s : bind (ret a) k s = k a s.
Proof. reflexivity. Qed.

Lemma bind_ret_r {A} (m : M S A) s : bind m ret s = m s.
Proof. unfold bind, ret. by destruct (m s) as [[a s']|]. Qed.

Lemma bind_assoc {A B C} (m : M S A) (k : A -> M S B) (h : B -> M S C) s :
  bind (bind m k) h s = bind m (fun a => bind (k a) h) s.
Proof. unfold bind. by destruct (m s) as [[a s']|]. Qed.

Lemma bind_panic {A B} msg (k : A -> M S B) s : bind (panic msg) k s = Panics msg.
Proof. reflexivity. Qed.

Lemma bind_get {B} (k : S -> M S B) s : bind get k s = k s s.
Proof. reflexivity. Qed.

Lemma bind_put {B} s' (k : unit -> M S B) s : bind (put s') k s = k tt s'.
Proof. reflexivity. Qed.

Lemma bind_modify {B} f (k : unit -> M S B) s : bind (modify f) k s = k tt (f s).
Proof. reflexivity. Qed.

Lemma bind_lift_returns {A B} (a : A) (k : A -> M S B) s :
  bind (lift (Returns a)) k s = k a s.
Proof. reflexivity. Qed.

(** A computation that returns runs its continuation on the new state. *)
Lemma bind_returns {A B} (m : M S A) (k : A -> M S B) s a s' :
  m s = Returns (a, s') -> bind m k s = k a s'.
Proof. unfold bind. by intros ->. Qed.

Lemma bind_panics {A B} (m : M S A) (k : A -> M S B) s msg :
  m s = Panics msg -> bind m k s = Panics msg.
Proof. unfold bind. by intros ->. Qed.
End MonadLaws.

#[export] Hint Rewrite @bind_ret_l @bind_assoc @bind_panic @bind_get @bind_put
  @bind_modify @bind_lift_returns : httpx_rw.

(** ** Go's [int64] *)

Section Int64.
Local Open Scope Z_scope.

Definition int64_min : Z := - 2 ^ 63.
Definition int64_max : Z := 2 ^ 63 - 1.

(** Clamp into the [int64] range, as saturating arithmetic does. *)
Definition saturate64 (z : Z) : Z := Z.max int64_min (Z.min int64_max z).

Lemma saturate64_bounds z : int64_min <= saturate64 z <= int64_max.
Proof. unfold saturate64, int64_min, int64_max. lia. Qed.

Lemma saturate64_id z : int64_min <= z <= int64_max -> saturate64 z = z.
Proof. unfold saturate64. lia. Qed.

Lemma saturate64_neg z : z < 0 -> saturate64 z < 0.
Proof. unfold saturate64, int64_min, int64_max. lia. Qed.

End Int64.

#[export] Hint Resolve saturate64_bounds : httpx.

(** ** The first element of a list that a partial function accepts *)

Fixpoint first_map {A B} (f : A -> option B) (l : list A) : option B :=
  match l with
  | [] => None
  | x :: l' => match f x with Some b => Some b | None => first_map f l' end
  end.

Lemma first_map_app {A B} (f : A -> option B) l1 l2 :
  first_map f (l1 ++ l2) =
  match first_map f l1 with Some b => Some b | None => first_map f l2 end.
Proof. induction l1 as [|x l1 IH]; simpl; [done|]. by destruct (f x). Qed.

Lemma first_map_head_omap {A B} (f : A -> option B) l :
  first_map f l = head (omap f l).
Proof. induction l as [|x l IH]; simpl; [done|]. by destruct (f x). Qed.

Lemma first_map_Some {A B} (f : A -> option B) l b :
  first_map f l = Some b ->
  exists l1 x l2, l = l1 ++ x :: l2 /\ f x = Some b /\ Forall (fun y => f y = None) l1.
Proof.
  induction l as [|x l IH]; simpl; [done|].
  destruct (f x) eqn:Hx.
  - intros [= <-]. by exists [], x, l.
  - intros H. destruct (IH H) as (l1 & y & l2 & -> & Hy & Hl1).
    exists (x :: l1), y, l2. simpl. auto.
Qed.

Lemma first_map_None {A B} (f : A -> option B) l :
  first_map f l = None <-> Forall (fun y => f y = None) l.
Proof.
  induction l as [|x l IH]; simpl; [split; auto|].
  destruct (f x) eqn:Hx; rewrite Forall_cons.
  - split; [done|]. intros [? _]; congruence.
  - rewrite IH. tauto.
Qed.

#[export] Hint Rewrite @first_map_app : httpx_rw.

(** ** Strings *)

Lemma string_app_assoc (s1 s2 s3 : string) :
  String.append (String.append s1 s2) s3 = String.append s1 (String.append s2 s3).
Proof. induction s1 as [|c s1 IH]; [reflexivity | exact (f_equal (String c) IH)]. Qed.

Lemma string_app_nil_r (s : string) : String.append s EmptyString = s.
Proof. induction s as [|c s IH]; [reflexivity | exact (f_equal (String c) IH)]. Qed.

Lemma list_ascii_of_string_app (s1 s2 : string) :
  String.list_ascii_of_string (String.append s1 s2) =
  (String.list_ascii_of_string s1 ++ String.list_ascii_of_string s2)%list.
Proof. induction s1 as [|c s1 IH]; [reflexivity | exact (f_equal (cons c) IH)]. Qed.

#[export] Hint Rewrite string_app_assoc string_app_nil_r : httpx_rw.

(** ** Tactics *)

(** Unfold the monad plumbing and compute as far as the state allows. *)
Ltac go_run :=
  autorewrite with httpx_rw; unfold bind, ret, get, put, modify, focus, lift, panic; simpl.
