(* ===== verification/GoHttp.v ===== *)
(** * The parts of Go's net/http that httpx calls

    Library code, modelled from the Go standard library (net/http,
    net/textproto, net/http/httptest) as the repository uses it:
    [http.Header] with canonical keys, [http.StatusText], and a response
    writer with [Header()], [WriteHeader], [Write] and [http.Error].
    Nothing here is repository code; the repository's files build on it. *)

From S2P Require Import Prelude.
Local Open Scope string_scope.

(** ** Header keys: [textproto.CanonicalMIMEHeaderKey] *)

Definition ascii_code (c : Ascii.ascii) : nat := Ascii.nat_of_ascii c.

(** [isTokenTable] of net/textproto: the bytes allowed in a header name. *)
Definition is_token_char (c : Ascii.ascii) : bool :=
  let n := ascii_code c in
  (Nat.leb 48 n && Nat.leb n 57) ||        (* 0-9 *)
  (Nat.leb 65 n && Nat.leb n 90) ||        (* A-Z *)
  (Nat.leb 97 n && Nat.leb n 122) ||       (* a-z *)
  existsb (Nat.eqb n) [33; 35; 36; 37; 38; 39; 42; 43; 45; 46; 94; 95; 96; 124; 126].

Definition is_lower (c : Ascii.ascii) : bool :=
  Nat.leb 97 (ascii_code c) && Nat.leb (ascii_code c) 122.
Definition is_upper (c : Ascii.ascii) : bool :=
  Nat.leb 65 (ascii_code c) && Nat.leb (ascii_code c) 90.
Definition to_upper (c : Ascii.ascii) : Ascii.ascii :=
  if is_lower c then Ascii.ascii_of_nat (ascii_code c - 32) else c.
Definition to_lower (c : Ascii.ascii) : Ascii.ascii :=
  if is_upper c then Ascii.ascii_of_nat (ascii_code c + 32) else c.

Definition dash : Ascii.ascii := "-"%char.

(** The conversion loop: [upper] holds when the previous byte was ['-']
    (or at the start). *)
Fixpoint canon_loop (upper : bool) (s : string) : string :=
  match s with
  | EmptyString => EmptyString
  | String c s' =>
      let c' := if upper then to_upper c else to_lower c in
      String c' (canon_loop (Ascii.eqb c' dash) s')
  end.

Fixpoint string_forallb (p : Ascii.ascii -> bool) (s : string) : bool :=
  match s with
  | EmptyString => true
  | String c s' => p c && string_forallb p s'
  end.

(** A key with a byte outside the token set is returned unchanged;
    otherwise the first letter and every letter after a dash are upper
    case and the others lower case. *)
Definition canonical_key (s : string) : string :=
  if string_forallb is_token_char s then canon_loop true s else s.

(** ** [http.Header] *)

Abbreviation header := (gmap string (list string)).

Definition header_add (k v : string) (h : header) : header :=
  let key := canonical_key k in
  <[key := (default [] (h !! key) ++ [v])%list]> h.

Definition header_set (k v : string) (h : header) : header :=
  <[canonical_key k := [v]]> h.

Definition header_del (k : string) (h : header) : header :=
  delete (canonical_key k) h.

Definition header_values (k : string) (h : header) : list string :=
  default [] (h !! canonical_key k).

Definition header_get (k : string) (h : header) : string :=
  match header_values k h with
  | v :: _ => v
  | [] => ""
  end.

(** ** [http.StatusText] (net/http/status.go) *)

Definition status_table : list (Z * string) :=
  [(100, "Continue"); (101, "Switching Protocols"); (102, "Processing");
   (103, "Early Hints");
   (200, "OK"); (201, "Created"); (202, "Accepted");
   (203, "Non-Authoritative Information"); (204, "No Content");
   (205, "Reset Content"); (206, "Partial Content"); (207, "Multi-Status");
   (208, "Already Reported"); (226, "IM Used");
   (300, "Multiple Choices"); (301, "Moved Permanently"); (302, "Found");
   (303, "See Other"); (304, "Not Modified"); (305, "Use Proxy");
   (307, "Temporary Redirect"); (308, "Permanent Redirect");
   (400, "Bad Request"); (401, "Unauthorized"); (402, "Payment Required");
   (403, "Forbidden"); (404, "Not Found"); (405, "Method Not Allowed");
   (406, "Not Acceptable"); (407, "Proxy Authentication Required");
   (408, "Request Timeout"); (409, "Conflict"); (410, "Gone");
   (411, "Length Required"); (412, "Precondition Failed");
   (413, "Request Entity Too Large"); (414, "Request URI Too Long");
   (415, "Unsupported Media Type"); (416, "Requested Range Not Satisfiable");
   (417, "Expectation Failed"); (418, "I'm a teapot");
   (421, "Misdirected Request"); (422, "Unprocessable Entity");
   (423, "Locked"); (424, "Failed Dependency"); (425, "Too Early");
   (426, "Upgrade Required"); (428, "Precondition Required");
   (429, "Too Many Requests"); (431, "Request Header Fields Too Large");
   (451, "Unavailable For Legal Reasons");
   (500, "Internal Server Error"); (501, "Not Implemented");
   (502, "Bad Gateway"); (503, "Service Unavailable");
   (504, "Gateway Timeout"); (505, "HTTP Version Not Supported");
   (506, "Variant Also Negotiates"); (507, "Insufficient Storage");
   (508, "Loop Detected"); (510, "Not Extended");
   (511, "Network Authentication Required")]%Z.

Definition StatusText (code : Z) : string :=
  match first_map (fun '(c, t) => if Z.eqb c code then Some t else None) status_table with
  | Some t => t
  | None => ""
  end.

(** ** The response writer *)

(** [resp_sent] is the header as sent on the wire: a snapshot of
    [resp_header] taken by the first [WriteHeader] ([None] before it);
    later changes to the live map are not sent. *)
Record response := mkResponse {
  resp_code : Z;
  resp_header : header;
  resp_sent : option header;
  resp_body : string
}.

Definition fresh_response : response :=
  {| resp_code := 200; resp_header := ∅; resp_sent := None; resp_body := "" |}.

Definition with_header (f : header -> header) (w : response) : response :=
  {| resp_code := resp_code w; resp_header := f (resp_header w);
     resp_sent := resp_sent w; resp_body := resp_body w |}.

(** [w.Header().Add(k, v)] and [w.Header().Set(k, v)]. *)
Definition add_header (k v : string) : M response unit := modify (with_header (header_add k v)).
Definition set_header (k v : string) : M response unit := modify (with_header (header_set k v)).

(** [checkWriteHeaderCode]: codes outside 100..999 panic. *)
Definition valid_code (code : Z) : bool := (100 <=? code)%Z && (code <=? 999)%Z.

(** [WriteHeader]: a second call is ignored (a "superfluous" call). *)
Definition write_header (code : Z) : M response unit :=
  fun w =>
    match resp_sent w with
    | Some _ => Returns (tt, w)
    | None =>
        if valid_code code then
          Returns (tt, {| resp_code := code; resp_header := resp_header w;
                          resp_sent := Some (resp_header w); resp_body := resp_body w |})
        else Panics ("invalid WriteHeader code " ++ pretty code)
    end.

(** [http.DetectContentType], reduced to its last rule: text unless a
    byte is one of the binary control bytes.  The signature table (HTML,
    XML, images, archives) is not modelled. *)
Definition is_binary_byte (c : Ascii.ascii) : bool :=
  let n := ascii_code c in
  Nat.leb n 8 || Nat.eqb n 11 || (Nat.leb 14 n && Nat.leb n 26) || (Nat.leb 28 n && Nat.leb n 31).

Definition detect_content_type (b : string) : string :=
  if string_forallb (fun c => negb (is_binary_byte c)) b
  then "text/plain; charset=utf-8" else "application/octet-stream".

(** [Write]: before the header is written, set a sniffed Content-Type if
    none is set, then [WriteHeader(200)]; then append the bytes. *)
Definition write_body (b : string) : M response unit :=
  do w <- get;
  do _ <- (match resp_sent w with
           | Some _ => ret tt
           | None =>
               do _ <- (match resp_header w !! "Content-Type" with
                        | Some _ => ret tt
                        | None => set_header "Content-Type" (detect_content_type b)
                        end);
               write_header 200
           end);
  modify (fun w => {| resp_code := resp_code w; resp_header := resp_header w;
                      resp_sent := resp_sent w; resp_body := resp_body w ++ b |}).

(** [http.Error(w, error, code)]. *)
Definition http_Error (error : string) (code : Z) : M response unit :=
  do _ <- set_header "Content-Type" "text/plain; charset=utf-8";
  do _ <- set_header "X-Content-Type-Options" "nosniff";
  do _ <- write_header code;
  write_body (error ++ String "010"%char EmptyString).


(** ** Requests and their contexts *)

(** [context.WithValue] keys: the unexported [onErrorIndex] of httperr,
    goji's [pattern.Variable] (a path variable, by name), or any other key;
    values: a [func(error)] (identified by a number, [None]
    for a nil func) or any other value. *)
Inductive ctx_key := CtxKeyOnError | CtxKeyVariable (name : string) | CtxKeyOther (name : string).
Inductive ctx_val := CtxFunc (f : option nat) | CtxOther (v : string).

(** [req_ctx] lists the [WithValue] layers, innermost (most recent) first. *)
Record request := mkRequest {
  req_method : string;
  req_header : header;
  req_body : option string;   (* [r.Body]; [None] is nil *)
  req_ctx : list (ctx_key * ctx_val)
}.

#[global] Instance ctx_key_eq_dec : EqDecision ctx_key.
Proof. solve_decision. Defined.

(** [ctx.Value(key)]: the value of the most recent layer with that key. *)
Definition ctx_value (k : ctx_key) (ctx : list (ctx_key * ctx_val)) : option ctx_val :=
  first_map (fun '(k', v) => if decide (k = k') then Some v else None) ctx.

(** [r.WithContext(context.WithValue(r.Context(), k, v))]. *)
Definition with_value (k : ctx_key) (v : ctx_val) (r : request) : request :=
  {| req_method := req_method r; req_header := req_header r; req_body := req_body r;
     req_ctx := (k, v) :: req_ctx r |}.

(** A request as a server receives it: its [Body] is never nil. *)
Definition test_request (body : string) : request :=
  {| req_method := "GET"; req_header := ∅; req_body := Some body; req_ctx := [] |}.

(** ** Responses as a client receives them ([http.Response]) *)

Record client_response := mkClientResponse {
  cr_Status : string;        (* e.g. "418 I'm a teapot" *)
  cr_StatusCode : Z;
  cr_Header : header;
  cr_Body : string
}.

(** The status line a server sends for a code: its reason phrase, or
    ["status code N"] when the code has none. *)
Definition status_line_text (code : Z) : string :=
  match StatusText code with
  | "" => "status code " ++ pretty code
  | t => t
  end.

(** What the client sees of a response written by a handler: the code,
    the header as snapshotted at [WriteHeader], and the body. *)
Definition received (w : response) : client_response :=
  {| cr_Status := pretty (resp_code w) ++ " " ++ status_line_text (resp_code w);
     cr_StatusCode := resp_code w;
     cr_Header := default ∅ (resp_sent w);
     cr_Body := resp_body w |}.

(** Unfold the response-writer operations and run them. *)
Ltac resp_run :=
  unfold http_Error, write_body, write_header, set_header, add_header, with_header; go_run.

(** ** Lemmas *)

Lemma ctx_value_cons k k' v ctx :
  ctx_value k ((k', v) :: ctx) = if decide (k = k') then Some v else ctx_value k ctx.
Proof. unfold ctx_value. simpl. by case_decide. Qed.

Lemma canonical_key_content_type : canonical_key "Content-type" = "Content-Type".
Proof. reflexivity. Qed.

Lemma header_get_add_fresh k v (h : header) :
  h !! canonical_key k = None -> header_get k (header_add k v h) = v.
Proof.
  intros H. unfold header_get, header_values, header_add.
  by rewrite lookup_insert_eq, H.
Qed.

Lemma header_values_add k v (h : header) :
  header_values k (header_add k v h) = (header_values k h ++ [v])%list.
Proof. unfold header_values, header_add. by rewrite lookup_insert_eq. Qed.

Lemma header_get_set k v (h : header) : header_get k (header_set k v h) = v.
Proof. unfold header_get, header_values, header_set. by rewrite lookup_insert_eq. Qed.

Lemma header_values_add_ne k k' v (h : header) :
  canonical_key k <> canonical_key k' ->
  header_values k' (header_add k v h) = header_values k' h.
Proof. intros Hne. unfold header_values, header_add. by rewrite lookup_insert_ne. Qed.

Lemma header_values_set_ne k k' v (h : header) :
  canonical_key k <> canonical_key k' ->
  header_values k' (header_set k v h) = header_values k' h.
Proof. intros Hne. unfold header_values, header_set. by rewrite lookup_insert_ne. Qed.

(** Once the header is written, [WriteHeader] changes nothing. *)
Lemma write_header_sent code w h :
  resp_sent w = Some h -> write_header code w = Returns (tt, w).
Proof. unfold write_header. by intros ->. Qed.

Lemma write_header_fresh code w :
  resp_sent w = None -> valid_code code = true ->
  write_header code w =
  Returns (tt, {| resp_code := code; resp_header := resp_header w;
                  resp_sent := Some (resp_header w); resp_body := resp_body w |}).
Proof. unfold write_header. by intros -> ->. Qed.

Lemma write_header_invalid code w :
  resp_sent w = None -> valid_code code = false ->
  write_header code w = Panics ("invalid WriteHeader code " ++ pretty code).
Proof. unfold write_header. by intros -> ->. Qed.

(** [Write] on a fresh writer whose header already has a Content-Type:
    status 200, that header sent, the bytes appended. *)
Lemma write_body_typed b w :
  resp_sent w = None -> is_Some (resp_header w !! "Content-Type") ->
  write_body b w =
  Returns (tt, {| resp_code := 200; resp_header := resp_header w;
                  resp_sent := Some (resp_header w); resp_body := resp_body w ++ b |}).
Proof. intros Hs [ct Hc]. resp_run. rewrite Hs, Hc. simpl. by rewrite Hs. Qed.

#[export] Hint Resolve header_get_set header_values_add : httpx.
