(* ===== verification/Errors.v ===== *)
(** * The error chain of httperr (wrap.go, public.go, codes.go)

    A Go [error] is an interface value; here it is the inductive type
    [error] whose constructors are the dynamic types a chain is built
    from, with [Nil] for the nil interface value.  [Unwrap] follows the
    chain; [errors_as] is [errors.As] for one capability (a method set);
    [StatusCode] and [IsPublic] are the lookups of wrap.go and public.go;
    [Error] is the [Error()] method, which panics on a nil receiver.
    The specification of a lookup is the list [chain e] of the wrappers
    of [e], outermost first: [errors_as] returns the capability of the
    first wrapper of that list that has it. *)

From S2P Require Import Prelude GoHttp.
Local Open Scope string_scope.

Module HttpErr.

(** ** The dynamic types of an error chain *)

Inductive error : Type :=
| Nil
  (** the nil interface value *)
| errorString (msg : string)
  (** [errors.New] and [fmt.Errorf] without [%w] *)
| errorWithStatus (statusCode : Z) (err : error)
  (** wrap.go *)
| errorWithPublic (public : bool) (err : error)
  (** public.go *)
| withMessage (cause : error) (msg : string)
  (** pkg/errors: [Error()] is [msg + ": " + cause.Error()] *)
| withStack (err : error) (stack : string)
  (** pkg/errors: the call stack, rendered, for [%+v] *)
| TooManyRequests (RetryAfter : option Z)
  (** too_many_requests.go: [*time.Time] as nanoseconds since the epoch *)
| userError (msg : string) (status : option Z) (public : option bool)
            (respond : option (request -> M response unit)) (inner : error).
  (** a type of the application: [Error()] returns [msg]; it has a
      [StatusCode()] method when [status] is [Some], [IsPublic()] when
      [public] is [Some], [WriteResponse] when [respond] is [Some], and
      [Unwrap()] returns [inner] ([Nil] when it has no [Unwrap]). *)

Definition is_nil (e : error) : bool := match e with Nil => true | _ => false end.

(** ** The methods of the error types *)

(** [errorWithStatus.StatusCode] (wrap.go). *)
Definition errorWithStatus_StatusCode (statusCode : Z) (err : error) : Z := statusCode.

(** [errorWithPublic.IsPublic] (public.go). *)
Definition errorWithPublic_IsPublic (public : bool) (err : error) : bool := public.

(** [errorWithPublic.Error] (public.go): the text of the wrapped error,
    by the [Error()] of its dynamic type, given here as [Error]. *)
Definition errorWithPublic_Error (Error : error -> outcome string) (public : bool) (err : error)
  : outcome string := Error err.

(** [errorWithPublic.Unwrap] (public.go). *)
Definition errorWithPublic_Unwrap (public : bool) (err : error) : error := err.

(** [TooManyRequests.StatusCode]: [http.StatusTooManyRequests]. *)
Definition TooManyRequests_StatusCode (RetryAfter : option Z) : Z := 429.

(** [TooManyRequests.Error]: the reason phrase of its status code. *)
Definition TooManyRequests_Error (RetryAfter : option Z) : string :=
  StatusText (TooManyRequests_StatusCode RetryAfter).

Arguments errorWithStatus_StatusCode _ _ /.
Arguments errorWithPublic_IsPublic _ _ /.
Arguments errorWithPublic_Error _ _ _ /.
Arguments errorWithPublic_Unwrap _ _ /.
Arguments TooManyRequests_StatusCode _ /.
Arguments TooManyRequests_Error _ /.

(** [errors.Unwrap]: the [Unwrap] method of the dynamic type, [nil]
    for types without one. *)
Definition Unwrap (e : error) : error :=
  match e with
  | errorWithPublic b e' => errorWithPublic_Unwrap b e'
  | errorWithStatus _ e' | withMessage e' _
  | withStack e' _ | userError _ _ _ _ e' => e'
  | _ => Nil
  end.

(** ** Capabilities: the interfaces [errors.As] is asked for *)

(** [StatusCoder] (wrap.go), implemented by [errorWithStatus],
    [TooManyRequests] (always 429) and user types with [StatusCode()]. *)
Definition status_cap (e : error) : option Z :=
  match e with
  | errorWithStatus c err => Some (errorWithStatus_StatusCode c err)
  | TooManyRequests ra => Some (TooManyRequests_StatusCode ra)
  | userError _ (Some c) _ _ _ => Some c
  | _ => None
  end.

(** [IsPublicer] (public.go). *)
Definition public_cap (e : error) : option bool :=
  match e with
  | errorWithPublic b err => Some (errorWithPublic_IsPublic b err)
  | userError _ _ (Some b) _ _ => Some b
  | _ => None
  end.

(** [ResponseWriter] (write.go): the error value itself, whose
    [WriteResponse] method is then called. *)
Definition writer_cap (e : error) : option error :=
  match e with
  | TooManyRequests _ => Some e
  | userError _ _ _ (Some _) _ => Some e
  | _ => None
  end.

(** [errors.As(err, &target)] for an interface target: walk the chain
    from the outermost error and stop at the first value that has the
    capability. *)
Fixpoint errors_as {A} (cap : error -> option A) (e : error) : option A :=
  match e with
  | Nil => None
  | _ =>
      match cap e with
      | Some a => Some a
      | None =>
          match e with
          | errorWithStatus _ e' | errorWithPublic _ e' | withMessage e' _
          | withStack e' _ | userError _ _ _ _ e' => errors_as cap e'
          | _ => None
          end
      end
  end.

(** The specification: the non-nil values of the chain, outermost first. *)
Fixpoint chain (e : error) : list error :=
  match e with
  | Nil => []
  | errorWithStatus _ e' | errorWithPublic _ e' | withMessage e' _
  | withStack e' _ | userError _ _ _ _ e' => e :: chain e'
  | _ => [e]
  end.

(** ** wrap.go *)

(** [errorWithStatus.Error], [errorWithPublic.Error] and the other
    [Error()] methods; a method call through a nil interface panics. *)
Definition nil_deref : string :=
  "runtime error: invalid memory address or nil pointer dereference".

Fixpoint Error (e : error) : outcome string :=
  match e with
  | Nil => Panics nil_deref
  | errorString msg => Returns msg
  | errorWithStatus _ e' => Error e'
  | errorWithPublic b e' => errorWithPublic_Error Error b e'
  | withMessage e' msg =>
      match Error e' with
      | Returns s => Returns (msg ++ ": " ++ s)
      | Panics p => Panics p
      end
  | withStack e' _ => Error e'
  | TooManyRequests ra => Returns (TooManyRequests_Error ra)
  | userError msg _ _ _ _ => Returns msg
  end.

Definition Wrap (statusCode : Z) (err : error) : error :=
  errorWithStatus statusCode err.

Definition StatusCode (err : error) : Z :=
  match errors_as status_cap err with
  | Some c => c
  | None => 0%Z
  end.

(** ** public.go *)

Definition WrapPublic (err : error) : error := errorWithPublic true err.
Definition WrapPrivate (err : error) : error := errorWithPublic false err.

Definition IsPublic (err : error) : bool :=
  match errors_as public_cap err with
  | Some b => b
  | None => false
  end.

(** [Wrapf] and [Publicf] take the message already formatted by
    [fmt.Errorf(message, args...)]. *)
Definition Wrapf (statusCode : Z) (formatted : string) : error :=
  errorWithStatus statusCode (errorString formatted).

Definition Publicf (statusCode : Z) (formatted : string) : error :=
  WrapPublic (Wrapf statusCode formatted).

(** [httperr.Public], called by json.go but not defined under src/:
    a status code over a public error, as the specification describes. *)
Definition Public (statusCode : Z) (err : error) : error :=
  errorWithStatus statusCode (errorWithPublic true err).

(** ** codes.go *)

(** [fmt.Errorf("%s", s)] is [s]. *)
Definition Code (statusCode : Z) : error := Wrapf statusCode (StatusText statusCode).

Definition BadRequest := Code 400.
Definition Unauthorized := Code 401.
Definition PaymentRequired := Code 402.
Definition Forbidden := Code 403.
Definition NotFound := Code 404.
Definition MethodNotAllowed := Code 405.
Definition NotAcceptable := Code 406.
Definition ProxyAuthRequired := Code 407.
Definition RequestTimeout := Code 408.
Definition Conflict := Code 409.
Definition Gone := Code 410.
Definition LengthRequired := Code 411.
Definition PreconditionFailed := Code 412.
Definition RequestEntityTooLarge := Code 413.
Definition RequestURITooLong := Code 414.
Definition UnsupportedMediaType := Code 415.
Definition RequestedRangeNotSatisfiable := Code 416.
Definition ExpectationFailed := Code 417.
Definition Teapot := Code 418.
Definition InternalServerError := Code 500.
Definition NotImplemented := Code 501.
Definition BadGateway := Code 502.
Definition ServiceUnavailable := Code 503.
Definition GatewayTimeout := Code 504.
Definition HTTPVersionNotSupported := Code 505.

(** The generic errors of codes.go with the code each is declared with. *)
Definition generic_errors : list (Z * error) :=
  [(400, BadRequest); (401, Unauthorized); (402, PaymentRequired); (403, Forbidden);
   (404, NotFound); (405, MethodNotAllowed); (406, NotAcceptable);
   (407, ProxyAuthRequired); (408, RequestTimeout); (409, Conflict); (410, Gone);
   (411, LengthRequired); (412, PreconditionFailed); (413, RequestEntityTooLarge);
   (414, RequestURITooLong); (415, UnsupportedMediaType);
   (416, RequestedRangeNotSatisfiable); (417, ExpectationFailed); (418, Teapot);
   (500, InternalServerError); (501, NotImplemented); (502, BadGateway);
   (503, ServiceUnavailable); (504, GatewayTimeout); (505, HTTPVersionNotSupported)]%Z.

(** ** pkg/errors, as the tests and callers use it *)

(** [pkgerrors.Wrap(err, msg)]: nil stays nil. *)
Definition pkg_wrap (err : error) (msg stack : string) : error :=
  match err with
  | Nil => Nil
  | _ => withStack (withMessage err msg) stack
  end.

(** [pkgerrors.Cause]: follow [Cause()] while the value has that method;
    only pkg/errors' own wrappers have it. *)
Fixpoint Cause (e : error) : error :=
  match e with
  | withMessage e' _ | withStack e' _ => Cause e'
  | _ => e
  end.

(** [unwrap_n k e]: [errors.Unwrap] applied [k] times. *)
Fixpoint unwrap_n (k : nat) (e : error) : error :=
  match k with
  | O => e
  | S k' => unwrap_n k' (Unwrap e)
  end.

(** The specification of [errors.As(err, &target)]: the [n]-th value
    along [Unwrap] from [e] is the first that is not nil and has the
    capability, which it reports as [a]. *)
Definition first_hit {A} (cap : error -> option A) (e : error) (n : nat) (a : A) : Prop :=
  (forall m, m < n -> unwrap_n m e <> Nil /\ cap (unwrap_n m e) = None) /\
  unwrap_n n e <> Nil /\ cap (unwrap_n n e) = Some a.

(** ** The chain specification and [errors.As] *)

Lemma chain_cons e : e <> Nil -> chain e = e :: chain (Unwrap e).
Proof. destruct e; simpl; congruence. Qed.


(** The chain is exactly the sequence of [Unwrap] iterates before the
    first nil. *)
Lemma chain_lookup e k :
  k < length (chain e) -> chain e !! k = Some (unwrap_n k e).
Proof.
  revert e. induction k as [|k IH]; intros e Hk.
  - destruct e; simpl in *; done || lia.
  - destruct e; simpl in *; try lia; apply IH; lia.
Qed.

(** [errors.As] walks a finite chain: after [length (chain e)] calls
    of [Unwrap] every error is nil, whatever its nesting. *)
Theorem unwrap_chain_terminates e : unwrap_n (length (chain e)) e = Nil.
Proof. induction e; simpl; done. Qed.

Lemma errors_as_first_map {A} (cap : error -> option A) e :
  errors_as cap e = first_map cap (chain e).
Proof. induction e; simpl; rewrite ?IHe; done. Qed.

Lemma errors_as_transparent {A} (cap : error -> option A) e :
  e <> Nil -> cap e = None -> errors_as cap e = errors_as cap (Unwrap e).
Proof.
  intros Hn Hc. rewrite !errors_as_first_map, (chain_cons e Hn). simpl. by rewrite Hc.
Qed.

Lemma errors_as_hit {A} (cap : error -> option A) e a :
  e <> Nil -> cap e = Some a -> errors_as cap e = Some a.
Proof. intros Hn H. rewrite errors_as_first_map, (chain_cons e Hn). simpl. by rewrite H. Qed.

Lemma errors_as_none {A} (cap : error -> option A) e :
  Forall (fun x => cap x = None) (chain e) -> errors_as cap e = None.
Proof. rewrite errors_as_first_map. apply first_map_None. Qed.


(** One step of the walk of [errors.As]: check [e], else go on with
    [Unwrap(e)]. *)
Lemma errors_as_step {A} (cap : error -> option A) e :
  e <> Nil -> errors_as cap e = match cap e with Some a => Some a | None => errors_as cap (Unwrap e) end.
Proof. intros He. destruct e; [done|..]; simpl; by destruct (cap _). Qed.

Lemma first_hit_Nil {A} (cap : error -> option A) n a : ~ first_hit cap Nil n a.
Proof. intros (_ & Hn & _). apply Hn. induction n; simpl; auto. Qed.

Lemma first_hit_step {A} (cap : error -> option A) e a :
  e <> Nil ->
  (exists n, first_hit cap e n a) <-> cap e = Some a \/ (cap e = None /\ exists n, first_hit cap (Unwrap e) n a).
Proof.
  intros He. split.
  - intros [[|n] (Hbefore & Hn & Hc)]; [by left|]. right.
    destruct (Hbefore 0 ltac:(lia)) as [_ H0]. split; [exact H0|].
    exists n. split_and!; [|exact Hn|exact Hc]. intros m Hm. apply (Hbefore (S m)). lia.
  - intros [Hc|[Hc [n (Hbefore & Hn & Hhit)]]].
    + exists 0. split_and!; [lia|done|done].
    + exists (S n). split_and!; [|exact Hn|exact Hhit].
      intros [|m] Hm; [done|]. apply Hbefore. lia.
Qed.

Lemma errors_as_Unwrap_Nil {A} (cap : error -> option A) a :
  errors_as cap Nil = Some a <-> exists n, first_hit cap Nil n a.
Proof. split; [discriminate | intros [n H]; by destruct (first_hit_Nil cap n a H)]. Qed.

Lemma errors_as_Unwrap_step {A} (cap : error -> option A) e :
  e <> Nil ->
  (forall a, errors_as cap (Unwrap e) = Some a <-> exists n, first_hit cap (Unwrap e) n a) ->
  forall a, errors_as cap e = Some a <-> exists n, first_hit cap e n a.
Proof.
  intros He IH a. rewrite errors_as_step, first_hit_step, <- IH by done.
  destruct (cap e); split.
  - intros ->. by left.
  - by intros [->|[? _]].
  - intros H. by right.
  - by intros [?|[_ H]].
Qed.

(** [errors_as] agrees with the chain: the capability of the outermost
    wrapper of the chain that has one. *)
Lemma errors_as_chain {A} (cap : error -> option A) e :
  errors_as cap e = head (omap cap (chain e)).
Proof. by rewrite errors_as_first_map, first_map_head_omap. Qed.

(** C5: (refinement) [errors.As] finds what the specification of the
    standard library promises: [errors_as cap e] is [Some a] exactly when
    some value along the [Unwrap] chain of [e] has the capability, with
    [a], and every value before it is non-nil and lacks it. *)
Theorem errors_as_Unwrap {A} (cap : error -> option A) e a :
  errors_as cap e = Some a <-> exists n, first_hit cap e n a.
Proof.
  revert a. induction e;
    first [ apply errors_as_Unwrap_Nil
          | apply errors_as_Unwrap_step; [discriminate | first [exact IHe | apply errors_as_Unwrap_Nil]] ].
Qed.


(** ** The lookups of wrap.go and public.go *)

(** [StatusCode] of [Wrap(c, e)] is [c], whatever [e] carries. *)
Theorem StatusCode_Wrap c e : StatusCode (Wrap c e) = c.
Proof. reflexivity. Qed.

Lemma StatusCode_errorWithPublic b e : StatusCode (errorWithPublic b e) = StatusCode e.
Proof. reflexivity. Qed.

Lemma IsPublic_errorWithStatus c e : IsPublic (errorWithStatus c e) = IsPublic e.
Proof. reflexivity. Qed.

Lemma StatusCode_pkg_wrap e m st : StatusCode (pkg_wrap e m st) = StatusCode e.
Proof. by destruct e. Qed.

Lemma IsPublic_pkg_wrap e m st : IsPublic (pkg_wrap e m st) = IsPublic e.
Proof. by destruct e. Qed.

(** No wrapper of the chain carries a status code, at any depth:
    [StatusCode] is 0. *)
Theorem StatusCode_absent e :
  Forall (fun x => status_cap x = None) (chain e) -> StatusCode e = 0%Z.
Proof. intros H. unfold StatusCode. by rewrite errors_as_none. Qed.

(** The outermost visibility wrapper decides, whatever the wrapped
    error says: [IsPublic(errorWithPublic{b, e}) = b]. *)
Theorem IsPublic_outer_wins b e : IsPublic (errorWithPublic b e) = b.
Proof. reflexivity. Qed.

Lemma IsPublic_absent e :
  Forall (fun x => public_cap x = None) (chain e) -> IsPublic e = false.
Proof. intros H. unfold IsPublic. by rewrite errors_as_none. Qed.

(** Every generic error of codes.go has its declared status code, is
    private, and has the reason phrase of its code as its text. *)
Theorem generic_errors_spec :
  Forall (fun '(c, e) => StatusCode e = c /\ IsPublic e = false /\ Error e = Returns (StatusText c)
                         /\ StatusText c <> "")
         generic_errors.
Proof. vm_compute. repeat constructor; discriminate. Qed.

(** [httperr.Public(code, err)] as json.go uses it carries the code
    and is public. *)
Theorem Public_spec c e : StatusCode (Public c e) = c /\ IsPublic (Public c e) = true.
Proof. split; reflexivity. Qed.

(** [Error()] on a wrapper of a nil error dereferences nil. *)
Lemma Error_wrap_nil c : Error (Wrap c Nil) = Panics nil_deref.
Proof. reflexivity. Qed.

(** [pkgerrors.Cause] stops at the first value without a [Cause()]
    method, so it never looks through httperr's wrappers. *)
Lemma Cause_stops_at_httperr c e : Cause (errorWithStatus c e) = errorWithStatus c e.
Proof. reflexivity. Qed.

Lemma Cause_pkg_wrap e m st : e <> Nil -> Cause (pkg_wrap e m st) = Cause e.
Proof. by destruct e. Qed.

(** ** Witnesses *)

Lemma StatusCode_absent_witness :
  Forall (fun x => status_cap x = None)
         (chain (pkg_wrap (WrapPublic (errorString "no code")) "while frobbing" "stack")) /\
  StatusCode (pkg_wrap (WrapPublic (errorString "no code")) "while frobbing" "stack") = 0%Z.
Proof.
  split; [vm_compute; repeat constructor|].
  apply StatusCode_absent. vm_compute. repeat constructor.
Defined.

End HttpErr.
