(* ===== verification/Render.v ===== *)
(** * Rendering an error as an HTTP response (write.go,
      too_many_requests.go, response.go)

    [Write] renders any error on a response writer: an error of the chain
    that renders itself ([ResponseWriter]) takes over; otherwise the
    status is [StatusCode] (500 when none), the [X-Error-Message] header
    carries the message of [pkgerrors.Cause] when the error is public,
    and the body is the reason phrase of the status.  [TooManyRequests]
    renders itself with a [Retry-After] header computed from the clock
    [Now] (an argument here: a package variable in the code).  The
    abstract contract is [render_spec], a [rendering] computed from the
    chain specification of Errors; [Write_refines] proves that [Write]
    performs it. *)

From S2P Require Import Prelude GoHttp Errors.
Local Open Scope string_scope.

Module Render.
Import HttpErr.

(** ** too_many_requests.go *)

Definition Second : Z := 1000000000.

(** [t.Sub(u)] on wall-clock nanoseconds: the difference, saturated to
    the [int64] range of [time.Duration]. *)
Definition time_Sub (t u : Z) : Z := saturate64 (t - u).

(** [int(d.Seconds())] after the clamp at zero: the whole seconds of a
    non-negative duration, 0 for a negative one. *)
Definition retry_after_seconds (RetryAfter now : Z) : Z :=
  let retryAfter := time_Sub RetryAfter now in
  if (retryAfter <? 0)%Z then 0%Z else Z.quot retryAfter Second.

(** [TooManyRequests.WriteResponse]. *)
Definition TooManyRequests_WriteResponse (now : Z) (RetryAfter : option Z) (r : request)
  : M response unit :=
  do _ <- match RetryAfter with
          | Some t => add_header "Retry-After" (pretty (retry_after_seconds t now))
          | None => ret tt
          end;
  http_Error (StatusText 429) 429.

(** The [WriteResponse] method of the value [errors.As] found. *)
Definition WriteResponse (now : Z) (rw : error) (r : request) : M response unit :=
  match rw with
  | TooManyRequests ra => TooManyRequests_WriteResponse now ra r
  | userError _ _ _ (Some respond) _ => respond r
  | _ => ret tt
  end.

(** ** write.go *)

Definition Write (now : Z) (r : request) (err : error) : M response unit :=
  match errors_as writer_cap err with
  | Some rw => WriteResponse now rw r
  | None =>
      let statusCode := StatusCode err in
      let statusCode := if (statusCode =? 0)%Z then 500%Z else statusCode in
      do _ <- (if IsPublic err then
                 do errText <- lift (Error err);
                 do errText <- (let rootErr := Cause err in
                                if is_nil rootErr then ret errText else lift (Error rootErr));
                 add_header "X-Error-Message" errText
               else ret tt);
      http_Error (StatusText statusCode) statusCode
  end.

(** ** response.go *)

(** [Response.Error]: the status line, and the [X-Error-Message] header
    after a colon when there is one. *)
Definition Response_Error (re : client_response) : string :=
  let msg := header_get "X-Error-Message" (cr_Header re) in
  let msg := if String.eqb msg "" then msg else ": " ++ msg in
  cr_Status re ++ msg.

(** ** The rendering contract *)

Inductive rendering :=
| SelfRendered (rw : error)
| Generic (code : Z) (message : option (outcome string)).

(** The precedence of the specification, on the chain: a self-rendering
    error first; else the outermost status code (500 when absent or 0)
    and, when the outermost visibility mark is public, the text of the
    root cause. *)
Definition render_spec (err : error) : rendering :=
  match first_map writer_cap (chain err) with
  | Some rw => SelfRendered rw
  | None =>
      let c := default 0%Z (first_map status_cap (chain err)) in
      Generic (if (c =? 0)%Z then 500%Z else c)
              (if bool_decide (first_map public_cap (chain err) = Some true)
               then Some (Error (Cause err)) else None)
  end.

Definition perform (now : Z) (r : request) (rd : rendering) : M response unit :=
  match rd with
  | SelfRendered rw => WriteResponse now rw r
  | Generic code msg =>
      do _ <- match msg with
              | Some text => do t <- lift text; add_header "X-Error-Message" t
              | None => ret tt
              end;
      http_Error (StatusText code) code
  end.

(** The header a writer sends from [http.Error]. *)
Definition error_header (h : header) : header :=
  header_set "X-Content-Type-Options" "nosniff"
    (header_set "Content-Type" "text/plain; charset=utf-8" h).

Definition newline : string := String "010"%char EmptyString.

(** The status [Write] resolves for an error without a renderer. *)
Definition resolved_status (err : error) : Z :=
  let c := StatusCode err in if (c =? 0)%Z then 500%Z else c.

(** The response a generic rendering leaves on a writer whose header is
    not yet written. *)
Definition generic_response (w : response) (code : Z) (msg : option string) : response :=
  let h := match msg with
           | Some m => header_add "X-Error-Message" m (resp_header w)
           | None => resp_header w
           end in
  {| resp_code := code; resp_header := error_header h; resp_sent := Some (error_header h);
     resp_body := resp_body w ++ StatusText code ++ newline |}.

(** The errors of write_test.go. *)
Definition teapot_private : error := Wrap 418 (errorString "cannot frob the grob").
Definition teapot_public : error := WrapPublic (Wrap 418 (errorString "cannot frob the grob")).
Definition req0 : request := test_request "".

(** A pkg/errors context inside an httperr wrapper inside another
    context. *)
Definition nested_public : error :=
  pkg_wrap (WrapPublic (Wrap 418 (pkg_wrap (errorString "cannot frob the grob")
                                      "while trying to frob" "stack2")))
           "while serving" "stack1".

(** The custom renderer of write_test.go: status 999 and a greeting. *)
Definition differentResponseWriter : error :=
  userError "foo" None None
    (Some (fun _ => do _ <- write_header 999; write_body ("Hello, world!" ++ newline))) Nil.

(** ** Lemmas *)

(** The message of an error and of its root cause: either both panic
    with the same message, or the root is not nil and has a text. *)
Lemma Error_Cause e :
  match Error e with
  | Returns _ => is_nil (Cause e) = false /\ exists s, Error (Cause e) = Returns s
  | Panics p => Error (Cause e) = Panics p
  end.
Proof.
  induction e; simpl; eauto;
    destruct (Error e) as [s|p] eqn:He; simpl in *; try rewrite He; eauto.
Qed.

(** [Write] computes [err.Error()] and then replaces it by the text of
    the root cause: the net effect is the text of the root cause. *)
Lemma root_message_bind {B} e (k : string -> M response B) w :
  bind (lift (Error e))
       (fun t => bind (if is_nil (Cause e) then ret t else lift (Error (Cause e))) k) w
  = bind (lift (Error (Cause e))) k w.
Proof.
  pose proof (Error_Cause e) as H.
  destruct (Error e) as [s|p]; simpl.
  - destruct H as [-> [s' ->]]. reflexivity.
  - by rewrite H.
Qed.

Lemma Write_perform now r err w :
  Write now r err w = perform now r (render_spec err) w.
Proof.
  unfold Write, render_spec, StatusCode, IsPublic. rewrite !errors_as_first_map.
  destruct (first_map writer_cap (chain err)) as [rw|]; [done|].
  destruct (first_map public_cap (chain err)) as [[]|]; simpl;
    rewrite ?bool_decide_true, ?bool_decide_false by congruence; simpl; [|done|done].
  unfold bind at 1. rewrite root_message_bind. reflexivity.
Qed.

Lemma http_Error_fresh text code w :
  resp_sent w = None -> valid_code code = true ->
  http_Error text code w =
  Returns (tt, {| resp_code := code; resp_header := error_header (resp_header w);
                  resp_sent := Some (error_header (resp_header w));
                  resp_body := resp_body w ++ text ++ newline |}).
Proof. intros Hs Hv. resp_run. rewrite Hs, Hv. reflexivity. Qed.

Lemma http_Error_invalid text code w :
  resp_sent w = None -> valid_code code = false ->
  http_Error text code w = Panics ("invalid WriteHeader code " ++ pretty code).
Proof. intros Hs Hv. resp_run. by rewrite Hs, Hv. Qed.

Lemma render_spec_generic err :
  errors_as writer_cap err = None ->
  render_spec err =
  Generic (resolved_status err)
          (if IsPublic err then Some (Error (Cause err)) else None).
Proof.
  unfold render_spec, resolved_status, StatusCode, IsPublic. rewrite !errors_as_first_map.
  intros ->. simpl. f_equal.
  destruct (first_map public_cap (chain err)) as [[]|];
    [rewrite bool_decide_true | rewrite bool_decide_false | rewrite bool_decide_false];
    congruence.
Qed.

Lemma perform_generic_fresh now r code msg w :
  resp_sent w = None -> valid_code code = true ->
  perform now r (Generic code (option_map Returns msg)) w =
  Returns (tt, generic_response w code msg).
Proof.
  intros Hs Hv. destruct msg as [m|]; simpl; go_run;
    rewrite (http_Error_fresh _ _ _ Hs Hv) || (rewrite http_Error_fresh; [|done|done]);
    reflexivity.
Qed.

(** C6: a private error is rendered with its status (500 when none) and
    the reason phrase of that status as the body; no message header is
    added, whatever the error's text. *)
Theorem Write_private now r err w :
  errors_as writer_cap err = None -> IsPublic err = false ->
  valid_code (resolved_status err) = true -> resp_sent w = None ->
  Write now r err w = Returns (tt, generic_response w (resolved_status err) None).
Proof.
  intros Hw Hp Hv Hs. rewrite Write_perform, render_spec_generic, Hp by done.
  exact (perform_generic_fresh now r _ None w Hs Hv).
Qed.

Lemma Write_public_fresh now r err w m :
  errors_as writer_cap err = None -> IsPublic err = true ->
  Error (Cause err) = Returns m ->
  valid_code (resolved_status err) = true -> resp_sent w = None ->
  Write now r err w = Returns (tt, generic_response w (resolved_status err) (Some m)).
Proof.
  intros Hw Hp Hm Hv Hs. rewrite Write_perform, render_spec_generic, Hp, Hm by done.
  exact (perform_generic_fresh now r _ (Some m) w Hs Hv).
Qed.

(** C1: [Write] implements the rendering contract [render_spec]. *)
Theorem Write_refines now r err w :
  Write now r err w = perform now r (render_spec err) w.
Proof. apply Write_perform. Qed.

(** C7: a public error is rendered with its status and the text of its
    root cause in an [X-Error-Message] header. *)
Theorem Write_public now r err w m :
  errors_as writer_cap err = None -> IsPublic err = true ->
  Error (Cause err) = Returns m ->
  valid_code (resolved_status err) = true -> resp_sent w = None ->
  Write now r err w = Returns (tt, generic_response w (resolved_status err) (Some m)).
Proof. apply Write_public_fresh. Qed.

(** C27: the code enforces no range on status codes, but the response
    writer does: a private error whose status is outside 100..999 (other
    than 0) makes [Write] panic instead of answering. *)
Theorem Write_invalid_status_panics now r err w :
  errors_as writer_cap err = None -> IsPublic err = false ->
  valid_code (resolved_status err) = false -> resp_sent w = None ->
  Write now r err w = Panics ("invalid WriteHeader code " ++ pretty (resolved_status err)).
Proof.
  intros Hw Hp Hv Hs. rewrite Write_perform, render_spec_generic, Hp by done.
  simpl. go_run. exact (http_Error_invalid _ _ _ Hs Hv).
Qed.

(** C34: (error) on a public error that renders no response itself,
    [Write] calls [err.Error()] before it looks at the root cause, so
    when that call panics (a public error over a nil error, say) [Write]
    panics with it, whatever text the root cause would have had. *)
Theorem Write_public_Error_panics now r err p w :
  errors_as writer_cap err = None -> IsPublic err = true -> Error err = Panics p ->
  Write now r err w = Panics p.
Proof.
  intros Hw Hp He. unfold Write. rewrite Hw, Hp. unfold bind at 1 2, lift. by rewrite He.
Qed.

(** An error that renders itself takes precedence over any status
    code or visibility wrapped around it. *)
Theorem Write_self_rendering now r err rw c b w :
  errors_as writer_cap err = Some rw ->
  Write now r (Wrap c (errorWithPublic b err)) w = WriteResponse now rw r w.
Proof. intros H. unfold Write. simpl. by rewrite H. Qed.

(** C28: [pkgerrors.Cause] stops at httperr's wrappers: the message of a
    public error wrapped by pkg/errors is the whole text of the error
    under [Wrap], with its own pkg/errors contexts, not the text of its
    root. *)
Theorem Write_message_stops_at_httperr now r c e m msg st :
  errors_as writer_cap e = None -> Error e = Returns m ->
  valid_code c = true -> c <> 0%Z ->
  Write now r (pkg_wrap (WrapPublic (Wrap c e)) msg st) fresh_response =
  Returns (tt, generic_response fresh_response c (Some m)).
Proof.
  intros Hw Hm Hv Hc.
  assert (resolved_status (pkg_wrap (WrapPublic (Wrap c e)) msg st) = c) as Hr.
  { unfold resolved_status, StatusCode. simpl. destruct (Z.eqb_spec c 0); [congruence | reflexivity]. }
  rewrite <- Hr at 2.
  apply Write_public_fresh; [simpl; exact Hw | reflexivity | simpl; exact Hm | by rewrite Hr | reflexivity].
Qed.

(** ** Retry-After *)

(** C29: the [Retry-After] delay is never negative and never exceeds the
    whole seconds of the largest [time.Duration]. *)
Theorem retry_after_bounds t now :
  (0 <= retry_after_seconds t now <= int64_max / Second)%Z.
Proof.
  unfold retry_after_seconds, time_Sub. pose proof (saturate64_bounds (t - now)).
  destruct (Z.ltb_spec (saturate64 (t - now)) 0).
  { split; [lia|]. apply Z.div_pos; unfold int64_max, Second; lia. }
  rewrite Z.quot_div_nonneg by (unfold Second; lia).
  split; [apply Z.div_pos; unfold Second; lia|].
  apply Z.div_le_mono; unfold Second; lia.
Qed.

(** Within the [int64] range, the delay is the number of whole
    seconds to the retry time, and 0 once the retry time has passed. *)
Theorem retry_after_exact t now :
  (t - now <= int64_max)%Z ->
  retry_after_seconds t now = (if (t <? now)%Z then 0 else (t - now) / Second)%Z.
Proof.
  intros Hmax. unfold retry_after_seconds, time_Sub.
  destruct (Z.ltb_spec t now).
  - assert (saturate64 (t - now) < 0)%Z by (apply saturate64_neg; lia).
    by destruct (Z.ltb_spec (saturate64 (t - now)) 0); [|lia].
  - rewrite saturate64_id by (unfold int64_min in *; lia).
    destruct (Z.ltb_spec (t - now) 0); [lia|].
    apply Z.quot_div_nonneg; unfold Second; lia.
Qed.

Lemma header_values_error_header h :
  header_values "X-Error-Message" (error_header h) = header_values "X-Error-Message" h.
Proof.
  unfold error_header. rewrite !header_values_set_ne; [done | vm_compute; congruence ..].
Qed.

(** [TooManyRequests] with a retry time answers 429 with the
    reason phrase and a [Retry-After] header holding the delay. *)
Theorem Write_TooManyRequests now r t :
  Write now r (TooManyRequests (Some t)) fresh_response =
  Returns (tt, {| resp_code := 429;
                  resp_header := error_header (header_add "Retry-After"
                                   (pretty (retry_after_seconds t now)) ∅);
                  resp_sent := Some (error_header (header_add "Retry-After"
                                   (pretty (retry_after_seconds t now)) ∅));
                  resp_body := "Too Many Requests" ++ newline |}).
Proof. reflexivity. Qed.

(** A client reading a public error written on a fresh writer gets,
    from [Response.Error], the status line and the public message. *)
Theorem Response_Error_roundtrip now r err m :
  errors_as writer_cap err = None -> IsPublic err = true ->
  Error (Cause err) = Returns m -> m <> "" ->
  valid_code (resolved_status err) = true ->
  exists w, Write now r err fresh_response = Returns (tt, w) /\
    Response_Error (received w) =
    pretty (resolved_status err) ++ " " ++ status_line_text (resolved_status err) ++ ": " ++ m.
Proof.
  intros Hw Hp Hm Hne Hv. eexists. split; [by apply Write_public_fresh|].
  unfold Response_Error, received, generic_response. simpl.
  unfold header_get. rewrite header_values_error_header.
  unfold header_values, header_add. rewrite lookup_insert_eq, lookup_empty. simpl.
  rewrite (proj2 (String.eqb_neq m "") Hne). by rewrite !string_app_assoc.
Qed.

(** ** Witnesses *)

Lemma Write_private_witness :
  Write 0 req0 teapot_private fresh_response =
  Returns (tt, generic_response fresh_response 418 None) /\
  resp_body (generic_response fresh_response 418 None) = "I'm a teapot" ++ newline.
Proof.
  split; [|reflexivity].
  apply (Write_private 0 req0 teapot_private fresh_response); reflexivity.
Defined.

Lemma Write_public_witness :
  Write 0 req0 teapot_public fresh_response =
  Returns (tt, generic_response fresh_response 418 (Some "cannot frob the grob")).
Proof. apply (Write_public 0 req0 teapot_public fresh_response); reflexivity. Defined.

Lemma Write_invalid_status_panics_witness :
  Write 0 req0 (Wrap 1000 (errorString "too big")) fresh_response =
  Panics ("invalid WriteHeader code " ++ pretty 1000%Z).
Proof.
  exact (Write_invalid_status_panics 0 req0 (Wrap 1000 (errorString "too big")) fresh_response
           eq_refl eq_refl eq_refl eq_refl).
Defined.

Lemma Write_self_rendering_witness :
  Write 0 req0 (Wrap 400 (errorWithPublic true differentResponseWriter)) fresh_response =
  WriteResponse 0 differentResponseWriter req0 fresh_response.
Proof. apply (Write_self_rendering 0 req0 differentResponseWriter); reflexivity. Defined.

Lemma retry_after_exact_witness :
  retry_after_seconds (5 * Second + 7) 0 = 5%Z /\ retry_after_seconds 0 (3 * Second) = 0%Z.
Proof.
  split.
  - rewrite (retry_after_exact (5 * Second + 7) 0); [reflexivity | vm_compute; discriminate].
  - rewrite (retry_after_exact 0 (3 * Second)); [reflexivity | vm_compute; discriminate].
Defined.

Lemma Response_Error_roundtrip_witness :
  exists w, Write 0 req0 teapot_public fresh_response = Returns (tt, w) /\
    Response_Error (received w) = "418 I'm a teapot: cannot frob the grob".
Proof.
  apply (Response_Error_roundtrip 0 req0 teapot_public "cannot frob the grob");
    (reflexivity || discriminate).
Defined.

Lemma Write_message_stops_at_httperr_witness :
  Write 0 req0 nested_public fresh_response =
  Returns (tt, generic_response fresh_response 418
                 (Some "while trying to frob: cannot frob the grob")).
Proof. apply Write_message_stops_at_httperr; (reflexivity || discriminate). Defined.

Lemma Write_public_Error_panics_witness :
  Write 0 (test_request "") (WrapPublic (Wrap 418 Nil)) fresh_response = Panics nil_deref.
Proof. apply Write_public_Error_panics; reflexivity. Defined.

End Render.
