(* ===== verification/Translate.v ===== *)
(** * The error translator stack (translate.go)

    [errorTranslators] is a package variable: [RegisterErrorTranslator]
    puts a new holder in front of it, and [TranslateError] runs the
    translators front to back.  The model keeps the stack as state, the
    registration log (in registration order) as ghost state beside it,
    and the reachable states as a step relation from the empty stack.
    The invariant is that the stack is the log reversed; the abstract
    contract, [pipeline], applies the translators last-registered-first. *)

From S2P Require Import Prelude GoHttp Errors.

Module Translate.
Import HttpErr.

(** [ErrorTranslatorFunc]; the pointer holders of the Go code add nothing
    observable. *)
Definition ErrorTranslatorFunc := error -> error.

(** [RegisterErrorTranslator]: prepend to the stack. *)
Definition RegisterErrorTranslator (f : ErrorTranslatorFunc) : M (list ErrorTranslatorFunc) unit :=
  modify (fun errorTranslators => f :: errorTranslators).

(** [TranslateError]: [for _, et := range errorTranslators { err = et.F(err) }]. *)
Definition TranslateError (errorTranslators : list ErrorTranslatorFunc) (err : error) : error :=
  fold_left (fun err et => et err) errorTranslators err.

(** ** The registration lifecycle *)

Record state := mkState {
  st_stack : list ErrorTranslatorFunc;
  st_log : list ErrorTranslatorFunc   (* ghost: registrations, oldest first *)
}.

Definition init : state := {| st_stack := []; st_log := [] |}.

Definition register (f : ErrorTranslatorFunc) (s : state) : state :=
  {| st_stack := match RegisterErrorTranslator f (st_stack s) with
                 | Returns (_, l) => l
                 | Panics _ => st_stack s
                 end;
     st_log := st_log s ++ [f] |}.

Inductive reachable : state -> Prop :=
| reach_init : reachable init
| reach_register s f : reachable s -> reachable (register f s).

(** The contract: the translators applied last-registered-first. *)
Definition pipeline (log : list ErrorTranslatorFunc) (err : error) : error :=
  fold_right (fun f e => f e) err log.

(** Registering a list of translators in order from the empty stack. *)
Definition register_all (fs : list ErrorTranslatorFunc) : state :=
  fold_left (fun s f => register f s) fs init.

(** Two registrations: [WrapPublic], then a 500 status. *)
Definition demo_state : state := register (Wrap 500) (register WrapPublic init).

(** ** Lemmas *)

Lemma register_stack f s : st_stack (register f s) = f :: st_stack s.
Proof. reflexivity. Qed.

Lemma TranslateError_cons f ts err : TranslateError (f :: ts) err = TranslateError ts (f err).
Proof. reflexivity. Qed.

Lemma TranslateError_rev log err : TranslateError (rev log) err = pipeline log err.
Proof.
  induction log as [|f log IH]; [done|].
  unfold TranslateError in *. cbn [rev]. rewrite fold_left_app. simpl. f_equal. exact IH.
Qed.

Lemma stack_rev_log s : reachable s -> st_stack s = rev (st_log s).
Proof.
  induction 1 as [|s f _ IH]; [done|].
  rewrite register_stack, IH. simpl. by rewrite rev_unit.
Qed.

Lemma TranslateError_pipeline s err :
  reachable s -> TranslateError (st_stack s) err = pipeline (st_log s) err.
Proof. intros H. by rewrite (stack_rev_log s H), TranslateError_rev. Qed.

(** C11: in every reachable state the stack is the registration log
    reversed (rule induction on the registrations). *)
Theorem stack_is_reversed_log s : reachable s -> st_stack s = rev (st_log s).
Proof. apply stack_rev_log. Qed.

(** C10: in every reachable state [TranslateError] implements the
    contract: the last registered translator runs first. *)
Theorem TranslateError_refines s err :
  reachable s -> TranslateError (st_stack s) err = pipeline (st_log s) err.
Proof. apply TranslateError_pipeline. Qed.

Lemma register_all_reachable fs : reachable (register_all fs).
Proof.
  unfold register_all. cut (forall s, reachable s -> reachable (fold_left (fun s f => register f s) fs s)).
  { intros H. apply H, reach_init. }
  induction fs as [|f fs IH]; simpl; [done|]. intros s Hs. apply IH. by constructor.
Qed.

Lemma register_all_log fs : st_log (register_all fs) = fs.
Proof.
  unfold register_all. cut (forall s, st_log (fold_left (fun s f => register f s) fs s) = st_log s ++ fs).
  { intros H. by rewrite H. }
  induction fs as [|f fs IH]; intros s; simpl; [by rewrite app_nil_r|].
  rewrite IH. simpl. by rewrite <- app_assoc.
Qed.

(** Registering [T1] then [T2] makes [TranslateError] apply [T2]
    first and then [T1]. *)
Theorem translate_order T1 T2 err :
  TranslateError (st_stack (register_all [T1; T2])) err = T1 (T2 err).
Proof.
  rewrite TranslateError_pipeline by apply register_all_reachable.
  by rewrite register_all_log.
Qed.

(** With nothing registered, translation is the identity. *)
Lemma TranslateError_nil err : TranslateError [] err = err.
Proof. reflexivity. Qed.

(** ** Witnesses *)

Lemma stack_is_reversed_log_witness :
  reachable demo_state /\ st_stack demo_state = rev (st_log demo_state).
Proof.
  split; [repeat constructor|]. apply stack_is_reversed_log. repeat constructor.
Defined.

Lemma TranslateError_refines_witness :
  TranslateError (st_stack demo_state) (errorString "x") =
  pipeline (st_log demo_state) (errorString "x") /\
  pipeline (st_log demo_state) (errorString "x") = WrapPublic (Wrap 500 (errorString "x")).
Proof.
  split; [|reflexivity]. apply TranslateError_refines. repeat constructor.
Defined.

End Translate.
