(* ===== verification/TranslateRace.v ===== *)
(** * Concurrent registration of error translators (translate.go)

    [RegisterErrorTranslator] is documented as "not go-routine safe":
    its body [holder := &errorTranslatorFuncHolder{F: f};
    errorTranslators = append([]*errorTranslatorFuncHolder{holder},
    errorTranslators...)] reads the package variable, builds a new slice
    and writes it back.  Here each call is a goroutine that takes two
    steps, the read and the write, and a scheduler picks which goroutine
    steps next ([reg_step], with the stutter of a thread that cannot
    step, as a scheduler over a thread pool does).  Holders are
    distinguished by their address, which is the index of the call that
    allocated it.

    The theorems show that two calls that both read before either writes
    lose the first writer's translator, that in every interleaving the
    stack holds only holders of completed calls, each at most once, above
    the initial stack (an invariant by rule induction), and that a serial
    schedule registers last-first as the contract [pipeline] of
    [Translate] says.  Every interleaving also completes every call
    ([completes_all]): each call is two steps with no loop or lock, so
    that is a fact of the model's shape rather than of the code. *)

From S2P Require Import Prelude GoHttp Errors Translate.

Module TranslateRace.
Import HttpErr Translate.

(** [errorTranslatorFuncHolder]; [H_ptr] is the address [&] gave it. *)
Record errorTranslatorFuncHolder := mkHolder { H_ptr : nat; F : ErrorTranslatorFunc }.

(** A goroutine inside [RegisterErrorTranslator(f)]: before the read of
    [errorTranslators], after it (holding the slice it read), or
    returned. *)
Inductive call :=
| Start (f : ErrorTranslatorFunc)
| Read (f : ErrorTranslatorFunc) (snapshot : list errorTranslatorFuncHolder)
| Done (f : ErrorTranslatorFunc).

Record world := mkWorld {
  errorTranslators : list errorTranslatorFuncHolder;
  calls : list call
}.

(** One step of goroutine [i]: [None] when it has returned or does not
    exist. *)
Definition reg_step (i : nat) (w : world) : option world :=
  match calls w !! i with
  | Some (Start f) =>
      Some {| errorTranslators := errorTranslators w; calls := <[i := Read f (errorTranslators w)]> (calls w) |}
  | Some (Read f snapshot) =>
      Some {| errorTranslators := mkHolder i f :: snapshot; calls := <[i := Done f]> (calls w) |}
  | _ => None
  end.

Inductive step : world -> world -> Prop :=
| step_thread i w w' : reg_step i w = Some w' -> step w w'.

(** A run under a schedule; a goroutine that cannot step stutters. *)
Fixpoint run (sched : list nat) (w : world) : world :=
  match sched with
  | [] => w
  | i :: sched' => run sched' (default w (reg_step i w))
  end.

(** The calls [fs] started concurrently over the stack [stk]. *)
Definition start (fs : list ErrorTranslatorFunc) (stk : list errorTranslatorFuncHolder) : world :=
  {| errorTranslators := stk; calls := map Start fs |}.

Definition is_done (c : call) : bool := match c with Done _ => true | _ => false end.

Definition all_done (w : world) : bool := forallb is_done (calls w).

(** The steps a call still has to take. *)
Definition pending (c : call) : nat := match c with Start _ => 2 | Read _ _ => 1 | Done _ => 0 end.

Definition remaining (w : world) : nat := sum_list (map pending (calls w)).

(** Each call run to its end before the next starts. *)
Definition serial (order : list nat) : list nat := flat_map (fun i => [i; i]) order.

(** ** Specification *)

(** What a world promises: the stack is a list [l] of holders above the
    initial stack, each the holder of a completed call with that call's
    function, no address twice; and every goroutine between its read and
    its write holds a snapshot of the same form. *)
Definition holders_ok (l : list errorTranslatorFuncHolder) (cs : list call) : Prop :=
  NoDup (map H_ptr l) /\ Forall (fun h => cs !! H_ptr h = Some (Done (F h))) l.

Definition race_inv (stk : list errorTranslatorFuncHolder) (w : world) : Prop :=
  (exists l, errorTranslators w = l ++ stk /\ holders_ok l (calls w)) /\
  (forall i f snap, calls w !! i = Some (Read f snap) ->
     exists l, snap = l ++ stk /\ holders_ok l (calls w)).

(** Every way the scheduler can go ends with all calls returned: the
    world either has all calls done, or it can step and every step leads
    to such a world. *)
Inductive completes : world -> Prop :=
| completes_done w : all_done w = true -> completes w
| completes_step w :
    all_done w = false -> (exists w', step w w') -> (forall w', step w w' -> completes w') -> completes w.

(** ** Lemmas *)

Lemma run_app s1 s2 w : run (s1 ++ s2) w = run s2 (run s1 w).
Proof. revert w. induction s1 as [|i s1 IH]; intros w; [done|]. apply IH. Qed.

(** Updating a call that has not returned leaves the holders of
    returned calls in place, and none of them has its address. *)
Lemma holders_ok_insert l cs i c c' :
  holders_ok l cs -> cs !! i = Some c -> is_done c = false ->
  holders_ok l (<[i := c']> cs) /\ i ∉ map H_ptr l.
Proof.
  intros [Hnd Hall] Hi Hc.
  assert (Hne : forall h, h ∈ l -> H_ptr h <> i).
  { intros h Hh Heq. rewrite Forall_forall in Hall. specialize (Hall h Hh). rewrite Heq, Hi in Hall.
    by injection Hall as ->. }
  split; [split; [done|]|].
  - apply Forall_forall. intros h Hh. rewrite list_lookup_insert_ne by (apply not_eq_sym, Hne, Hh).
    rewrite Forall_forall in Hall. by apply Hall.
  - intros (h & Hp & Hh)%list_elem_of_fmap. by apply (Hne h).
Qed.

Lemma race_inv_start fs stk : race_inv stk (start fs stk).
Proof.
  split.
  - exists []. split; [done|]. split; constructor.
  - intros i f snap. cbn [calls start]. rewrite list_lookup_fmap. by destruct (fs !! i).
Qed.

Lemma race_inv_step stk w w' : race_inv stk w -> step w w' -> race_inv stk w'.
Proof.
  intros [(l & Hstk & Hok) Hread] Hst. inversion Hst as [i ? ? Hs]; subst. unfold reg_step in Hs.
  destruct (calls w !! i) as [[f|f snap|f]|] eqn:Hi; simpl in Hs; try discriminate; injection Hs as <-.
  - destruct (holders_ok_insert l (calls w) i _ (Read f (errorTranslators w)) Hok Hi eq_refl) as [Hok' _].
    split; [by exists l|]. cbn [calls]. intros j g sn Hj.
    destruct (decide (i = j)) as [<-|Hne].
    + rewrite list_lookup_insert_eq in Hj by (eapply lookup_lt_Some; eauto). injection Hj as <- <-.
      by exists l.
    + rewrite list_lookup_insert_ne in Hj by done. destruct (Hread j g sn Hj) as (l' & -> & Hok'').
      exists l'. split; [done|]. by apply (holders_ok_insert l' (calls w) i (Start f)).
  - destruct (Hread i f snap Hi) as (l' & -> & Hok').
    destruct (holders_ok_insert l' (calls w) i _ (Done f) Hok' Hi eq_refl) as [[Hnd Hall] Hnot].
    split.
    + exists (mkHolder i f :: l'). split; [done|]. split.
      * constructor; [exact Hnot | exact Hnd].
      * constructor; [|exact Hall]. cbn. apply list_lookup_insert_eq. eapply lookup_lt_Some; eauto.
    + cbn [calls]. intros j g sn Hj. destruct (decide (i = j)) as [<-|Hne].
      * rewrite list_lookup_insert_eq in Hj by (eapply lookup_lt_Some; eauto). discriminate.
      * rewrite list_lookup_insert_ne in Hj by done. destruct (Hread j g sn Hj) as (l'' & -> & Hok'').
        exists l''. split; [done|]. by apply (holders_ok_insert l'' (calls w) i (Read f (l' ++ stk))).
Qed.

Lemma race_inv_rtc stk w w' : race_inv stk w -> rtc step w w' -> race_inv stk w'.
Proof. intros H Hr. induction Hr; eauto using race_inv_step. Qed.

(** The measure: replacing a call changes the remaining steps by the
    difference of their pending steps. *)
Lemma sum_pending_insert cs i c c' :
  cs !! i = Some c ->
  sum_list (map pending (<[i := c']> cs)) + pending c = sum_list (map pending cs) + pending c'.
Proof.
  revert i. induction cs as [|d cs IH]; intros [|i] Hi; try discriminate; simpl in *.
  - injection Hi as ->. lia.
  - specialize (IH i Hi). lia.
Qed.

Lemma step_decreases w w' : step w w' -> remaining w' < remaining w.
Proof.
  intros Hst. inversion Hst as [i ? ? Hs]; subst. unfold reg_step, remaining in *.
  destruct (calls w !! i) as [[f|f snap|f]|] eqn:Hi; simpl in Hs; try discriminate; injection Hs as <-;
    cbn [calls];
    [pose proof (sum_pending_insert _ _ _ (Read f (errorTranslators w)) Hi) as E
    |pose proof (sum_pending_insert _ _ _ (Done f) Hi) as E]; cbn [pending] in E; lia.
Qed.

Lemma not_all_done cs : forallb is_done cs = false -> exists i c, cs !! i = Some c /\ is_done c = false.
Proof.
  induction cs as [|c cs IH]; [done|]. simpl. destruct (is_done c) eqn:Hc; simpl.
  - intros H. destruct (IH H) as (i & d & Hi & Hd). by exists (S i), d.
  - intros _. by exists 0, c.
Qed.

(** Progress: a call that has not returned can always take its next step. *)
Lemma progress w : all_done w = false -> exists w', step w w'.
Proof.
  intros Hf. destruct (not_all_done _ Hf) as (i & [f|f snap|f] & Hi & Hd); [| |discriminate];
    eexists; apply (step_thread i); unfold reg_step; rewrite Hi; reflexivity.
Qed.

Lemma completes_all w : completes w.
Proof.
  remember (remaining w) as k eqn:Hk. revert w Hk. induction k as [k IH] using lt_wf_ind. intros w ->.
  destruct (all_done w) eqn:Hd; [by apply completes_done|].
  apply completes_step; [done | by apply progress |]. intros w' Hst.
  eapply IH; [apply step_decreases, Hst | reflexivity].
Qed.

(** Running call [k] to its end when it is the first not yet started. *)
Lemma run_call_middle (done_ rest : list call) f stk :
  run [length done_; length done_] {| errorTranslators := stk; calls := done_ ++ Start f :: rest |} =
  {| errorTranslators := mkHolder (length done_) f :: stk; calls := done_ ++ Done f :: rest |}.
Proof.
  assert (Ins : forall c c', <[length done_ := c']> (done_ ++ c :: rest) = done_ ++ c' :: rest).
  { intros c c'. rewrite <- (Nat.add_0_r (length done_)), insert_app_r. reflexivity. }
  cbn [run]. unfold reg_step. cbn [calls errorTranslators].
  rewrite list_lookup_middle by done. cbn [default]. rewrite Ins. cbn [calls errorTranslators id].
  rewrite list_lookup_middle by done. cbn [default]. by rewrite Ins.
Qed.

(** A serial schedule over the first [k] calls. *)
Lemma run_serial_prefix fs stk k :
  k <= length fs ->
  run (serial (seq 0 k)) (start fs stk) =
  {| errorTranslators := rev (zip_with mkHolder (seq 0 k) (take k fs)) ++ stk;
     calls := map Done (take k fs) ++ map Start (drop k fs) |}.
Proof.
  induction k as [|k IH]; intros Hk.
  - reflexivity.
  - destruct (lookup_lt_is_Some_2 fs k) as [x Hx]; [lia|].
    rewrite seq_S, Nat.add_0_l. unfold serial. rewrite flat_map_app. fold (serial (seq 0 k)).
    rewrite run_app, IH by lia. rewrite (drop_S _ _ _ Hx). cbn [map].
    pose proof (run_call_middle (map Done (take k fs)) (map Start (drop (S k) fs)) x
                  (rev (zip_with mkHolder (seq 0 k) (take k fs)) ++ stk)) as Hrun.
    rewrite length_map, length_take, Nat.min_l in Hrun by lia.
    cbn [flat_map app]. rewrite Hrun.
    rewrite (take_S_r _ _ _ Hx), zip_with_app by (rewrite length_seq, length_take; lia).
    rewrite map_app, <- app_assoc. cbn. by rewrite rev_app_distr.
Qed.

Lemma map_F_holders ptrs fs : length ptrs = length fs -> map F (zip_with mkHolder ptrs fs) = fs.
Proof. revert fs. induction ptrs as [|p ptrs IH]; intros [|f fs] Hl; simpl in *; try lia; auto. f_equal. auto. Qed.

Lemma forallb_is_done_map fs : forallb is_done (map Done fs) = true.
Proof. induction fs; simpl; auto. Qed.

Lemma reg_step_write i w f snap :
  calls w !! i = Some (Read f snap) ->
  reg_step i w = Some {| errorTranslators := mkHolder i f :: snap; calls := <[i := Done f]> (calls w) |}.
Proof. intros H. unfold reg_step. by rewrite H. Qed.

(** ** Properties *)

(** C17: (safety) [RegisterErrorTranslator] is not safe for concurrent
    use: in any interleaving, when two calls [i] and [j] have both read
    [errorTranslators] before either has written it back (they hold the
    same slice), writing [i] then [j] returns both calls but leaves [j]'s
    holder on the slice they read, with no holder of [i] above the
    initial stack: [i]'s translator is lost. *)
Theorem race_loses_first_write fs stk w i j f g snap :
  rtc step (start fs stk) w -> i <> j ->
  calls w !! i = Some (Read f snap) -> calls w !! j = Some (Read g snap) ->
  calls (run [i; j] w) !! i = Some (Done f) /\ calls (run [i; j] w) !! j = Some (Done g) /\
  exists l, errorTranslators (run [i; j] w) = mkHolder j g :: l ++ stk /\ i ∉ map H_ptr l.
Proof.
  intros Hr Hij Hi Hj. destruct (race_inv_rtc stk _ _ (race_inv_start fs stk) Hr) as [_ Hread].
  destruct (Hread i f snap Hi) as (l & -> & Hok).
  destruct (holders_ok_insert l (calls w) i _ (Done f) Hok Hi eq_refl) as [_ Hnot].
  assert (Hlen : i < length (calls w)) by (eapply lookup_lt_Some; eauto).
  assert (Hlenj : j < length (calls w)) by (eapply lookup_lt_Some; eauto).
  cbn [run]. rewrite (reg_step_write i w f (l ++ stk)) by done. cbn [default from_option].
  rewrite (reg_step_write j _ g (l ++ stk)) by (cbn [calls id]; by rewrite list_lookup_insert_ne).
  cbn [default from_option id calls errorTranslators].
  split_and!.
  - rewrite list_lookup_insert_ne by done. by rewrite list_lookup_insert_eq.
  - rewrite list_lookup_insert_eq; [done|]. by rewrite length_insert.
  - by exists l.
Qed.


(** C18: (invariant) in every interleaving of concurrent registrations,
    the stack is the initial stack under holders of calls that have
    returned, each with its call's translator and none twice: a race
    can lose a registration but never duplicates or invents one. *)
Theorem race_stack_invariant fs stk w :
  rtc step (start fs stk) w ->
  exists l, errorTranslators w = l ++ stk /\ NoDup (map H_ptr l) /\
            Forall (fun h => calls w !! H_ptr h = Some (Done (F h))) l.
Proof.
  intros Hr. destruct (race_inv_rtc stk _ _ (race_inv_start fs stk) Hr) as [(l & Hl & Hok) _].
  by exists l.
Qed.


(** C19: (refinement) run one after the other, concurrent calls of
    [RegisterErrorTranslator] all return and leave the translators last
    registered first, so that [TranslateError] applies them as the
    contract [pipeline] of the registration order says. *)
Theorem serial_registration_order fs err :
  map F (errorTranslators (run (serial (seq 0 (length fs))) (start fs []))) = rev fs /\
  TranslateError (map F (errorTranslators (run (serial (seq 0 (length fs))) (start fs [])))) err = pipeline fs err /\
  all_done (run (serial (seq 0 (length fs))) (start fs [])) = true.
Proof.
  rewrite run_serial_prefix by lia. rewrite take_ge, drop_ge by lia. cbn [errorTranslators calls all_done].
  rewrite app_nil_r, map_rev, map_F_holders by (rewrite length_seq; lia).
  split_and!; [done | apply TranslateError_rev |]. rewrite app_nil_r. apply forallb_is_done_map.
Qed.


(** ** Witnesses *)

Lemma race_stack_invariant_witness :
  rtc step (start [WrapPublic; Wrap 500] []) (run [0; 1; 0; 1] (start [WrapPublic; Wrap 500] [])) /\
  exists l, errorTranslators (run [0; 1; 0; 1] (start [WrapPublic; Wrap 500] [])) = l ++ [] /\
    NoDup (map H_ptr l) /\
    Forall (fun h => calls (run [0; 1; 0; 1] (start [WrapPublic; Wrap 500] [])) !! H_ptr h = Some (Done (F h))) l.
Proof.
  assert (Hr : rtc step (start [WrapPublic; Wrap 500] []) (run [0; 1; 0; 1] (start [WrapPublic; Wrap 500] []))).
  { eapply rtc_l; [apply (step_thread 0); reflexivity|].
    eapply rtc_l; [apply (step_thread 1); reflexivity|].
    eapply rtc_l; [apply (step_thread 0); reflexivity|].
    eapply rtc_l; [apply (step_thread 1); reflexivity|]. apply rtc_refl. }
  split; [exact Hr|]. exact (race_stack_invariant _ _ _ Hr).
Defined.

Lemma race_loses_first_write_witness :
  let w := run [0; 1] (start [WrapPublic; Wrap 500] []) in
  rtc step (start [WrapPublic; Wrap 500] []) w /\
  calls (run [0; 1] w) !! 0 = Some (Done WrapPublic) /\ calls (run [0; 1] w) !! 1 = Some (Done (Wrap 500)) /\
  exists l, errorTranslators (run [0; 1] w) = mkHolder 1 (Wrap 500) :: l ++ [] /\ 0 ∉ map H_ptr l.
Proof.
  intros w.
  assert (Hr : rtc step (start [WrapPublic; Wrap 500] []) w).
  { eapply rtc_l; [apply (step_thread 0); reflexivity|].
    eapply rtc_l; [apply (step_thread 1); reflexivity|]. apply rtc_refl. }
  split; [exact Hr|]. apply (race_loses_first_write [WrapPublic; Wrap 500] [] w 0 1 WrapPublic (Wrap 500) []); [exact Hr|lia|reflexivity|reflexivity].
Defined.

End TranslateRace.
