(* ===== verification/Report.v ===== *)
(** * Reporting errors (handler.go)

    [OnError] stores a [func(error)] in the request context under the
    unexported key [onErrorIndex]; [ReportError] translates an error with
    the translator stack and then calls that function when the request
    carries one, or renders the error with [Write] otherwise;
    [HandlerFunc.ServeHTTP] reports the error its function returns.

    The state of a request is a [world]: the response being written, the
    translator stack (a package variable), the clock [Now] (a package
    variable), and the log of calls of [OnError] callbacks, which is how
    a callback's invocation is observed.  The class [Handler] is Go's
    [http.Handler] interface. *)

From S2P Require Import Prelude GoHttp Errors Render Translate.

Module Report.
Import HttpErr Render Translate.

Record world := mkWorld {
  w_resp : response;
  w_translators : list ErrorTranslatorFunc;
  w_now : Z;
  w_reported : list (nat * error)   (* callback invocations, oldest first *)
}.

Definition set_resp (w' : response) (w : world) : world :=
  {| w_resp := w'; w_translators := w_translators w; w_now := w_now w;
     w_reported := w_reported w |}.

Definition log_report (f : nat) (err : error) (w : world) : world :=
  {| w_resp := w_resp w; w_translators := w_translators w; w_now := w_now w;
     w_reported := w_reported w ++ [(f, err)] |}.

(** Run a response-writer computation on the world's response. *)
Definition on_resp {A} (m : M response A) : M world A := focus w_resp set_resp m.

(** [OnError(r, f)]; [None] is a nil [func(error)]. *)
Definition OnError (r : request) (f : option nat) : request :=
  with_value CtxKeyOnError (CtxFunc f) r.

Definition nil_func_call : string := nil_deref.

(** [ReportError(w, r, err)]. *)
Definition ReportError (r : request) (err : error) : M world unit :=
  do w <- get;
  let err := TranslateError (w_translators w) err in
  match ctx_value CtxKeyOnError (req_ctx r) with
  | Some v =>
      match v with
      | CtxFunc (Some f) => modify (log_report f err)
      | CtxFunc None => panic nil_func_call
      | CtxOther _ => panic "interface conversion: interface {} is not func(error)"
      end
  | None => on_resp (Write (w_now w) r err)
  end.

(** [HandlerFunc]: a [func(http.ResponseWriter, *http.Request) error]. *)
Record HandlerFunc := mkHandlerFunc { run : request -> M world error }.

(** [http.Handler]. *)
Class Handler (H : Type) := ServeHTTP : H -> request -> M world unit.

(** [HandlerFunc.ServeHTTP]. *)
#[export] Instance HandlerFunc_Handler : Handler HandlerFunc :=
  fun f r =>
    do err <- run f r;
    if is_nil err then ret tt else ReportError r err.

(** A world before any request: fresh response, no translator, clock at
    0, no callback called. *)
Definition world_empty : world :=
  {| w_resp := fresh_response; w_translators := []; w_now := 0; w_reported := [] |}.

Definition ok_handler : HandlerFunc := mkHandlerFunc (fun _ => ret Nil).
Definition not_found_handler : HandlerFunc := mkHandlerFunc (fun _ => ret NotFound).

(** ** Lemmas *)

Lemma ctx_value_OnError r f : ctx_value CtxKeyOnError (req_ctx (OnError r f)) = Some (CtxFunc f).
Proof. reflexivity. Qed.

Lemma ctx_value_other_layer k v r :
  k <> CtxKeyOnError ->
  ctx_value CtxKeyOnError (req_ctx (with_value k v r)) = ctx_value CtxKeyOnError (req_ctx r).
Proof.
  intros Hk. unfold ctx_value. cbn [first_map req_ctx with_value].
  case_decide; congruence.
Qed.

Lemma ReportError_with_callback r err f w :
  ctx_value CtxKeyOnError (req_ctx r) = Some (CtxFunc (Some f)) ->
  ReportError r err w =
  Returns (tt, log_report f (TranslateError (w_translators w) err) w).
Proof. intros H. unfold ReportError. go_run. by rewrite H. Qed.

Lemma ReportError_no_callback r err w :
  ctx_value CtxKeyOnError (req_ctx r) = None ->
  ReportError r err w =
  on_resp (Write (w_now w) r (TranslateError (w_translators w) err)) w.
Proof. intros H. unfold ReportError. go_run. by rewrite H. Qed.

(** C8: with a callback installed, [ReportError] calls it once with the
    translated error and writes nothing to the response. *)
Theorem ReportError_callback r err f w :
  ctx_value CtxKeyOnError (req_ctx r) = Some (CtxFunc (Some f)) ->
  ReportError r err w =
  Returns (tt, log_report f (TranslateError (w_translators w) err) w).
Proof. apply ReportError_with_callback. Qed.

(** C9: without a callback, [ReportError] renders the translated error
    with [Write] and logs nothing. *)
Theorem ReportError_writes r err w :
  ctx_value CtxKeyOnError (req_ctx r) = None ->
  ReportError r err w =
  on_resp (Write (w_now w) r (TranslateError (w_translators w) err)) w.
Proof. apply ReportError_no_callback. Qed.

(** The most recent [OnError] wins: the earlier callback is never
    called. *)
Theorem ReportError_latest_OnError r f1 f2 err w :
  ReportError (OnError (OnError r (Some f1)) (Some f2)) err w =
  Returns (tt, log_report f2 (TranslateError (w_translators w) err) w).
Proof. apply ReportError_with_callback, ctx_value_OnError. Qed.

(** A handler function that returns nil leaves its world as it left
    it: nothing is reported or written. *)
Theorem ServeHTTP_nil (f : HandlerFunc) r w w' :
  run f r w = Returns (Nil, w') -> ServeHTTP f r w = Returns (tt, w').
Proof. intros H. unfold ServeHTTP, HandlerFunc_Handler. by rewrite (bind_returns _ _ _ _ _ H). Qed.

(** A handler function that returns an error has it reported, once,
    in the world it left. *)
Theorem ServeHTTP_error (f : HandlerFunc) r w w' err :
  run f r w = Returns (err, w') -> err <> Nil -> ServeHTTP f r w = ReportError r err w'.
Proof.
  intros H Hn. unfold ServeHTTP, HandlerFunc_Handler. rewrite (bind_returns _ _ _ _ _ H).
  by destruct err.
Qed.

(** C30: (error) a nil callback installed with [OnError] is not "no
    callback": every handler that returns a non-nil error on such a
    request makes [ServeHTTP] panic calling the nil [func(error)], instead
    of rendering the error with [Write]. *)
Theorem ServeHTTP_nil_callback_panics (f : HandlerFunc) r w w' err :
  ctx_value CtxKeyOnError (req_ctx r) = Some (CtxFunc None) ->
  run f r w = Returns (err, w') -> err <> Nil ->
  ServeHTTP f r w = Panics nil_func_call.
Proof.
  intros Hctx Hrun Hn. rewrite (ServeHTTP_error f r w w' err Hrun Hn).
  unfold ReportError. go_run. by rewrite Hctx.
Qed.

(** ** Witnesses *)

Lemma ReportError_callback_witness :
  ReportError (OnError (test_request "") (Some 1)) BadRequest world_empty =
  Returns (tt, log_report 1 BadRequest world_empty).
Proof. apply ReportError_callback. reflexivity. Defined.

Lemma ReportError_writes_witness :
  ReportError (test_request "") BadRequest world_empty =
  on_resp (Write 0 (test_request "") BadRequest) world_empty.
Proof. apply ReportError_writes. reflexivity. Defined.

Lemma ServeHTTP_nil_witness :
  ServeHTTP ok_handler (test_request "") world_empty = Returns (tt, world_empty).
Proof. apply ServeHTTP_nil. reflexivity. Defined.

Lemma ServeHTTP_error_witness :
  ServeHTTP not_found_handler (test_request "") world_empty =
  ReportError (test_request "") NotFound world_empty.
Proof. apply ServeHTTP_error; [reflexivity | discriminate]. Defined.

Lemma ServeHTTP_nil_callback_panics_witness :
  ServeHTTP not_found_handler (OnError (test_request "") None) world_empty = Panics nil_func_call.
Proof.
  apply (ServeHTTP_nil_callback_panics not_found_handler _ world_empty world_empty NotFound);
    [reflexivity | reflexivity | discriminate].
Defined.

End Report.
