(* ===== verification/JSONHandler.v ===== *)
(** * The JSON handler adapter (json.go)

    [JSONHandler(f)] inspects the type of [f] with reflect once: it
    panics unless the first parameter is [*http.Request], a second one
    (if any) is a struct or a pointer to a struct, one result is of type
    [error], and two results are a pointer to a struct and an [error].
    It returns a [HandlerFunc] whose closure decodes the request body into
    a new value of the second parameter's type, calls [f], extracts the
    error result, and answers 204 or encodes the first result as JSON.

    Go types are the inductive [gotype] (as far as [Kind], [Elem] and
    [String] see them), the function is a [gofunc] (its parameter and
    result types and its [reflect.Value.Call]), and values are [value].
    The JSON codec of encoding/json is the class [JSONCodec]: decoding
    the first JSON value of a body into a type fails, finds [null], or
    yields a value; marshalling fails or yields bytes. *)

From S2P Require Import Prelude GoHttp Errors Render Translate Report.
Local Open Scope string_scope.
Set Warnings "-clear-no-such-hyp".

Module JSONHandler.
Import HttpErr Render Report.

(** ** Types, as reflect sees them *)

Inductive Kind := KBool | KInt | KString | KStruct | KPtr | KSlice | KMap | KInterface.

Inductive gotype :=
| TBool | TInt | TString
| TStruct (name : string)     (* a named struct type, by its qualified name *)
| TPtr (elem : gotype)
| TSlice (elem : gotype)
| TMap (key elem : gotype)
| TInterface (name : string). (* a named interface type; "error" is the predeclared one *)

#[global] Instance Kind_eq_dec : EqDecision Kind.
Proof. solve_decision. Defined.
#[global] Instance gotype_eq_dec : EqDecision gotype.
Proof. solve_decision. Defined.

(** [reflect.Type.Kind]. *)
Definition kind (t : gotype) : Kind :=
  match t with
  | TBool => KBool | TInt => KInt | TString => KString | TStruct _ => KStruct
  | TPtr _ => KPtr | TSlice _ => KSlice | TMap _ _ => KMap | TInterface _ => KInterface
  end.

(** [reflect.Type.String]. *)
Fixpoint type_String (t : gotype) : string :=
  match t with
  | TBool => "bool" | TInt => "int" | TString => "string"
  | TStruct n => n
  | TPtr t' => "*" ++ type_String t'
  | TSlice t' => "[]" ++ type_String t'
  | TMap k v => "map[" ++ type_String k ++ "]" ++ type_String v
  | TInterface n => n
  end.

Definition http_Request : gotype := TStruct "http.Request".

(** ** Values and functions *)

Inductive value :=
| VNil                                             (* a nil pointer *)
| VPtr (v : value)                                 (* a pointer to [v] *)
| VStruct (name : string) (fields : list (string * value))
| VErr (e : error)                                 (* an [error]; [Nil] is nil *)
| VScalar (repr : string).                         (* any other value *)

(** [f]: its type ([ftyp.In(i)], [ftyp.Out(i)]) and [fval.Call], given
    the request and the arguments after it. *)
Record gofunc := mkFunc {
  f_in : list gotype;
  f_out : list gotype;
  f_call : request -> list value -> outcome (list value)
}.

(** ** The JSON codec *)

Inductive decode_result := DecErr (msg : string) | DecNull | DecValue (v : value).

Class JSONCodec := {
  json_decode : gotype -> string -> decode_result;
  json_marshal : value -> string + string
}.

(** The zero value [reflect.New] allocates. *)
Definition zero_value (t : gotype) : value :=
  match t with
  | TStruct n => VStruct n []
  | TPtr _ => VNil
  | _ => VScalar ""
  end.

(** ** A concrete codec and business functions, for the witnesses *)

(** A small decoder: an empty body is [io.EOF], ["null"] is null, ["{}"]
    is the zero value, anything else a syntax error. *)
Definition demo_decode (t : gotype) (body : string) : decode_result :=
  if String.eqb body "" then DecErr "EOF"
  else if String.eqb body "null" then DecNull
  else if String.eqb body "{}" then DecValue (zero_value t)
  else DecErr "invalid character looking for beginning of value".

Definition demo_marshal (v : value) : string + string :=
  match v with
  | VNil => inr "null"
  | VPtr (VStruct _ _) | VStruct _ _ => inr "{}"
  | VScalar "chan" => inl "json: unsupported type: chan int"
  | _ => inr "0"
  end.

Definition demo_codec_inst : JSONCodec :=
  {| json_decode := demo_decode; json_marshal := demo_marshal |}.

(** [func(r *http.Request, in Foo) ( *Bar, error)] returning [&Bar{}, nil]. *)
Definition foo_bar : gofunc :=
  mkFunc [TPtr http_Request; TStruct "main.Foo"] [TPtr (TStruct "main.Bar"); TInterface "error"]
         (fun _ _ => Returns [VPtr (VStruct "main.Bar" []); VErr Nil]).

(** [func(r *http.Request) ( *Bar, error, error)] returning a result,
    a nil error and a non-nil one. *)
Definition bar_err_err : gofunc :=
  mkFunc [TPtr http_Request] [TPtr (TStruct "main.Bar"); TInterface "error"; TInterface "error"]
         (fun _ _ => Returns [VPtr (VStruct "main.Bar" []); VErr Nil; VErr (Wrap 500 Nil)]).

(** [func(r *http.Request, in *Foo) error] returning nil. *)
Definition foo_ptr_err : gofunc :=
  mkFunc [TPtr http_Request; TPtr (TStruct "main.Foo")] [TInterface "error"]
         (fun _ _ => Returns [VErr Nil]).

(** [func(r *http.Request) error] returning [httperr.NotFound]. *)
Definition not_found_fn : gofunc :=
  mkFunc [TPtr http_Request] [TInterface "error"] (fun _ _ => Returns [VErr NotFound]).

(** [func(r *http.Request) ( *Bar, error)] returning a value that does
    not encode. *)
Definition chan_fn : gofunc :=
  mkFunc [TPtr http_Request] [TPtr (TStruct "main.Bar"); TInterface "error"]
         (fun _ _ => Returns [VScalar "chan"; VErr Nil]).

Definition request_only : gofunc := mkFunc [TPtr http_Request] [] (fun _ _ => Returns []).

Section Adapter.
Context `{JSONCodec}.

(** [reqBody := reflect.New(ftyp.In(1))], [Decode(reqBody.Interface())],
    then [reqBody.Elem()].  For a pointer type the new value is a nil
    pointer: [null] leaves it nil, any other value allocates its target. *)
Definition decode_arg (argT : gotype) (body : string) : string + value :=
  match argT with
  | TPtr t =>
      match json_decode t body with
      | DecErr msg => inl msg
      | DecNull => inr VNil
      | DecValue v => inr (VPtr v)
      end
  | t =>
      match json_decode t body with
      | DecErr msg => inl msg
      | DecNull => inr (zero_value t)
      | DecValue v => inr v
      end
  end.

Definition index_out_of_range (i n : nat) : string :=
  "runtime error: index out of range [" ++ pretty i ++ "] with length " ++ pretty n.

(** [out[i]]. *)
Definition index (out : list value) (i : nat) : outcome value :=
  match nth_error out i with
  | Some v => Returns v
  | None => Panics (index_out_of_range i (length out))
  end.

(** [if e := out[i].Interface(); e != nil { err = e.(error) }]. *)
Definition error_result (out : list value) (i : nat) : outcome error :=
  match index out i with
  | Returns (VErr e) => Returns e
  | Returns VNil => Returns Nil
  | Returns _ => Panics "interface conversion: value is not error"
  | Panics p => Panics p
  end.

(** [json.NewEncoder(w).Encode(v)]: marshal, then write with a newline. *)
Definition Encode (v : value) : M world error :=
  match json_marshal v with
  | inl msg => ret (errorString msg)
  | inr bytes => do _ <- on_resp (write_body (bytes ++ newline)); ret Nil
  end.

(** Lines 97-118: the error result, then 204 or the JSON body. *)
Definition finish (f : gofunc) (out : list value) : M world error :=
  let numOut := length (f_out f) in
  do err <- (if Nat.eqb numOut 1 then lift (error_result out 0)
             else if Nat.eqb numOut 2 then lift (error_result out 1)
             else ret Nil);
  if negb (is_nil err) then ret err
  else if Nat.eqb numOut 1 then do _ <- on_resp (write_header 204); ret Nil
  else
    do respBody <- lift (index out 0);
    do _ <- on_resp (add_header "Content-type" "application/json");
    Encode respBody.

(** [json.NewDecoder(r.Body)] reading the body: a nil [Body] panics on
    the first read. *)
Definition read_body (r : request) : outcome string :=
  match req_body r with
  | Some body => Returns body
  | None => Panics nil_deref
  end.

(** The closure of lines 84-119. *)
Definition json_closure (f : gofunc) (r : request) : M world error :=
  let numIn := length (f_in f) in
  if Nat.eqb numIn 2 then
    do body <- lift (read_body r);
    match decode_arg (nth 1 (f_in f) TBool) body with
    | inl msg => ret (Public 400 (errorString msg))
    | inr arg => do out <- lift (f_call f r [arg]); finish f out
    end
  else if Nat.eqb numIn 1 then
    do out <- lift (f_call f r []); finish f out
  else finish f [].

(** Lines 50-82: the checks of the signature, in order. *)
Definition check_in (ins : list gotype) : outcome unit :=
  if negb (Nat.eqb (length ins) 1) && negb (Nat.eqb (length ins) 2)
  then Panics "function must take 1 or 2 two arguments"
  else
    match ins with
    | TPtr t :: rest =>
        if decide (t = http_Request) then
          match rest with
          | [arg] =>
              match arg with
              | TPtr t' => if decide (kind t' = KStruct) then Returns tt
                           else Panics "second argument must be a pointer to a struct type, got pointer to non-struct"
              | TStruct _ => Returns tt
              | _ => Panics "second argument must be a struct or pointer to stuct"
              end
          | _ => Returns tt
          end
        else Panics "first argument must be *http.Request"
    | _ => Panics "first argument must be *http.Request"
    end.

Definition check_out (outs : list gotype) : outcome unit :=
  match outs with
  | [errTyp] =>
      if String.eqb (type_String errTyp) "error" then Returns tt
      else Panics "function must return (error)"
  | [outTyp; errTyp] =>
      match outTyp with
      | TPtr t =>
          if decide (kind t = KStruct) then
            if String.eqb (type_String errTyp) "error" then Returns tt
            else Panics "function must return (*SomeStruct, error)"
          else Panics "function must return (*SomeStruct, error)"
      | _ => Panics "function must return (*SomeStruct, error)"
      end
  | _ => Returns tt
  end.

(** [JSONHandler(f)]: validate once, then the closure. *)
Definition JSONHandler (f : gofunc) : outcome HandlerFunc :=
  match check_in (f_in f) with
  | Panics p => Panics p
  | Returns _ =>
      match check_out (f_out f) with
      | Panics p => Panics p
      | Returns _ => Returns (mkHandlerFunc (json_closure f))
      end
  end.

(** ** The contract *)

(** The shapes [JSONHandler] accepts, as predicates on the signature. *)
Definition arg_ok (t : gotype) : Prop :=
  (exists n, t = TStruct n) \/ (exists t', t = TPtr t' /\ kind t' = KStruct).

Definition in_ok (ins : list gotype) : Prop :=
  ins = [TPtr http_Request] \/ exists a, ins = [TPtr http_Request; a] /\ arg_ok a.

Definition out_ok (outs : list gotype) : Prop :=
  match outs with
  | [e] => type_String e = "error"
  | [o; e] => (exists t, o = TPtr t /\ kind t = KStruct) /\ type_String e = "error"
  | _ => True
  end.

(** The arguments the closure calls [f] with, after [r]. *)
Definition called_with (f : gofunc) (r : request) (args : list value) : Prop :=
  (length (f_in f) = 1 /\ args = []) \/
  (length (f_in f) = 2 /\
   exists body arg, req_body r = Some body /\
     decode_arg (nth 1 (f_in f) TBool) body = inr arg /\ args = [arg]).

Definition json_header (w : response) : header :=
  header_add "Content-type" "application/json" (resp_header w).

(** A JSON answer on a writer whose header was not yet written. *)
Definition json_response (w : response) (bytes : string) : response :=
  {| resp_code := 200; resp_header := json_header w; resp_sent := Some (json_header w);
     resp_body := resp_body w ++ bytes ++ newline |}.

Definition no_content_response (w : response) : response :=
  {| resp_code := 204; resp_header := resp_header w; resp_sent := Some (resp_header w);
     resp_body := resp_body w |}.

(** ** Lemmas *)

Lemma check_in_ok ins : check_in ins = Returns tt <-> in_ok ins.
Proof.
  unfold check_in, in_ok, arg_ok.
  destruct ins as [|t0 [|t1 [|t2 rest]]]; simpl.
  - naive_solver.
  - destruct t0; try naive_solver. case_decide; naive_solver.
  - destruct t0; try naive_solver. case_decide; [|naive_solver].
    destruct t1; try case_decide; naive_solver.
  - destruct t0; naive_solver.
Qed.

Lemma check_out_ok outs : check_out outs = Returns tt <-> out_ok outs.
Proof.
  unfold check_out, out_ok.
  destruct outs as [|t0 [|t1 [|t2 rest]]]; simpl; try naive_solver.
  - destruct (String.eqb_spec (type_String t0) "error"); naive_solver.
  - destruct t0; try naive_solver. case_decide; [|naive_solver].
    destruct (String.eqb_spec (type_String t1) "error"); naive_solver.
Qed.

(** C2: [JSONHandler] returns a handler exactly for the accepted
    signatures, and panics at bind time on every other one. *)
Theorem JSONHandler_validates f :
  (exists h, JSONHandler f = Returns h) <-> in_ok (f_in f) /\ out_ok (f_out f).
Proof.
  unfold JSONHandler. rewrite <- check_in_ok, <- check_out_ok.
  destruct (check_in _) as [[]|], (check_out _) as [[]|]; naive_solver.
Qed.

Lemma JSONHandler_Returns f h : JSONHandler f = Returns h -> h = mkHandlerFunc (json_closure f).
Proof.
  unfold JSONHandler. destruct (check_in _) as [[]|]; [|done].
  destruct (check_out _) as [[]|]; [|done]. by intros [= <-].
Qed.

Lemma serve_closure f h r w :
  JSONHandler f = Returns h ->
  ServeHTTP h r w = (do err <- json_closure f r; if is_nil err then ret tt else ReportError r err) w.
Proof. intros ->%JSONHandler_Returns. reflexivity. Qed.

Lemma closure_call f r args w :
  called_with f r args ->
  json_closure f r w = (do out <- lift (f_call f r args); finish f out) w.
Proof.
  unfold json_closure. intros [[Hn ->]|[Hn [body [arg [Hb [Hd ->]]]]]]; rewrite Hn; simpl;
    [reflexivity|]. unfold bind at 1, lift, read_body. rewrite Hb. simpl. by rewrite Hd.
Qed.

Lemma set_resp_set_resp x y w : set_resp x (set_resp y w) = set_resp x w.
Proof. reflexivity. Qed.

(** C4: a body that does not decode answers 400 with the decoder's
    message in [X-Error-Message] (no translator, no [OnError]). *)
Theorem serve_decode_failure f h r w body msg :
  JSONHandler f = Returns h -> length (f_in f) = 2 -> req_body r = Some body ->
  decode_arg (nth 1 (f_in f) TBool) body = inl msg ->
  ctx_value CtxKeyOnError (req_ctx r) = None -> w_translators w = [] ->
  resp_sent (w_resp w) = None ->
  ServeHTTP h r w = Returns (tt, set_resp (generic_response (w_resp w) 400 (Some msg)) w).
Proof.
  intros Hh Hn Hb Hd Hc Ht Hs. rewrite (serve_closure _ _ _ _ Hh).
  unfold json_closure. rewrite Hn. go_run. unfold read_body. rewrite Hb. simpl. rewrite Hd. go_run.
  rewrite ReportError_no_callback, Ht by done. unfold on_resp, focus.
  rewrite (Write_public_fresh _ _ _ _ msg); done.
Qed.

(** C3: a call that returns a result and a nil error answers 200 with
    the JSON encoding of the result and a JSON content type. *)
Theorem serve_json_result f h r w args res bytes :
  JSONHandler f = Returns h -> called_with f r args -> length (f_out f) = 2 ->
  f_call f r args = Returns [res; VErr Nil] -> json_marshal res = inr bytes ->
  resp_sent (w_resp w) = None ->
  ServeHTTP h r w = Returns (tt, set_resp (json_response (w_resp w) bytes) w).
Proof.
  intros Hh Hc Hn Hf Hm Hs. rewrite (serve_closure _ _ _ _ Hh). unfold bind at 1.
  rewrite (closure_call _ _ _ _ Hc). unfold finish. rewrite Hn. go_run.
  rewrite Hf. simpl. unfold Encode. rewrite Hm. unfold on_resp, focus, add_header. go_run.
  rewrite write_body_typed; [reflexivity|done|].
  unfold header_add. simpl. rewrite lookup_insert_eq. eauto.
Qed.

(** C33: (error) the bind-time checks accept a function with three or
    more results, and the closure then reads no error result at all: it
    answers 200 with the JSON encoding of the first result, whatever
    errors the others carry. *)
Theorem serve_extra_results_drops_errors f h r w args res rest bytes :
  JSONHandler f = Returns h -> called_with f r args -> 3 <= length (f_out f) ->
  f_call f r args = Returns (res :: rest) -> json_marshal res = inr bytes ->
  resp_sent (w_resp w) = None ->
  ServeHTTP h r w = Returns (tt, set_resp (json_response (w_resp w) bytes) w).
Proof.
  intros Hh Hc Hn Hf Hm Hs. rewrite (serve_closure _ _ _ _ Hh). unfold bind at 1.
  rewrite (closure_call _ _ _ _ Hc). unfold finish.
  rewrite (proj2 (Nat.eqb_neq _ 1)), (proj2 (Nat.eqb_neq _ 2)) by lia. go_run.
  rewrite Hf. simpl. unfold Encode. rewrite Hm. unfold on_resp, focus, add_header. go_run.
  rewrite write_body_typed; [reflexivity|done|].
  unfold header_add. simpl. rewrite lookup_insert_eq. eauto.
Qed.

(** A function with only an error result that returns nil answers
    204 with no body. *)
Theorem serve_no_content f h r w args :
  JSONHandler f = Returns h -> called_with f r args -> length (f_out f) = 1 ->
  f_call f r args = Returns [VErr Nil] -> resp_sent (w_resp w) = None ->
  ServeHTTP h r w = Returns (tt, set_resp (no_content_response (w_resp w)) w).
Proof.
  intros Hh Hc Hn Hf Hs. rewrite (serve_closure _ _ _ _ Hh). unfold bind at 1.
  rewrite (closure_call _ _ _ _ Hc). unfold finish. rewrite Hn. go_run.
  rewrite Hf. simpl. unfold on_resp, focus. by rewrite write_header_fresh.
Qed.

(** A non-nil error result is reported, untouched, as the handler's
    error. *)
Theorem serve_business_error f h r w args out e :
  JSONHandler f = Returns h -> called_with f r args -> f_call f r args = Returns out ->
  ((length (f_out f) = 1 /\ nth_error out 0 = Some (VErr e)) \/
   (length (f_out f) = 2 /\ nth_error out 1 = Some (VErr e))) ->
  e <> Nil ->
  ServeHTTP h r w = ReportError r e w.
Proof.
  intros Hh Hc Hf Hout He. rewrite (serve_closure _ _ _ _ Hh). unfold bind at 1.
  rewrite (closure_call _ _ _ _ Hc). unfold finish.
  destruct Hout as [[Hn Ho]|[Hn Ho]]; rewrite Hn; go_run; rewrite Hf; simpl;
    unfold error_result, index; rewrite Ho; simpl; by destruct e.
Qed.

(** C12: the shape [func(r *http.Request)] passes the bind-time checks
    but every request panics, indexing the empty result list. *)
Theorem serve_request_only_panics f r w :
  f_in f = [TPtr http_Request] -> f_out f = [] -> f_call f r [] = Returns [] ->
  exists h, JSONHandler f = Returns h /\ ServeHTTP h r w = Panics (index_out_of_range 0 0).
Proof.
  intros Hi Ho Hf. unfold JSONHandler. rewrite Hi, Ho. simpl. eexists. split; [reflexivity|].
  unfold ServeHTTP, HandlerFunc_Handler, json_closure. simpl. rewrite Hi. go_run.
  rewrite Hf. unfold finish. rewrite Ho. reflexivity.
Qed.

(** C31: a pointer parameter and a [null] body: [f] is called with a nil
    pointer, not with a pointer to a zero value. *)
Theorem closure_null_pointer_arg f r t w body :
  length (f_in f) = 2 -> nth 1 (f_in f) TBool = TPtr t -> req_body r = Some body ->
  json_decode t body = DecNull ->
  json_closure f r w = (do out <- lift (f_call f r [VNil]); finish f out) w.
Proof.
  intros Hn Ht Hb Hd. apply closure_call. right. split; [done|].
  exists body, VNil. rewrite Ht. simpl. by rewrite Hd.
Qed.

(** C32: a result that cannot be encoded is reported through
    [ReportError] (translators and [OnError] included), after the JSON
    content type was added to the header. *)
Theorem serve_encode_failure f h r w args res msg :
  JSONHandler f = Returns h -> called_with f r args -> length (f_out f) = 2 ->
  f_call f r args = Returns [res; VErr Nil] -> json_marshal res = inl msg ->
  ServeHTTP h r w =
  ReportError r (errorString msg) (set_resp (with_header (header_add "Content-type" "application/json") (w_resp w)) w).
Proof.
  intros Hh Hc Hn Hf Hm. rewrite (serve_closure _ _ _ _ Hh). unfold bind at 1.
  rewrite (closure_call _ _ _ _ Hc). unfold finish. rewrite Hn. go_run.
  rewrite Hf. simpl. unfold Encode. rewrite Hm. reflexivity.
Qed.

End Adapter.

(** ** Witnesses *)

#[local] Existing Instance demo_codec_inst.

Lemma JSONHandler_validates_witness :
  (exists h, JSONHandler foo_bar = Returns h) /\
  ~ (exists h, JSONHandler (mkFunc [TPtr http_Request; TInt] [] (fun _ _ => Returns [])) = Returns h).
Proof.
  split.
  - apply (JSONHandler_validates foo_bar). split; [right; eexists; split; [reflexivity|left; eexists; reflexivity]|].
    split; [eexists; split; reflexivity | reflexivity].
  - rewrite (JSONHandler_validates (mkFunc [TPtr http_Request; TInt] [] (fun _ _ => Returns []))).
    unfold in_ok, arg_ok. simpl. intros [[Hi|[a [Ha [[n Hn]|[t [Ht _]]]]]] _]; congruence.
Defined.

Lemma serve_decode_failure_witness :
  ServeHTTP (mkHandlerFunc (json_closure foo_bar)) (test_request "x") world_empty =
  Returns (tt, set_resp (generic_response fresh_response 400
                           (Some "invalid character looking for beginning of value")) world_empty).
Proof.
  apply (serve_decode_failure foo_bar _ _ world_empty "x"); reflexivity.
Defined.

Lemma serve_json_result_witness :
  ServeHTTP (mkHandlerFunc (json_closure foo_bar)) (test_request "{}") world_empty =
  Returns (tt, set_resp (json_response fresh_response "{}") world_empty).
Proof.
  apply (serve_json_result foo_bar _ _ world_empty [VStruct "main.Foo" []] (VPtr (VStruct "main.Bar" [])));
    try reflexivity.
  right. split; [reflexivity|]. do 2 eexists. split_and!; reflexivity.
Defined.

Lemma serve_no_content_witness :
  ServeHTTP (mkHandlerFunc (json_closure foo_ptr_err)) (test_request "{}") world_empty =
  Returns (tt, set_resp (no_content_response fresh_response) world_empty).
Proof.
  apply (serve_no_content foo_ptr_err _ _ world_empty [VPtr (VStruct "main.Foo" [])]); try reflexivity.
  right. split; [reflexivity|]. do 2 eexists. split_and!; reflexivity.
Defined.

Lemma serve_business_error_witness :
  ServeHTTP (mkHandlerFunc (json_closure not_found_fn)) (test_request "") world_empty =
  ReportError (test_request "") NotFound world_empty.
Proof.
  apply (serve_business_error not_found_fn _ _ world_empty [] [VErr NotFound]); try reflexivity.
  - left. split; reflexivity.
  - left. split; reflexivity.
  - discriminate.
Defined.

Lemma serve_request_only_panics_witness :
  exists h, JSONHandler request_only = Returns h /\
            ServeHTTP h (test_request "") world_empty = Panics (index_out_of_range 0 0).
Proof. apply serve_request_only_panics; reflexivity. Defined.

Lemma closure_null_pointer_arg_witness :
  json_closure foo_ptr_err (test_request "null") world_empty =
  (do out <- lift (f_call foo_ptr_err (test_request "null") [VNil]); finish foo_ptr_err out) world_empty.
Proof. apply (closure_null_pointer_arg _ _ (TStruct "main.Foo") _ "null"); reflexivity. Defined.

Lemma serve_encode_failure_witness :
  ServeHTTP (mkHandlerFunc (json_closure chan_fn)) (test_request "") world_empty =
  ReportError (test_request "") (errorString "json: unsupported type: chan int")
    (set_resp (with_header (header_add "Content-type" "application/json") fresh_response) world_empty).
Proof.
  apply (serve_encode_failure chan_fn _ _ world_empty [] (VScalar "chan")); try reflexivity.
  left. split; reflexivity.
Defined.

Lemma serve_extra_results_drops_errors_witness :
  ServeHTTP (mkHandlerFunc (json_closure bar_err_err)) (test_request "{}") world_empty =
  Returns (tt, set_resp (json_response fresh_response "{}") world_empty).
Proof.
  apply (serve_extra_results_drops_errors bar_err_err _ _ world_empty [] (VPtr (VStruct "main.Bar" []))
           [VErr Nil; VErr (Wrap 500 Nil)]); try reflexivity.
  left. split; reflexivity.
Defined.

End JSONHandler.
