(* ===== verification/Headers.v ===== *)
(** * Splitting header values (headers.go)

    [SplitHeaderOnSpace(h)] splits a header value with [strings.Fields]:
    exactly two fields are returned as they are; with more, the prefix is
    the first field and the value is the suffix of [h] that starts at the
    first occurrence of the second field after [len(fields[0])]; with
    fewer, the prefix is empty and the value is [h].
    [SplitAuthorizationHeader] applies it to the Authorization header and
    lower-cases the prefix.

    Go strings are byte sequences: [bytes] is [list ascii] (8-bit).
    [strings.Fields] is modelled through its general path, [FieldsFunc]
    with [unicode.IsSpace] over the runes of the string, decoded as
    [utf8.DecodeRuneInString] does (invalid bytes are [RuneError] of
    width 1); Go's ASCII fast path computes the same fields.  Decoding
    uses fuel, the byte length, which is enough because every rune has
    width at least 1.  Slicing [h[i:]] panics out of range. *)

From S2P Require Import Prelude GoHttp.

Module Headers.

Abbreviation bytes := (list Ascii.ascii).

Definition byte_val (c : Ascii.ascii) : Z := Z.of_nat (Ascii.nat_of_ascii c).

(** ** [utf8.DecodeRuneInString] *)

Definition RuneError : Z := 65533.

Definition in_range (lo hi b : Z) : bool := (lo <=? b)%Z && (b <=? hi)%Z.

(** The size of a sequence from its first byte, and the accepted range
    of its second byte; [None] for a byte that cannot start one. *)
Definition lead_info (b0 : Z) : option (nat * Z * Z) :=
  if in_range 194 223 b0 then Some (2%nat, 128, 191)%Z
  else if (b0 =? 224)%Z then Some (3%nat, 160, 191)%Z
  else if in_range 225 236 b0 then Some (3%nat, 128, 191)%Z
  else if (b0 =? 237)%Z then Some (3%nat, 128, 159)%Z
  else if in_range 238 239 b0 then Some (3%nat, 128, 191)%Z
  else if (b0 =? 240)%Z then Some (4%nat, 144, 191)%Z
  else if in_range 241 243 b0 then Some (4%nat, 128, 191)%Z
  else if (b0 =? 244)%Z then Some (4%nat, 128, 143)%Z
  else None.

Definition cont_byte (b : Z) : bool := in_range 128 191 b.

(** The rune that starts with [c0] (followed by [rest]) and its width. *)
Definition decode_rune (c0 : Ascii.ascii) (rest : bytes) : Z * nat :=
  let b0 := byte_val c0 in
  if (b0 <? 128)%Z then (b0, 1%nat) else
  match lead_info b0 with
  | None => (RuneError, 1%nat)
  | Some (sz, lo, hi) =>
      match rest with
      | c1 :: rest1 =>
          let b1 := byte_val c1 in
          if negb (in_range lo hi b1) then (RuneError, 1%nat)
          else if Nat.eqb sz 2 then
            (Z.lor (Z.shiftl (Z.land b0 31) 6) (Z.land b1 63), 2%nat)
          else
            match rest1 with
            | c2 :: rest2 =>
                let b2 := byte_val c2 in
                if negb (cont_byte b2) then (RuneError, 1%nat)
                else if Nat.eqb sz 3 then
                  (Z.lor (Z.lor (Z.shiftl (Z.land b0 15) 12) (Z.shiftl (Z.land b1 63) 6))
                         (Z.land b2 63), 3%nat)
                else
                  match rest2 with
                  | c3 :: _ =>
                      let b3 := byte_val c3 in
                      if negb (cont_byte b3) then (RuneError, 1%nat)
                      else (Z.lor (Z.lor (Z.shiftl (Z.land b0 7) 18) (Z.shiftl (Z.land b1 63) 12))
                                  (Z.lor (Z.shiftl (Z.land b2 63) 6) (Z.land b3 63)), 4%nat)
                  | [] => (RuneError, 1%nat)
                  end
            | [] => (RuneError, 1%nat)
            end
      | [] => (RuneError, 1%nat)
      end
  end.

(** [for _, r := range s]: the runes with their bytes. *)
Fixpoint runes_fuel (fuel : nat) (s : bytes) : list (Z * bytes) :=
  match fuel, s with
  | O, _ | _, [] => []
  | S fuel', c :: rest =>
      let '(r, w) := decode_rune c rest in
      (r, take w s) :: runes_fuel fuel' (drop w s)
  end.

Definition runes (s : bytes) : list (Z * bytes) := runes_fuel (length s) s.

(** ** [unicode.IsSpace] *)

Definition IsSpace (r : Z) : bool :=
  in_range 9 13 r || (r =? 32)%Z || (r =? 133)%Z || (r =? 160)%Z || (r =? 5760)%Z ||
  in_range 8192 8202 r || (r =? 8232)%Z || (r =? 8233)%Z || (r =? 8239)%Z ||
  (r =? 8287)%Z || (r =? 12288)%Z.

(** ** [strings.Fields] *)

(** The loop of [FieldsFunc]: [cur] is the field being read, if any. *)
Fixpoint fields_acc (rs : list (Z * bytes)) (cur : option bytes) : list bytes :=
  match rs with
  | [] => match cur with Some f => [f] | None => [] end
  | (r, b) :: rs' =>
      if IsSpace r then
        match cur with
        | Some f => f :: fields_acc rs' None
        | None => fields_acc rs' None
        end
      else fields_acc rs' (Some (default [] cur ++ b))
  end.

Definition Fields (s : bytes) : list bytes := fields_acc (runes s) None.

(** ** [strings.Index] and slicing *)

Fixpoint is_prefix (p s : bytes) : bool :=
  match p, s with
  | [], _ => true
  | c :: p', d :: s' => bool_decide (c = d) && is_prefix p' s'
  | _ :: _, [] => false
  end.

(** The first byte offset of [sub] in [s]. *)
Fixpoint index_nat (s sub : bytes) : option nat :=
  if is_prefix sub s then Some 0%nat
  else match s with
       | [] => None
       | _ :: s' => S <$> index_nat s' sub
       end.

Definition Index (s sub : bytes) : Z :=
  match index_nat s sub with Some i => Z.of_nat i | None => (-1)%Z end.

(** [s[i:]]. *)
Definition slice_from (s : bytes) (i : Z) : outcome bytes :=
  if (i <? 0)%Z || (Z.of_nat (length s) <? i)%Z
  then Panics "runtime error: slice bounds out of range"
  else Returns (drop (Z.to_nat i) s).

(** ** headers.go *)

Definition SplitHeaderOnSpace (h : bytes) : outcome (bytes * bytes) :=
  let fields := Fields h in
  match fields with
  | [f0; f1] => Returns (f0, f1)
  | f0 :: f1 :: _ :: _ =>
      let prefixEnd := Z.of_nat (length f0) in
      match slice_from h prefixEnd with
      | Panics p => Panics p
      | Returns t =>
          let valueOffset := Index t f1 in
          match slice_from h (prefixEnd + valueOffset) with
          | Returns v => Returns (f0, v)
          | Panics p => Panics p
          end
      end
  | _ => Returns ([], h)
  end.

(** ** Predicates of the specification *)

Definition is_ascii (s : bytes) : bool := forallb (fun c => (byte_val c <? 128)%Z) s.

Definition is_space_byte (c : Ascii.ascii) : bool := IsSpace (byte_val c).

(** A non-empty value with no whitespace at either end. *)
Definition trimmed (v : bytes) : bool :=
  match v, last v with
  | c :: _, Some d => negb (is_space_byte c) && negb (is_space_byte d)
  | _, _ => false
  end.

(** [in_order fs s]: the fields [fs] occur in [s] in this order, each
    after some bytes that are not part of it. *)
Inductive in_order : list bytes -> bytes -> Prop :=
| io_nil s : in_order [] s
| io_cons w f fs t : in_order fs t -> in_order (f :: fs) (w ++ f ++ t).

Section Authorization.
(** [strings.ToLower] maps non-ASCII strings through Unicode's case
    tables, which are not modelled: they are this parameter. *)
Context (unicode_to_lower : bytes -> bytes).

Definition ascii_lower (c : Ascii.ascii) : Ascii.ascii :=
  if in_range 65 90 (byte_val c) then Ascii.ascii_of_nat (Ascii.nat_of_ascii c + 32) else c.

Definition ToLower (s : bytes) : bytes :=
  if is_ascii s then map ascii_lower s else unicode_to_lower s.

Definition SplitAuthorizationHeader (r : request) : outcome (bytes * bytes) :=
  match SplitHeaderOnSpace (String.list_ascii_of_string (header_get "Authorization" (req_header r))) with
  | Returns (kind, value) => Returns (ToLower kind, value)
  | Panics p => Panics p
  end.
End Authorization.

(** The rune of an ASCII byte, with the one byte it is made of. *)
Definition R (c : Ascii.ascii) : Z * bytes := (byte_val c, [c]).

(** Test inputs. *)
Definition bytes_of (s : string) : bytes := String.list_ascii_of_string s.

Definition auth_request (v : string) : request :=
  {| req_method := "GET"; req_header := header_set "Authorization" v ∅; req_body := Some ""; req_ctx := [] |}.

(** ** Lemmas *)

Lemma decode_rune_width c rest :
  (1 <= snd (decode_rune c rest) <= S (length rest))%nat.
Proof.
  unfold decode_rune.
  repeat (case_match; simpl in *; try lia); subst; simpl in *; try lia.
Qed.
Lemma runes_fuel_concat fuel s : (length s <= fuel)%nat -> mjoin (map snd (runes_fuel fuel s)) = s.
Proof.
  revert s. induction fuel as [|fuel IH]; intros s Hl.
  - destruct s; simpl in *; [done | lia].
  - destruct s as [|c rest]; [done|]. simpl.
    pose proof (decode_rune_width c rest) as Hw.
    destruct (decode_rune c rest) as [r w] eqn:Hd. simpl in *.
    rewrite IH by (rewrite length_drop; simpl; lia).
    apply take_drop.
Qed.
Lemma in_order_app_l fs w t : in_order fs t -> in_order fs (w ++ t).
Proof. intros [|w' f fs' t' H]; [constructor|]. rewrite app_assoc. by constructor. Qed.

Lemma fields_acc_order rs :
  (in_order (fields_acc rs None) (mjoin (map snd rs))) /\
  (forall c, exists x fs' t, fields_acc rs (Some c) = (c ++ x) :: fs' /\
                             mjoin (map snd rs) = x ++ t /\ in_order fs' t).
Proof.
  induction rs as [|[r b] rs [IH1 IH2]]; simpl.
  - split; [constructor|]. intros c. exists [], [], []. rewrite app_nil_r. repeat constructor.
  - destruct (IsSpace r).
    + split; [by apply in_order_app_l|].
      intros c. exists [], (fields_acc rs None), (b ++ mjoin (map snd rs)).
      rewrite app_nil_r. split_and!; [done|done|by apply in_order_app_l].
    + split.
      * destruct (IH2 b) as (x & fs' & t & -> & -> & Ht). simpl.
        rewrite app_assoc. rewrite <- (app_nil_l (b ++ x)). rewrite <- app_assoc. by constructor.
      * intros c. destruct (IH2 (c ++ b)) as (x & fs' & t & -> & -> & Ht).
        exists (b ++ x), fs', t. rewrite !app_assoc. done.
Qed.

Lemma Fields_in_order s : in_order (Fields s) s.
Proof.
  unfold Fields. destruct (fields_acc_order (runes s)) as [H _].
  unfold runes in *. by rewrite runes_fuel_concat in H.
Qed.

Lemma is_prefix_app p s : is_prefix p (p ++ s) = true.
Proof. induction p; simpl; [done|]. rewrite bool_decide_true by done. done. Qed.

Lemma index_nat_prefix s sub : is_prefix sub s = true -> index_nat s sub = Some 0%nat.
Proof. destruct s; simpl; by intros ->. Qed.

Lemma index_nat_app a sub b : exists i, index_nat (a ++ sub ++ b) sub = Some i /\ (i <= length a)%nat.
Proof.
  induction a as [|c a IH]; simpl.
  - exists 0%nat. rewrite index_nat_prefix by apply is_prefix_app. split; [done|lia].
  - destruct (is_prefix sub (c :: a ++ sub ++ b)); [exists 0%nat; split; [done|lia]|].
    destruct IH as (i & -> & Hi). exists (S i). split; [done|lia].
Qed.

Lemma slice_from_ok s i : (0 <= i <= Z.of_nat (length s))%Z -> slice_from s i = Returns (drop (Z.to_nat i) s).
Proof.
  intros Hi. unfold slice_from.
  destruct (Z.ltb_spec i 0); [lia|]. destruct (Z.ltb_spec (Z.of_nat (length s)) i); [lia|]. done.
Qed.

(** C35: [SplitHeaderOnSpace] never panics: both slices are in range
    for every byte string, valid UTF-8 or not. *)
Theorem SplitHeaderOnSpace_total h : exists p v, SplitHeaderOnSpace h = Returns (p, v).
Proof.
  unfold SplitHeaderOnSpace.
  pose proof (Fields_in_order h) as Ho.
  destruct (Fields h) as [|f0 [|f1 [|f2 fs]]] eqn:E; eauto.
  inversion Ho as [|w0 ? ? t0 Ht0 Heq]; subst.
  inversion Ht0 as [|w1 ? ? t1 Ht1 Heq1]; subst.
  rewrite slice_from_ok by (rewrite !length_app; lia).
  rewrite Nat2Z.id.
  assert (drop (length f0) (w0 ++ f0 ++ w1 ++ f1 ++ t1) =
          (drop (length f0) (w0 ++ f0) ++ w1) ++ f1 ++ t1) as ->.
  { rewrite (app_assoc w0 f0), drop_app_le by (rewrite length_app; lia).
    by rewrite <- app_assoc. }
  destruct (index_nat_app (drop (length f0) (w0 ++ f0) ++ w1) f1 t1) as (i & Hi & Hle).
  unfold Index. rewrite Hi.
  rewrite slice_from_ok; [eauto|].
  rewrite !length_app, length_drop, length_app in *. lia.
Qed.


Lemma decode_rune_ascii c rest : (byte_val c < 128)%Z -> decode_rune c rest = (byte_val c, 1%nat).
Proof. intros H. unfold decode_rune. by destruct (Z.ltb_spec (byte_val c) 128); [|lia]. Qed.

(** Fuel beyond the byte length changes nothing. *)
Lemma runes_fuel_stable fuel1 fuel2 s :
  (length s <= fuel1)%nat -> (length s <= fuel2)%nat -> runes_fuel fuel1 s = runes_fuel fuel2 s.
Proof.
  revert fuel2 s. induction fuel1 as [|fuel1 IH]; intros fuel2 s H1 H2.
  - destruct s; simpl in *; [by destruct fuel2 | lia].
  - destruct s as [|c rest]; [by destruct fuel2|]. destruct fuel2 as [|fuel2]; [simpl in H2; lia|].
    simpl. pose proof (decode_rune_width c rest) as Hw.
    destruct (decode_rune c rest) as [r w]. simpl in *.
    f_equal. apply IH; rewrite length_drop; simpl; lia.
Qed.

(** The rune loop of [strings.Fields] runs out of
    input before it runs out of fuel: with at least the byte length as
    fuel the runes are those of [runes], and together they are the whole
    string, every byte decoded exactly once. *)
Theorem runes_fuel_enough fuel s :
  (length s <= fuel)%nat -> runes_fuel fuel s = runes s /\ mjoin (map snd (runes s)) = s.
Proof.
  intros Hf. split; [apply runes_fuel_stable; [done | unfold runes; lia]|].
  apply runes_fuel_concat. lia.
Qed.

Lemma runes_fuel_ascii fuel s :
  (length s <= fuel)%nat -> is_ascii s = true -> runes_fuel fuel s = map R s.
Proof.
  revert s. induction fuel as [|fuel IH]; intros s Hl Ha.
  - destruct s; simpl in *; [done | lia].
  - destruct s as [|c rest]; [done|]. simpl in Ha, Hl |- *.
    apply andb_prop in Ha as [Hc Ha]. apply Z.ltb_lt in Hc.
    rewrite decode_rune_ascii by done. simpl. rewrite drop_0, IH by (done || lia). done.
Qed.

Lemma Fields_ascii s : is_ascii s = true -> Fields s = fields_acc (map R s) None.
Proof. intros H. unfold Fields, runes. by rewrite runes_fuel_ascii. Qed.

Lemma fields_nonspace x y f :
  forallb (negb ∘ is_space_byte) x = true ->
  fields_acc (map R (x ++ y)) (Some f) = fields_acc (map R y) (Some (f ++ x)).
Proof.
  revert f. induction x as [|c x IH]; intros f Hx; simpl in *; [by rewrite app_nil_r|].
  apply andb_prop in Hx as [Hc Hx]. unfold is_space_byte in Hc.
  destruct (IsSpace (byte_val c)); [done|]. rewrite IH by done. by rewrite <- app_assoc.
Qed.

Lemma fields_space_none w y :
  forallb is_space_byte w = true -> fields_acc (map R (w ++ y)) None = fields_acc (map R y) None.
Proof.
  induction w as [|c w IH]; intros Hw; simpl in *; [done|].
  apply andb_prop in Hw as [Hc Hw]. unfold is_space_byte in Hc. rewrite Hc. by apply IH.
Qed.

Lemma fields_space_some s w y f :
  forallb is_space_byte (s :: w) = true ->
  fields_acc (map R (s :: w ++ y)) (Some f) = f :: fields_acc (map R y) None.
Proof.
  intros Hw. simpl in Hw. apply andb_prop in Hw as [Hs Hw]. unfold is_space_byte in Hs.
  simpl. rewrite Hs. by rewrite fields_space_none.
Qed.

(** The field being read runs up to the next whitespace byte or the end. *)
Lemma fields_some_split y f :
  exists x y', y = x ++ y' /\ forallb (negb ∘ is_space_byte) x = true /\
    ((y' = [] /\ fields_acc (map R y) (Some f) = [f ++ x]) \/
     (exists s y'', y' = s :: y'' /\ is_space_byte s = true /\
        fields_acc (map R y) (Some f) = (f ++ x) :: fields_acc (map R y'') None)).
Proof.
  revert f. induction y as [|c y IH]; intros f.
  - exists [], []. split_and!; [done|done|]. left. simpl. by rewrite app_nil_r.
  - destruct (is_space_byte c) eqn:Hc.
    + exists [], (c :: y). rewrite app_nil_r. split_and!; [done|done|].
      right. exists c, y. simpl. unfold is_space_byte in Hc. by rewrite Hc.
    + destruct (IH (f ++ [c])) as (x & y' & -> & Hx & Hcase).
      exists (c :: x), y'. simpl. rewrite Hx, Hc. split_and!; [done|done|].
      unfold is_space_byte in Hc. rewrite Hc. simpl. rewrite <- app_assoc in Hcase. exact Hcase.
Qed.

Lemma fields_acc_some_nonempty rs f : fields_acc rs (Some f) <> [].
Proof.
  revert f. induction rs as [|[r b] rs IH]; intros f; simpl; [done|].
  destruct (IsSpace r); [done|]. apply IH.
Qed.

Lemma fields_last_nonspace y d :
  last y = Some d -> is_space_byte d = false -> fields_acc (map R y) None <> [].
Proof.
  induction y as [|c y IH]; [done|]. intros Hl Hd. simpl.
  destruct (IsSpace (byte_val c)) eqn:Hc.
  - destruct y as [|c' y]; simpl in Hl.
    + injection Hl as ->. unfold is_space_byte in Hd. congruence.
    + by apply IH.
  - apply fields_acc_some_nonempty.
Qed.

Lemma index_nat_after_space w c x t :
  forallb is_space_byte w = true -> is_space_byte c = false ->
  index_nat (w ++ c :: x ++ t) (c :: x) = Some (length w).
Proof.
  induction w as [|s w IH]; intros Hw Hc; simpl in *.
  - rewrite bool_decide_true by done. by rewrite is_prefix_app.
  - apply andb_prop in Hw as [Hs Hw].
    rewrite bool_decide_false by (intros ->; congruence). simpl. by rewrite IH.
Qed.

Lemma fields_join p w y :
  p <> [] -> forallb (negb ∘ is_space_byte) p = true ->
  w <> [] -> forallb is_space_byte w = true ->
  fields_acc (map R (p ++ w ++ y)) None = p :: fields_acc (map R y) None.
Proof.
  intros Hp Hpn Hw Hws. destruct p as [|c0 p]; [done|]. destruct w as [|s w]; [done|].
  simpl in Hpn. apply andb_prop in Hpn as [Hc0 Hpn]. unfold is_space_byte in Hc0.
  simpl. unfold R at 1. simpl. destruct (IsSpace (byte_val c0)); [done|].
  rewrite fields_nonspace by done. by rewrite fields_space_some.
Qed.

Lemma split_join p w v :
  is_ascii (p ++ w ++ v) = true ->
  p <> [] -> forallb (negb ∘ is_space_byte) p = true ->
  w <> [] -> forallb is_space_byte w = true ->
  trimmed v = true ->
  SplitHeaderOnSpace (p ++ w ++ v) = Returns (p, v).
Proof.
  intros Ha Hp Hpn Hw Hws Hv. unfold SplitHeaderOnSpace.
  rewrite Fields_ascii, fields_join by done.
  destruct v as [|c v]; [done|]. unfold trimmed in Hv.
  destruct (last (c :: v)) as [d|] eqn:Hd; [|done].
  apply andb_prop in Hv as [Hc Hd']. apply negb_true_iff in Hc, Hd'.
  unfold is_space_byte in Hc. simpl. unfold R at 1. simpl. rewrite Hc.
  destruct (fields_some_split v [c]) as (x & y' & -> & Hx & [[-> ->] | (s & y & -> & Hs & ->)]).
  - by rewrite app_nil_r.
  - destruct (fields_acc (map R y) None) as [|f2 fs] eqn:Hy.
    + exfalso. rewrite app_comm_cons, last_app_cons in Hd. destruct y as [|c' y].
      * injection Hd as <-. congruence.
      * rewrite last_cons_cons in Hd. by apply (fields_last_nonspace (c' :: y) d).
    + rewrite slice_from_ok by (rewrite !length_app; lia).
      rewrite Nat2Z.id, drop_app_length.
      unfold Index. change ([c] ++ x) with (c :: x). rewrite (index_nat_after_space w c x (s :: y)) by done.
      rewrite slice_from_ok by (rewrite !length_app; lia).
      rewrite Z2Nat.inj_add, !Nat2Z.id, <- drop_drop, drop_app_length, drop_app_length by lia.
      done.
Qed.

(** C36: for ASCII input, a prefix without whitespace, a run of
    whitespace and a value without whitespace at either end split back
    into the prefix and the value (the join/split round trip). *)
Theorem SplitHeaderOnSpace_join p w v :
  is_ascii (p ++ w ++ v) = true ->
  p <> [] -> forallb (negb ∘ is_space_byte) p = true ->
  w <> [] -> forallb is_space_byte w = true ->
  trimmed v = true ->
  SplitHeaderOnSpace (p ++ w ++ v) = Returns (p, v).
Proof. apply split_join. Qed.

Lemma is_ascii_app_l a b : is_ascii (a ++ b) = true -> is_ascii a = true.
Proof. unfold is_ascii. rewrite forallb_app. by intros [? ?]%andb_prop. Qed.

Lemma ToLower_ascii utl s : is_ascii s = true -> ToLower utl s = map ascii_lower s.
Proof. intros H. unfold ToLower. by rewrite H. Qed.

(** An ASCII Authorization header [kind ws value] yields the kind
    lower-cased and the value. *)
Theorem SplitAuthorizationHeader_join utl r p w v :
  header_get "Authorization" (req_header r) = String.string_of_list_ascii (p ++ w ++ v) ->
  is_ascii (p ++ w ++ v) = true ->
  p <> [] -> forallb (negb ∘ is_space_byte) p = true ->
  w <> [] -> forallb is_space_byte w = true ->
  trimmed v = true ->
  SplitAuthorizationHeader utl r = Returns (map ascii_lower p, v).
Proof.
  intros Hh Ha Hp Hpn Hw Hws Hv. unfold SplitAuthorizationHeader.
  rewrite Hh, String.list_ascii_of_string_of_list_ascii, split_join by done.
  by rewrite ToLower_ascii by (by apply is_ascii_app_l in Ha).
Qed.


(** With leading whitespace the value is sliced at an offset
    computed as if the header started with its first field: [" a a b"]
    gives the value ["a a b"], where the header without the leading
    space gives ["a b"]. *)
Example SplitHeaderOnSpace_leading_space :
  SplitHeaderOnSpace (bytes_of " a a b") = Returns (bytes_of "a", bytes_of "a a b").
Proof. vm_compute. reflexivity. Qed.

(** ** Witnesses *)

Lemma SplitHeaderOnSpace_join_witness :
  SplitHeaderOnSpace (bytes_of "biscuit" ++ bytes_of "   " ++ bytes_of "biscuit two") =
  Returns (bytes_of "biscuit", bytes_of "biscuit two").
Proof. apply SplitHeaderOnSpace_join; (reflexivity || discriminate). Defined.

Lemma SplitAuthorizationHeader_join_witness :
  SplitAuthorizationHeader (fun s => s) (auth_request "Bearer abc def") =
  Returns (bytes_of "bearer", bytes_of "abc def").
Proof.
  apply (SplitAuthorizationHeader_join _ _ (bytes_of "Bearer") (bytes_of " ") (bytes_of "abc def"));
    (reflexivity || discriminate).
Defined.

End Headers.
