(* ===== verification/Transport.v ===== *)
(** * Round-tripper decorators (user_agent.go, url_prefix_transport.go,
      basic_auth_transport.go) and the client that calls them

    Each decorator is a struct with a [Next http.RoundTripper] field and a
    [RoundTrip(r *http.Request)] method that changes [*r] in place and
    then calls [Next.RoundTrip(r)].  [*http.Request] is a pointer: the
    model keeps the outgoing requests in a heap ([net]) indexed by
    locations, so that the caller, the decorators and the server see the
    same request, and what each of them changes is visible to the others.
    The server end is a round-tripper that records the request as it
    arrives ([n_wire]) and answers it.

    [http.RoundTripper] is the class [RoundTripper]; an interface value
    is the record [RoundTripperV] of its method, into which [to_iface]
    boxes any instance.  URLs are kept as the string [URL.String()]
    returns, and [url.Parse] is the class [URLParser] (an error message,
    or the string form of the parsed URL).  [http.Client.Do] is modelled
    for a client without [Timeout] or [Jar], as [http.DefaultClient]: the
    request is not copied before the transport runs, and the error of a
    failed round trip is a [*url.Error] built from [req.URL] after the
    transport returned.  Redirect responses are handed to a follow-up
    computation that is a parameter of [Do]. *)

From S2P Require Import Prelude GoHttp Errors Headers JSONHandler.
Local Open Scope string_scope.

Module Transport.
Import HttpErr Headers JSONHandler.

(** ** URLs *)

Class URLParser := url_Parse : string -> string + string.

(** ** Requests, errors and the heap *)

(** The fields of an outgoing [http.Request] that the client code reads
    or writes. *)
Record outreq := mkOutReq {
  oq_method : string;
  oq_url : option string;    (* [r.URL] by its [String()]; [None] is nil *)
  oq_header : header;
  oq_body : option string    (* [r.Body]; [None] is nil *)
}.

Definition set_oq_header (f : header -> header) (r : outreq) : outreq :=
  {| oq_method := oq_method r; oq_url := oq_url r; oq_header := f (oq_header r);
     oq_body := oq_body r |}.

Definition set_oq_url (u : option string) (r : outreq) : outreq :=
  {| oq_method := oq_method r; oq_url := u; oq_header := oq_header r; oq_body := oq_body r |}.

(** The dynamic types of the errors the client code returns. *)
Inductive cerror :=
| ErrMsg (msg : string)                       (* [errors.New] and the like *)
| ErrURL (op url : string) (err : cerror)     (* [*url.Error] *)
| ErrResponse (resp : client_response)        (* [httperr.Response] *)
| ErrValue (v : value).                       (* a value of the caller's error type *)

(** A round trip: [(nil, err)] or [(resp, nil)]. *)
Abbreviation result := (cerror + client_response)%type.

Abbreviation loc := nat.

Record net := mkNet {
  n_reqs : gmap loc outreq;     (* the [*http.Request]s *)
  n_wire : list outreq;         (* requests as servers received them, oldest first *)
  n_open : nat                  (* response bodies received and not closed *)
}.

Definition load (l : loc) : M net outreq :=
  fun n => match n_reqs n !! l with
           | Some r => Returns (r, n)
           | None => Panics nil_deref
           end.

Definition put_req (l : loc) (r : outreq) (n : net) : net :=
  {| n_reqs := <[l := r]> (n_reqs n); n_wire := n_wire n; n_open := n_open n |}.

Definition store (l : loc) (r : outreq) : M net unit := modify (put_req l r).

(** [new(Request)]: a location not in use. *)
Definition alloc (r : outreq) : M net loc :=
  fun n => let l := fresh (dom (n_reqs n)) in Returns (l, put_req l r n).

(** ** [http.RoundTripper] *)

Class RoundTripper (T : Type) := RoundTrip : T -> loc -> M net result.

(** An interface value: the method of its dynamic value. *)
Record RoundTripperV := mkRoundTripper { rt_RoundTrip : loc -> M net result }.

#[export] Instance RoundTripperV_RoundTripper : RoundTripper RoundTripperV := rt_RoundTrip.

Definition to_iface {T} `{RoundTripper T} (t : T) : RoundTripperV := mkRoundTripper (RoundTrip t).

(** ** user_agent.go *)

Record UserAgentTransport := mkUserAgentTransport {
  UA_Next : RoundTripperV;
  UserAgent : string
}.

#[export] Instance UserAgentTransport_RoundTrip : RoundTripper UserAgentTransport :=
  fun t r =>
    do req <- load r;
    do _ <- (if String.eqb (header_get "User-Agent" (oq_header req)) ""
             then store r (set_oq_header (header_set "User-Agent" (UserAgent t)) req)
             else ret tt);
    RoundTrip (UA_Next t) r.

(** ** url_prefix_transport.go *)

Section URLPrefix.
Context `{URLParser}.

Record URLPrefixTransport := mkURLPrefixTransport {
  UP_Next : RoundTripperV;
  Server : string
}.

(** [r.URL, err = url.Parse(t.Server + r.URL.String())]: the assignment
    happens before the error is checked, so a failed parse leaves
    [r.URL] nil. *)
#[export] Instance URLPrefixTransport_RoundTrip : RoundTripper URLPrefixTransport :=
  fun t r =>
    do req <- load r;
    match oq_url req with
    | None => panic nil_deref
    | Some u =>
        let parsed := url_Parse (Server t ++ u) in
        do _ <- store r (set_oq_url (match parsed with inl _ => None | inr u' => Some u' end) req);
        match parsed with
        | inl err => ret (inl (ErrMsg err))
        | inr _ => RoundTrip (UP_Next t) r
        end
    end.
End URLPrefix.

(** ** basic_auth_transport.go, with [encoding/base64] *)

Definition encodeStd : string :=
  "ABCDEFGHIJKLMNOPQRSTUVWXYZabcdefghijklmnopqrstuvwxyz0123456789+/".

(** [enc.encode[i]]. *)
Definition encode_char (i : Z) : Ascii.ascii := default "A"%char (String.get (Z.to_nat i) encodeStd).

Definition StdPadding : Ascii.ascii := "="%char.

(** [base64.StdEncoding.Encode]: the loop over whole 3-byte groups, then
    the 1 or 2 bytes that remain, padded. *)
Fixpoint b64_encode (src : bytes) : bytes :=
  match src with
  | a :: b :: c :: rest =>
      let val := Z.lor (Z.lor (Z.shiftl (byte_val a) 16) (Z.shiftl (byte_val b) 8)) (byte_val c) in
      encode_char (Z.land (Z.shiftr val 18) 63) :: encode_char (Z.land (Z.shiftr val 12) 63) ::
      encode_char (Z.land (Z.shiftr val 6) 63) :: encode_char (Z.land val 63) :: b64_encode rest
  | [a; b] =>
      let val := Z.lor (Z.shiftl (byte_val a) 16) (Z.shiftl (byte_val b) 8) in
      [encode_char (Z.land (Z.shiftr val 18) 63); encode_char (Z.land (Z.shiftr val 12) 63);
       encode_char (Z.land (Z.shiftr val 6) 63); StdPadding]
  | [a] =>
      let val := Z.shiftl (byte_val a) 16 in
      [encode_char (Z.land (Z.shiftr val 18) 63); encode_char (Z.land (Z.shiftr val 12) 63);
       StdPadding; StdPadding]
  | [] => []
  end.

Definition EncodeToString (src : bytes) : string := String.string_of_list_ascii (b64_encode src).

(** [basicAuth] of net/http. *)
Definition basicAuth (username password : string) : string :=
  EncodeToString (String.list_ascii_of_string (username ++ ":" ++ password)).

(** [r.SetBasicAuth(username, password)]. *)
Definition SetBasicAuth (username password : string) (r : outreq) : outreq :=
  set_oq_header (header_set "Authorization" ("Basic " ++ basicAuth username password)) r.

Record BasicAuthTransport := mkBasicAuthTransport {
  BA_Next : RoundTripperV;
  Username : string;
  Password : string
}.

#[export] Instance BasicAuthTransport_RoundTrip : RoundTripper BasicAuthTransport :=
  fun t r =>
    do req <- load r;
    do _ <- store r (SetBasicAuth (Username t) (Password t) req);
    RoundTrip (BA_Next t) r.

(** ** The server end and [http.Client.Do] *)

Definition receive (req : outreq) (n : net) : net :=
  {| n_reqs := n_reqs n; n_wire := n_wire n ++ [req]; n_open := S (n_open n) |}.

(** A server: it receives the request as it is at this point, and its
    answer arrives with an open body. *)
Definition server (serve : outreq -> client_response) : RoundTripperV :=
  mkRoundTripper (fun r =>
    do req <- load r;
    do _ <- modify (receive req);
    ret (inr (serve req))).

(** A transport that cannot reach the network. *)
Definition unreachable (msg : string) : RoundTripperV :=
  mkRoundTripper (fun _ => ret (inl (ErrMsg msg))).

Record Client := mkClient { Transport : RoundTripperV }.

(** [urlErrorOp]: the method with all but its first byte lower-cased
    when it is printable ASCII, ["Get"] for the empty method. *)
Definition urlErrorOp (method : string) : string :=
  match String.list_ascii_of_string method with
  | [] => "Get"
  | c :: rest =>
      if forallb (fun c => in_range 32 126 (byte_val c)) (c :: rest)
      then String.string_of_list_ascii (c :: map ascii_lower rest)
      else method
  end.

(** The [shouldRedirect] result of [redirectBehavior]. *)
Definition shouldRedirect (resp : client_response) : bool :=
  bool_decide (cr_StatusCode resp ∈ [301; 302; 303]%Z) ||
  (bool_decide (cr_StatusCode resp ∈ [307; 308]%Z) &&
   negb (String.eqb (header_get "Location" (cr_Header resp)) "")).

Section Do.
(** What [Client.Do] does after a redirect response: not modelled. *)
Context (follow_redirect : loc -> client_response -> M net result).

(** [c.Do(req)]: the nil-URL check, the round trip, and the [*url.Error]
    of a failure, built from [req.URL] as it is after the transport
    returned ([stripPassword(req.URL)] dereferences it). *)
Definition Do (c : Client) (r : loc) : M net result :=
  do req <- load r;
  match oq_url req with
  | None => ret (inl (ErrURL (urlErrorOp (oq_method req)) "" (ErrMsg "http: nil Request.URL")))
  | Some _ =>
      do res <- RoundTrip (Transport c) r;
      match res with
      | inl err =>
          do req' <- load r;
          match oq_url req' with
          | None => panic nil_deref
          | Some u => ret (inl (ErrURL (urlErrorOp (oq_method req')) u err))
          end
      | inr resp => if shouldRedirect resp then follow_redirect r resp else ret (inr resp)
      end
  end.
End Do.

(** The request as the server's handler sees it: the method, the header
    and the body that crossed the wire, and an empty context. *)
Definition incoming (req : outreq) : request :=
  {| req_method := oq_method req; req_header := oq_header req;
     req_body := oq_body req; req_ctx := [] |}.

(** ** The contract of a decorator *)

(** [rt] edits the request in place with [edit] and hands it on to
    [next]. *)
Definition forwards (rt : RoundTripperV) (edit : outreq -> outreq) (next : RoundTripperV) : Prop :=
  forall r n req, n_reqs n !! r = Some req ->
    rt_RoundTrip rt r n = rt_RoundTrip next r (put_req r (edit req) n).

(** The edit [UserAgentTransport] makes. *)
Definition default_user_agent (ua : string) (req : outreq) : outreq :=
  if String.eqb (header_get "User-Agent" (oq_header req)) ""
  then set_oq_header (header_set "User-Agent" ua) req else req.

(** ** Inputs of the witnesses *)

(** A URL parser: control characters are rejected, as [url.Parse] does;
    any other string parses to itself. *)
Definition demo_url_Parse : URLParser :=
  fun s => if existsb (fun c => (byte_val c <? 32)%Z) (String.list_ascii_of_string s)
           then inl "net/url: invalid control character in URL" else inr s.

Definition demo_req (u : string) : outreq :=
  {| oq_method := "GET"; oq_url := Some u; oq_header := ∅; oq_body := None |}.

Definition demo_net (u : string) : net :=
  {| n_reqs := {[0 := demo_req u]}; n_wire := []; n_open := 0 |}.

Definition ok_server (req : outreq) : client_response :=
  {| cr_Status := "200 OK"; cr_StatusCode := 200; cr_Header := ∅; cr_Body := "" |}.

Definition example_server : URLPrefixTransport :=
  mkURLPrefixTransport (server ok_server) "https://example.com".

Definition newline_path : string := "/a" ++ String (Ascii.ascii_of_nat 10) "".

(** ** Lemmas *)

Lemma bind_load {A} r n req (k : outreq -> M net A) :
  n_reqs n !! r = Some req -> (do x <- load r; k x) n = k req n.
Proof. intros H. unfold bind, load. by rewrite H. Qed.

Lemma put_req_same r req n : n_reqs n !! r = Some req -> put_req r req n = n.
Proof. destruct n as [reqs wire open]. unfold put_req. simpl. intros H. by rewrite insert_id. Qed.

Lemma lookup_put_req r req n : n_reqs (put_req r req n) !! r = Some req.
Proof. apply lookup_insert_eq. Qed.

Lemma put_req_put_req r req req' n : put_req r req (put_req r req' n) = put_req r req n.
Proof. unfold put_req. simpl. by rewrite insert_insert_eq. Qed.

Lemma n_reqs_receive req n : n_reqs (receive req n) = n_reqs n.
Proof. reflexivity. Qed.

#[export] Hint Resolve lookup_put_req : httpx.

Lemma UserAgentTransport_forwards t :
  forwards (to_iface t) (default_user_agent (UserAgent t)) (UA_Next t).
Proof.
  intros r n req H. cbn [to_iface rt_RoundTrip]. unfold RoundTrip at 1, UserAgentTransport_RoundTrip.
  cbv beta. rewrite (bind_load _ _ req) by done. unfold default_user_agent.
  destruct (String.eqb _ _); go_run; [done|]. by rewrite put_req_same.
Qed.

Lemma BasicAuthTransport_forwards t :
  forwards (to_iface t) (SetBasicAuth (Username t) (Password t)) (BA_Next t).
Proof.
  intros r n req H. cbn [to_iface rt_RoundTrip]. unfold RoundTrip at 1, BasicAuthTransport_RoundTrip.
  cbv beta. rewrite (bind_load _ _ req) by done. by go_run.
Qed.

(** Forwarding composes: the edits apply outermost first. *)
Lemma forwards_trans a e1 b e2 c :
  forwards a e1 b -> forwards b e2 c -> forwards a (e2 ∘ e1) c.
Proof.
  intros H1 H2 r n req H. rewrite H1 by done. rewrite H2 by apply lookup_put_req.
  by rewrite put_req_put_req.
Qed.

Lemma server_receives serve r n req :
  n_reqs n !! r = Some req -> RoundTrip (server serve) r n = Returns (inr (serve req), receive req n).
Proof. intros H. unfold RoundTrip, RoundTripperV_RoundTripper. cbn [server rt_RoundTrip]. rewrite (bind_load _ _ req) by done. by go_run. Qed.

(** A chain of decorators in front of a server: the server receives the
    edited request, and the caller's request is left edited. *)
Lemma forwards_server rt e serve r n req :
  forwards rt e (server serve) -> n_reqs n !! r = Some req ->
  rt_RoundTrip rt r n = Returns (inr (serve (e req)), receive (e req) (put_req r (e req) n)).
Proof. intros Hf H. rewrite Hf by done. by apply server_receives, lookup_put_req. Qed.

(** ** Base64 output *)

Lemma string_get_in n s c : String.get n s = Some c -> c ∈ String.list_ascii_of_string s.
Proof.
  revert n. induction s as [|c' s IH]; intros [|n]; simpl; try discriminate.
  - intros [= ->]. constructor.
  - intros H. constructor. by apply (IH n).
Qed.

(** Every byte of the base64 alphabet and padding is ASCII and not
    whitespace. *)
Lemma b64_alphabet_ok :
  Forall (fun c => is_space_byte c = false /\ (byte_val c < 128)%Z)
         (StdPadding :: String.list_ascii_of_string encodeStd).
Proof.
  apply Forall_forall. intros c Hc.
  assert (forallb (fun c => negb (is_space_byte c) && (byte_val c <? 128)%Z)
            (StdPadding :: String.list_ascii_of_string encodeStd) = true) as Hb by (vm_compute; reflexivity).
  rewrite forallb_forall in Hb. specialize (Hb c (proj1 (list_elem_of_In _ _) Hc)).
  apply andb_prop in Hb as [H1 H2]. split; [by apply negb_true_iff | by apply Z.ltb_lt].
Qed.

Lemma encode_char_in i : encode_char i ∈ StdPadding :: String.list_ascii_of_string encodeStd.
Proof.
  apply list_elem_of_further. unfold encode_char.
  destruct (String.get _ _) as [c|] eqn:E; cbn [default]; [by eapply string_get_in|].
  vm_compute. left.
Qed.

Lemma b64_encode_alphabet src :
  Forall (fun c => c ∈ StdPadding :: String.list_ascii_of_string encodeStd) (b64_encode src).
Proof.
  remember (length src) as k eqn:Hk. revert src Hk.
  induction k as [k IH] using lt_wf_ind. intros [|a [|b [|c rest]]] ->; simpl;
    rewrite ?Forall_cons; repeat split; try apply encode_char_in; try by left.
  eapply IH; [|reflexivity]. simpl. lia.
Qed.

Lemma b64_encode_ok src :
  Forall (fun c => is_space_byte c = false /\ (byte_val c < 128)%Z) (b64_encode src).
Proof.
  eapply Forall_impl; [apply b64_encode_alphabet|]. intros c Hc.
  by apply (proj1 (Forall_forall _ _) b64_alphabet_ok).
Qed.

Lemma b64_encode_nil src : b64_encode src = [] -> src = [].
Proof. by destruct src as [|a [|b [|c rest]]]. Qed.

Section URLPrefixLemmas.
Context `{URLParser}.

Lemma URLPrefixTransport_parsed t r n req u u' :
  n_reqs n !! r = Some req -> oq_url req = Some u -> url_Parse (Server t ++ u) = inr u' ->
  RoundTrip t r n = RoundTrip (UP_Next t) r (put_req r (set_oq_url (Some u') req) n).
Proof.
  intros Hr Hu Hp. unfold RoundTrip at 1, URLPrefixTransport_RoundTrip.
  cbv beta. rewrite (bind_load _ _ req) by done. rewrite Hu. cbv zeta. rewrite Hp. by go_run.
Qed.

Lemma URLPrefixTransport_parse_error t r n req u e :
  n_reqs n !! r = Some req -> oq_url req = Some u -> url_Parse (Server t ++ u) = inl e ->
  RoundTrip t r n = Returns (inl (ErrMsg e), put_req r (set_oq_url None req) n).
Proof.
  intros Hr Hu Hp. unfold RoundTrip at 1, URLPrefixTransport_RoundTrip.
  cbv beta. rewrite (bind_load _ _ req) by done. rewrite Hu. cbv zeta. rewrite Hp. by go_run.
Qed.
End URLPrefixLemmas.

(** ** Properties *)

Lemma trimmed_of_nonspace v :
  v <> [] -> Forall (fun c => is_space_byte c = false) v -> trimmed v = true.
Proof.
  intros Hne Hall. destruct v as [|c v]; [done|]. unfold trimmed.
  destruct (last (c :: v)) as [d|] eqn:Hd; [|by apply last_None in Hd].
  apply last_Some_elem_of in Hd. rewrite Forall_forall in Hall.
  by rewrite (Hall c), (Hall d) by (done || by left).
Qed.

Lemma basic_auth_split u p :
  SplitHeaderOnSpace (String.list_ascii_of_string ("Basic " ++ basicAuth u p)) =
  Returns (String.list_ascii_of_string "Basic",
           b64_encode (String.list_ascii_of_string (u ++ ":" ++ p))).
Proof.
  pose proof (b64_encode_ok (String.list_ascii_of_string (u ++ ":" ++ p))) as Hok.
  rewrite list_ascii_of_string_app. unfold basicAuth, EncodeToString.
  rewrite String.list_ascii_of_string_of_list_ascii.
  change (String.list_ascii_of_string "Basic ") with (String.list_ascii_of_string "Basic" ++ [" "%char])%list.
  rewrite <- app_assoc. apply split_join; try (reflexivity || discriminate).
  - unfold is_ascii. rewrite !forallb_app. apply andb_true_iff; split; [reflexivity|].
    apply andb_true_iff; split; [reflexivity|]. apply forallb_forall. intros c Hc.
    apply list_elem_of_In in Hc.
    apply Z.ltb_lt. by apply (proj1 (Forall_forall _ _) Hok).
  - apply trimmed_of_nonspace.
    + intros Hnil%b64_encode_nil. rewrite !list_ascii_of_string_app in Hnil.
      by apply app_eq_nil in Hnil as [_ ?].
    + eapply Forall_impl; [exact Hok|]. by intros c [? _].
Qed.

(** A server that splits the Authorization header of a request
    [BasicAuthTransport] prepared ([SplitAuthorizationHeader] of
    headers.go) gets the kind ["basic"] and the base64 encoding of
    [username:password], for every username and password. *)
Theorem BasicAuth_SplitAuthorizationHeader utl u p req :
  SplitAuthorizationHeader utl (incoming (SetBasicAuth u p req)) =
  Returns (String.list_ascii_of_string "basic",
           b64_encode (String.list_ascii_of_string (u ++ ":" ++ p))).
Proof.
  unfold SplitAuthorizationHeader, incoming, SetBasicAuth, set_oq_header. cbn [req_header oq_header].
  by rewrite header_get_set, basic_auth_split, ToLower_ascii by reflexivity.
Qed.

(** C24: a user-agent decorator in front of a basic-auth decorator in
    front of a server: the server receives the request with the default
    user agent and the credentials, and the caller's own request is left
    changed the same way. *)
Theorem UserAgent_BasicAuth_stack ua u p serve r n req :
  n_reqs n !! r = Some req ->
  RoundTrip (mkUserAgentTransport (to_iface (mkBasicAuthTransport (server serve) u p)) ua) r n =
  Returns (inr (serve (SetBasicAuth u p (default_user_agent ua req))),
           receive (SetBasicAuth u p (default_user_agent ua req))
                   (put_req r (SetBasicAuth u p (default_user_agent ua req)) n)).
Proof.
  intros H.
  assert (Hf : forwards (to_iface (mkUserAgentTransport (to_iface (mkBasicAuthTransport (server serve) u p)) ua))
                        (SetBasicAuth u p ∘ default_user_agent ua) (server serve)).
  { eapply forwards_trans; [apply UserAgentTransport_forwards | apply BasicAuthTransport_forwards]. }
  exact (forwards_server _ _ serve r n req Hf H).
Qed.

Section URLPrefixClaims.
Context `{URLParser}.

(** C13: when the prefixed URL does not parse, [URLPrefixTransport] has
    already set [r.URL] to nil, and [http.Client.Do] then dereferences
    it while building its [*url.Error]: the call panics instead of
    returning the parse error. *)
Theorem Do_URLPrefix_parse_error_panics follow t r n req u e :
  n_reqs n !! r = Some req -> oq_url req = Some u -> url_Parse (Server t ++ u) = inl e ->
  Do follow (mkClient (to_iface t)) r n = Panics nil_deref.
Proof.
  intros Hr Hu Hp. unfold Do. rewrite (bind_load _ _ req) by done. rewrite Hu.
  pose proof (URLPrefixTransport_parse_error t r n req u e Hr Hu Hp) as E.
  change (RoundTrip t r n) with (RoundTrip (Transport (mkClient (to_iface t))) r n) in E.
  unfold bind at 1. rewrite E.
  by rewrite (bind_load _ _ (set_oq_url None req)) by apply lookup_put_req.
Qed.

(** C25: [URLPrefixTransport] writes the prefixed URL back into the
    caller's request, so sending the same request twice sends the
    prefix twice. *)
Theorem URLPrefix_reuse_doubles_prefix t serve r n req u :
  UP_Next t = server serve -> n_reqs n !! r = Some req -> oq_url req = Some u ->
  url_Parse (Server t ++ u) = inr (Server t ++ u) ->
  url_Parse (Server t ++ (Server t ++ u)) = inr (Server t ++ (Server t ++ u)) ->
  exists n', (do _ <- RoundTrip t r; RoundTrip t r) n =
             Returns (inr (serve (set_oq_url (Some (Server t ++ (Server t ++ u))) req)), n') /\
             n_wire n' = app (n_wire n) [set_oq_url (Some (Server t ++ u)) req;
                                         set_oq_url (Some (Server t ++ (Server t ++ u))) req].
Proof.
  intros Hn Hr Hu Hp1 Hp2. unfold bind at 1.
  rewrite (URLPrefixTransport_parsed t r n req u _ Hr Hu Hp1), Hn.
  rewrite (server_receives serve r _ (set_oq_url (Some (Server t ++ u)) req)) by apply lookup_put_req.
  rewrite (URLPrefixTransport_parsed t r _ (set_oq_url (Some (Server t ++ u)) req) (Server t ++ u) _)
    by (done || apply lookup_put_req). rewrite Hn.
  rewrite (server_receives serve r _ (set_oq_url (Some (Server t ++ (Server t ++ u))) req))
    by apply lookup_put_req.
  eexists. split; [reflexivity|]. simpl. by rewrite <- app_assoc.
Qed.
End URLPrefixClaims.

(** ** Witnesses *)

#[local] Existing Instance demo_url_Parse.

Lemma UserAgent_BasicAuth_stack_witness :
  RoundTrip (mkUserAgentTransport (to_iface (mkBasicAuthTransport (server ok_server) "alice" "pw"))
               "httpx-test") 0 (demo_net "/v1") =
  Returns (inr (ok_server (SetBasicAuth "alice" "pw" (default_user_agent "httpx-test" (demo_req "/v1")))),
           receive (SetBasicAuth "alice" "pw" (default_user_agent "httpx-test" (demo_req "/v1")))
                   (put_req 0 (SetBasicAuth "alice" "pw" (default_user_agent "httpx-test" (demo_req "/v1")))
                            (demo_net "/v1"))).
Proof. apply UserAgent_BasicAuth_stack. reflexivity. Defined.

Lemma Do_URLPrefix_parse_error_panics_witness :
  Do (fun _ resp => ret (inr resp)) (mkClient (to_iface example_server)) 0 (demo_net newline_path) =
  Panics nil_deref.
Proof.
  apply (Do_URLPrefix_parse_error_panics _ example_server 0 (demo_net newline_path)
           (demo_req newline_path) newline_path "net/url: invalid control character in URL");
    vm_compute; reflexivity.
Defined.

Lemma URLPrefix_reuse_doubles_prefix_witness :
  exists n', (do _ <- RoundTrip example_server 0; RoundTrip example_server 0) (demo_net "/v1") =
             Returns (inr (ok_server (set_oq_url (Some ("https://example.com" ++ ("https://example.com" ++ "/v1")))
                                                  (demo_req "/v1"))), n') /\
             n_wire n' = app (n_wire (demo_net "/v1"))
                           [set_oq_url (Some ("https://example.com" ++ "/v1")) (demo_req "/v1");
                            set_oq_url (Some ("https://example.com" ++ ("https://example.com" ++ "/v1")))
                                       (demo_req "/v1")].
Proof. apply (URLPrefix_reuse_doubles_prefix example_server ok_server); vm_compute; reflexivity. Defined.

End Transport.
