(* ===== verification/JSONClient.v ===== *)
(** * The JSON client (json_client.go)

    [JSONClient] embeds an [*http.Client] and has an optional
    [OnError func(r *http.Response) error].  [NewRequest] marshals the
    request value (when there is one) into the body and marks it
    [Content-type: application/json]; [DoJSON] also asks for
    [Accept: application/json] when the caller wants a response value,
    sends the request with [Client.Do], and hands the response to
    [HandleResponse]: a status of 400 or more goes to [OnError], or
    becomes an [httperr.Response] error; otherwise the body is decoded
    into the caller's value.  [HandleJSONError(factory)] is an [OnError]
    that unmarshals an error body into a value of the caller's error
    type.

    The caller's response value is a pointer; decoding writes through
    it.  The model returns what is written ([Some v]) next to the error
    ([None] is a nil error), instead of a heap of Go values.  A response
    body is a string that is read completely; reading does not fail.
    [json.NewDecoder(..).Decode] is the codec of [JSONHandler] (the first
    JSON value of the body); [json.Unmarshal], which needs the whole body
    to be one value, is the class [JSONUnmarshaler].  The open response
    bodies are counted in the [net] of [Transport]. *)

From S2P Require Import Prelude GoHttp Errors Render Headers JSONHandler Transport.
Local Open Scope string_scope.

Module JSONClient.
Import HttpErr Render Headers JSONHandler Transport.

Class JSONUnmarshaler := json_Unmarshal : gotype -> string -> decode_result.

(** [%q] of a string without characters to escape. *)
Definition dquote : string := String (Ascii.ascii_of_nat 34) EmptyString.
Definition quote (s : string) : string := dquote ++ s ++ dquote.

(** [validMethod] of net/http. *)
Definition validMethod (method : string) : bool :=
  negb (String.eqb method "") && string_forallb is_token_char method.

(** [json.Decoder.Decode(v)]: [v] must be a pointer. *)
Definition Decode `{JSONCodec} (t : gotype) (body : string) : string + option value :=
  match t with
  | TPtr elem =>
      match json_decode elem body with
      | DecErr msg => inl msg
      | DecNull => inr None
      | DecValue v => inr (Some v)
      end
  | _ => inl ("json: Unmarshal(non-pointer " ++ type_String t ++ ")")
  end.

(** [json.Unmarshal(data, v)] for the dynamic type of [v] ([None]: a nil
    interface); the result is the pointer [v] with what was decoded. *)
Definition Unmarshal `{JSONUnmarshaler} (t : option gotype) (data : string) : string + value :=
  match t with
  | Some (TPtr elem) =>
      match json_Unmarshal elem data with
      | DecErr msg => inl msg
      | DecNull => inr (VPtr (zero_value elem))
      | DecValue v => inr (VPtr v)
      end
  | Some t => inl ("json: Unmarshal(non-pointer " ++ type_String t ++ ")")
  | None => inl "json: Unmarshal(nil)"
  end.

Section Client.
Context `{JSONCodec} `{URLParser}.

(** [http.NewRequestWithContext(ctx, method, url, body)]. *)
Definition NewRequestWithContext (method uri : string) (body : option string) : M net (cerror + loc) :=
  let method := if String.eqb method "" then "GET" else method in
  if negb (validMethod method) then ret (inl (ErrMsg ("net/http: invalid method " ++ quote method)))
  else match url_Parse uri with
       | inl err => ret (inl (ErrMsg err))
       | inr u =>
           do req <- alloc {| oq_method := method; oq_url := Some u; oq_header := ∅; oq_body := body |};
           ret (inr req)
       end.

(** The body of [NewRequest]: [json.Marshal(requestBody)] unless
    [requestBody] is a nil interface ([None]). *)
Definition marshal_request (requestBody : option value) : string + option string :=
  match requestBody with
  | None => inr None
  | Some v => match json_marshal v with
              | inl err => inl err
              | inr bodyBuf => inr (Some bodyBuf)
              end
  end.

(** [JSONClient.NewRequest]. *)
Definition NewRequest (method uri : string) (requestBody : option value) : M net (cerror + loc) :=
  match marshal_request requestBody with
  | inl err => ret (inl (ErrMsg err))
  | inr body =>
      do res <- NewRequestWithContext method uri body;
      match res with
      | inl err => ret (inl err)
      | inr req =>
          do r <- load req;
          do _ <- (match oq_body r with
                   | Some _ => store req (set_oq_header (header_add "Content-type" "application/json") r)
                   | None => ret tt
                   end);
          ret (inr req)
      end
  end.

Record JSONClient := mkJSONClient {
  Client_ : Client;
  OnError : option (client_response -> M net (option cerror))
}.

(** [c.HandleResponse(resp, responseBody)]: the error, and the value
    written through [responseBody]. *)
Definition HandleResponse (c : JSONClient) (resp : client_response) (responseBody : option gotype)
  : M net (option cerror * option value) :=
  if (400 <=? cr_StatusCode resp)%Z then
    match OnError c with
    | Some f => do err <- f resp; ret (err, None)
    | None => ret (Some (ErrResponse resp), None)
    end
  else
    match responseBody with
    | Some t =>
        match Decode t (cr_Body resp) with
        | inl err => ret (Some (ErrMsg err), None)
        | inr v => ret (None, v)
        end
    | None => ret (None, None)
    end.

Section DoJSON.
(** What [Client.Do] does after a redirect response. *)
Context (follow_redirect : loc -> client_response -> M net result).

(** [c.DoJSON(ctx, method, uri, request, response)]. *)
Definition DoJSON (c : JSONClient) (method uri : string) (request : option value)
    (response : option gotype) : M net (option cerror * option value) :=
  do res <- NewRequest method uri request;
  match res with
  | inl err => ret (Some err, None)
  | inr httpReq =>
      do _ <- (match response with
               | Some _ => do r <- load httpReq;
                           store httpReq (set_oq_header (header_set "Accept" "application/json") r)
               | None => ret tt
               end);
      do res <- Do follow_redirect (Client_ c) httpReq;
      match res with
      | inl err => ret (Some err, None)
      | inr httpResp => HandleResponse c httpResp response
      end
  end.
End DoJSON.
End Client.

(** [HandleJSONError(respBodyFactory)]; [factory] is the dynamic type of
    the error value the factory returns ([None]: nil). *)
Definition HandleJSONError `{JSONUnmarshaler} (factory : option gotype)
  : client_response -> M net (option cerror) :=
  fun r =>
    let respBodyBuf := cr_Body r in
    match Unmarshal factory respBodyBuf with
    | inl _ => ret (Some (ErrResponse r))
    | inr respBody => ret (Some (ErrValue respBody))
    end.

(** ** Inputs of the witnesses *)

Definition demo_unmarshal : JSONUnmarshaler := demo_decode.

Definition plain_client (serve : outreq -> client_response) : JSONClient :=
  mkJSONClient (mkClient (server serve)) None.

Definition no_redirects : loc -> client_response -> M net result := fun _ resp => ret (inr resp).

Definition api_uri : string := "https://api.example.com/foo".
Definition req_val : value := VStruct "main.Req" [].
Definition resp_ty : gotype := TPtr (TStruct "main.Resp").
Definition net0 : net := {| n_reqs := ∅; n_wire := []; n_open := 0 |}.

(** What a handler writes for [teapot_public] on a fresh writer. *)
Definition teapot_w : response :=
  generic_response fresh_response 418 (Some "cannot frob the grob").

Definition not_found_json : client_response :=
  {| cr_Status := "404 Not Found"; cr_StatusCode := 404; cr_Header := ∅; cr_Body := "{}" |}.

Definition api_error_ty : gotype := TPtr (TStruct "main.APIError").

(** ** Specification *)

(** The method [http.NewRequestWithContext] uses. *)
Definition request_method (method : string) : string :=
  if String.eqb method "" then "GET" else method.

(** Whether the caller passed a response value. *)
Definition wants (response : option gotype) : bool :=
  match response with Some _ => true | None => false end.

(** The request [DoJSON] sends, by what the code does to it. *)
Definition sent_request (method u : string) (body : option string) (accept : bool) : outreq :=
  let h := match body with
           | Some _ => header_add "Content-type" "application/json" ∅
           | None => ∅
           end in
  {| oq_method := request_method method; oq_url := Some u;
     oq_header := if accept then header_set "Accept" "application/json" h else h;
     oq_body := body |}.

(** ** Lemmas *)

Section ClientLemmas.
Context `{JSONCodec} `{URLParser}.

Lemma NewRequestWithContext_ok method uri body u n :
  validMethod (request_method method) = true -> url_Parse uri = inr u ->
  NewRequestWithContext method uri body n =
  Returns (inr (fresh (dom (n_reqs n))),
           put_req (fresh (dom (n_reqs n)))
             {| oq_method := request_method method; oq_url := Some u; oq_header := ∅; oq_body := body |} n).
Proof.
  intros Hm Hu. unfold NewRequestWithContext. cbv zeta. fold (request_method method).
  rewrite Hm. simpl. rewrite Hu. by go_run.
Qed.
Lemma NewRequest_ok method uri request body u n :
  marshal_request request = inr body ->
  validMethod (request_method method) = true -> url_Parse uri = inr u ->
  NewRequest method uri request n =
  Returns (inr (fresh (dom (n_reqs n))),
           put_req (fresh (dom (n_reqs n))) (sent_request method u body false) n).
Proof.
  intros Hb Hm Hu. unfold NewRequest. rewrite Hb.
  rewrite (bind_returns _ _ _ _ _ (NewRequestWithContext_ok method uri body u n Hm Hu)).
  rewrite (bind_load _ _ _ _ (lookup_put_req _ _ _)). cbn [oq_body].
  destruct body; go_run; [|done]. by rewrite put_req_put_req.
Qed.

(** [Client.Do] against a server, for a response that is not a redirect. *)
Lemma Do_server follow serve r n q u :
  n_reqs n !! r = Some q -> oq_url q = Some u -> shouldRedirect (serve q) = false ->
  Do follow (mkClient (server serve)) r n = Returns (inr (serve q), receive q n).
Proof.
  intros Hq Hu Hr. unfold Do. rewrite (bind_load _ _ _ _ Hq), Hu. unfold bind at 1.
  cbn [Transport]. rewrite (server_receives serve r n q Hq). by rewrite Hr.
Qed.

(** [DoJSON] against a server that does not redirect: the request it
    sends, and the response handed to [HandleResponse]. *)
Lemma DoJSON_server follow c serve method uri request response body u n :
  Client_ c = mkClient (server serve) -> (forall q, shouldRedirect (serve q) = false) ->
  marshal_request request = inr body ->
  validMethod (request_method method) = true -> url_Parse uri = inr u ->
  DoJSON follow c method uri request response n =
  HandleResponse c (serve (sent_request method u body (wants response))) response
    (receive (sent_request method u body (wants response))
       (put_req (fresh (dom (n_reqs n))) (sent_request method u body (wants response)) n)).
Proof.
  intros Hc Hr Hb Hm Hu. unfold DoJSON.
  rewrite (bind_returns _ _ _ _ _ (NewRequest_ok method uri request body u n Hb Hm Hu)).
  set (l := fresh (dom (n_reqs n))).
  assert (Hs : (match response with
                | Some _ => do r <- load l;
                            store l (set_oq_header (header_set "Accept" "application/json") r)
                | None => ret tt
                end) (put_req l (sent_request method u body false) n) =
               Returns (tt, put_req l (sent_request method u body (wants response)) n)).
  { destruct response; [|done]. rewrite (bind_load _ _ _ _ (lookup_put_req _ _ _)).
    unfold store. go_run. by rewrite put_req_put_req. }
  rewrite (bind_returns _ _ _ _ _ Hs), Hc.
  rewrite (bind_returns _ _ _ _ _ (Do_server follow serve l _ (sent_request method u body (wants response)) u (lookup_put_req _ _ _) eq_refl (Hr _))).
  reflexivity.
Qed.

Lemma HandleResponse_no_OnError c resp rb n :
  OnError c = None -> exists out, HandleResponse c resp rb n = Returns (out, n).
Proof.
  intros Ho. unfold HandleResponse. rewrite Ho.
  destruct (400 <=? _)%Z; [by eexists|]. destruct rb as [t|]; [|by eexists].
  destruct (Decode t _); by eexists.
Qed.

Lemma shouldRedirect_error resp : (400 <= cr_StatusCode resp)%Z -> shouldRedirect resp = false.
Proof.
  intros Hc. unfold shouldRedirect.
  rewrite !bool_decide_false; [done | rewrite list_elem_of_In; simpl; lia ..].
Qed.

Lemma sent_request_headers method u body accept :
  header_values "Content-Type" (oq_header (sent_request method u body accept)) =
    (if body then ["application/json"] else []) /\
  header_values "Accept" (oq_header (sent_request method u body accept)) =
    (if accept then ["application/json"] else []).
Proof. destruct body, accept; split; reflexivity. Qed.

Lemma Response_Error_generic code m :
  m <> "" ->
  Response_Error (received (generic_response fresh_response code (Some m))) =
  pretty code ++ " " ++ status_line_text code ++ ": " ++ m.
Proof.
  intros Hne. unfold Response_Error, received, generic_response. simpl.
  unfold header_get. rewrite header_values_error_header.
  unfold header_values, header_add. rewrite lookup_insert_eq, lookup_empty. simpl.
  rewrite (proj2 (String.eqb_neq m "") Hne). by rewrite !string_app_assoc.
Qed.
End ClientLemmas.

(** ** Properties *)

Section ClientProperties.
Context `{JSONCodec} `{URLParser}.

(** [DoJSON] sends one request, with the marshalled request value
    as body, [Content-Type: application/json] exactly when there is a
    body, and [Accept: application/json] exactly when the caller passed
    a response value. *)
Theorem DoJSON_request_headers follow c serve method uri request response body u n :
  Client_ c = mkClient (server serve) -> OnError c = None ->
  (forall q, shouldRedirect (serve q) = false) ->
  marshal_request request = inr body ->
  validMethod (request_method method) = true -> url_Parse uri = inr u ->
  exists out n' q, DoJSON follow c method uri request response n = Returns (out, n') /\
    n_wire n' = app (n_wire n) [q] /\ oq_url q = Some u /\ oq_body q = body /\
    header_values "Content-Type" (oq_header q) = (if body then ["application/json"] else []) /\
    header_values "Accept" (oq_header q) = (if wants response then ["application/json"] else []).
Proof.
  intros Hc Ho Hr Hb Hm Hu. rewrite (DoJSON_server follow c serve method uri request response body u n) by done.
  destruct (HandleResponse_no_OnError c (serve (sent_request method u body (wants response))) response
              (receive (sent_request method u body (wants response))
                 (put_req (fresh (dom (n_reqs n))) (sent_request method u body (wants response)) n)) Ho)
    as [out Hout].
  do 3 eexists. split; [exact Hout|]. split; [reflexivity|].
  split; [reflexivity|]. split; [reflexivity|]. apply sent_request_headers.
Qed.

(** C23: [DoJSON] never closes the body of the response it received:
    after every call that reached the server, one more response body is
    open than before, whatever the status and the decoding outcome. *)
Theorem DoJSON_leaves_body_open follow c serve method uri request response body u n :
  Client_ c = mkClient (server serve) -> OnError c = None ->
  (forall q, shouldRedirect (serve q) = false) ->
  marshal_request request = inr body ->
  validMethod (request_method method) = true -> url_Parse uri = inr u ->
  exists out n', DoJSON follow c method uri request response n = Returns (out, n') /\
    n_open n' = S (n_open n).
Proof.
  intros Hc Ho Hr Hb Hm Hu. rewrite (DoJSON_server follow c serve method uri request response body u n) by done.
  edestruct HandleResponse_no_OnError as [out Hout]; [exact Ho|].
  do 2 eexists. split; [exact Hout|]. reflexivity.
Qed.

(** C22: end to end, a handler that writes a public error with
    [httperr.Write] (status 400 or more) and a [JSONClient] without
    [OnError]: [DoJSON] returns the [httperr.Response] error, whose
    [Error()] is the status line followed by the public message. *)
Theorem DoJSON_public_error follow c method uri request response body u n now r err m w :
  Write now r err fresh_response = Returns (tt, w) ->
  Client_ c = mkClient (server (fun _ => received w)) -> OnError c = None ->
  errors_as writer_cap err = None -> IsPublic err = true ->
  Error (Cause err) = Returns m -> m <> "" ->
  valid_code (resolved_status err) = true -> (400 <= resolved_status err)%Z ->
  marshal_request request = inr body ->
  validMethod (request_method method) = true -> url_Parse uri = inr u ->
  exists n', DoJSON follow c method uri request response n =
             Returns ((Some (ErrResponse (received w)), None), n') /\
    Response_Error (received w) =
    pretty (resolved_status err) ++ " " ++ status_line_text (resolved_status err) ++ ": " ++ m.
Proof.
  intros Hw Hc Ho Hwc Hp Hm Hne Hv H400 Hb Hmeth Hu.
  rewrite (Write_public_fresh now r err fresh_response m) in Hw by done.
  injection Hw as <-.
  rewrite (DoJSON_server follow c _ method uri request response body u n) by
    (done || intros; apply shouldRedirect_error; exact H400).
  eexists. split; [|by apply Response_Error_generic].
  unfold HandleResponse. rewrite Ho.
  assert (Hl : (400 <=? cr_StatusCode (received (generic_response fresh_response
                  (resolved_status err) (Some m))))%Z = true) by (apply Z.leb_le; exact H400).
  by rewrite Hl.
Qed.
End ClientProperties.

Section HandleJSONErrorProperties.
Context `{JSONCodec} `{URLParser} `{JSONUnmarshaler}.

(** C26: with [OnError = HandleJSONError(factory)], an error response
    whose body unmarshals into the caller's error type yields that
    decoded value as the error of [DoJSON]: the status code of the
    response is not part of it. *)
Theorem DoJSON_HandleJSONError_drops_status follow c resp factory v method uri request response body u n :
  Client_ c = mkClient (server (fun _ => resp)) -> OnError c = Some (HandleJSONError factory) ->
  (400 <= cr_StatusCode resp)%Z -> Unmarshal factory (cr_Body resp) = inr v ->
  marshal_request request = inr body ->
  validMethod (request_method method) = true -> url_Parse uri = inr u ->
  exists n', DoJSON follow c method uri request response n = Returns ((Some (ErrValue v), None), n').
Proof.
  intros Hc Ho H400 Hv Hb Hm Hu.
  rewrite (DoJSON_server follow c _ method uri request response body u n) by
    (done || intros; apply shouldRedirect_error; exact H400).
  eexists. unfold HandleResponse. rewrite Ho, (proj2 (Z.leb_le 400 _) H400).
  unfold HandleJSONError. cbv zeta. rewrite Hv. by go_run.
Qed.
End HandleJSONErrorProperties.

(** ** Witnesses *)

#[local] Existing Instance demo_codec_inst.
#[local] Existing Instance demo_url_Parse.
#[local] Existing Instance demo_unmarshal.

Lemma DoJSON_request_headers_witness :
  exists out n' q,
    DoJSON no_redirects (plain_client ok_server) "POST" api_uri (Some req_val) (Some resp_ty) net0 =
      Returns (out, n') /\
    n_wire n' = app (n_wire net0) [q] /\ oq_url q = Some api_uri /\ oq_body q = Some "{}" /\
    header_values "Content-Type" (oq_header q) = ["application/json"] /\
    header_values "Accept" (oq_header q) = ["application/json"].
Proof.
  apply (DoJSON_request_headers no_redirects (plain_client ok_server) ok_server "POST" api_uri
           (Some req_val) (Some resp_ty) (Some "{}") api_uri net0); try reflexivity.
Defined.

Lemma DoJSON_leaves_body_open_witness :
  exists out n',
    DoJSON no_redirects (plain_client ok_server) "GET" api_uri None (Some resp_ty) net0 = Returns (out, n') /\
    n_open n' = S (n_open net0).
Proof.
  apply (DoJSON_leaves_body_open no_redirects (plain_client ok_server) ok_server "GET" api_uri
           None (Some resp_ty) None api_uri net0); try reflexivity.
Defined.

Lemma DoJSON_public_error_witness :
  exists n', DoJSON no_redirects (plain_client (fun _ => received teapot_w)) "GET" api_uri None None net0 =
             Returns ((Some (ErrResponse (received teapot_w)), None), n') /\
    Response_Error (received teapot_w) =
    pretty (resolved_status teapot_public) ++ " " ++ status_line_text (resolved_status teapot_public) ++
    ": " ++ "cannot frob the grob".
Proof.
  apply (DoJSON_public_error no_redirects _ "GET" api_uri None None None api_uri net0 0 req0
           teapot_public "cannot frob the grob" teapot_w);
    (reflexivity || discriminate || (vm_compute; congruence)).
Defined.

Lemma DoJSON_HandleJSONError_drops_status_witness :
  exists n', DoJSON no_redirects (mkJSONClient (mkClient (server (fun _ => not_found_json)))
                                   (Some (HandleJSONError (Some api_error_ty))))
               "GET" api_uri None None net0 =
             Returns ((Some (ErrValue (VPtr (VStruct "main.APIError" []))), None), n').
Proof.
  apply (DoJSON_HandleJSONError_drops_status no_redirects _ not_found_json (Some api_error_ty)
           (VPtr (VStruct "main.APIError" [])) "GET" api_uri None None None api_uri net0);
    (reflexivity || (vm_compute; congruence)).
Defined.

End JSONClient.
