(* ===== verification/Format.v ===== *)
(** * Formatting errors with fmt (wrap.go, [errorWithStatus.Format])

    [errorWithStatus] implements [fmt.Formatter]: when the wrapped error
    is itself a [fmt.Formatter] it hands the formatting over to it;
    otherwise [%+v] prints the status code and the wrapped error with
    [%+v], [%v] and [%s] print [Error()], [%q] prints it quoted, and any
    other verb prints nothing.  The pkg/errors wrappers [withMessage] and
    [withStack] are the other formatters of the chain; [errorString],
    [errorWithPublic], [TooManyRequests] and the application's types are
    not, so fmt prints their [Error()].

    fmt recovers a panic of a [Format] or [Error] method and prints
    [%!v(PANIC=Format method: ...)] in its place; every [fmt] call of the
    code ([fmt.Fprintf] inside [Format]) does the same for its operand.
    [Format] returns an [outcome], and [print] is fmt printing one
    operand, which never panics.  [strconv.Quote] (for [%q]) is a section
    parameter.  The verbs are [v], [+v], [s], [q] and [d]; fmt's
    reflection-based printing of a non-formatter with [%d] is not
    modelled ([None]). *)

From S2P Require Import Prelude GoHttp Errors.
Local Open Scope string_scope.

Module Fmt.
Import HttpErr.

Inductive verb := Verb_v | Verb_plus_v | Verb_s | Verb_q | Verb_d.

#[global] Instance verb_eq_dec : EqDecision verb.
Proof. solve_decision. Defined.

(** The verb letter, as fmt writes it in its messages. *)
Definition verb_letter (v : verb) : string :=
  match v with
  | Verb_v | Verb_plus_v => "v" | Verb_s => "s" | Verb_q => "q" | Verb_d => "d"
  end.

(** The values of the chain that implement [fmt.Formatter]. *)
Definition is_formatter (e : error) : bool :=
  match e with
  | errorWithStatus _ _ | withMessage _ _ | withStack _ _ => true
  | _ => false
  end.

(** [catchPanic]: the text fmt prints for a method that panicked. *)
Definition catch (v : verb) (method : string) (o : outcome string) : string :=
  match o with
  | Returns s => s
  | Panics p => "%!" ++ verb_letter v ++ "(PANIC=" ++ method ++ " method: " ++ p ++ ")"
  end.

Section Format.
Context (Quote : string -> string).

(** [fmtString(s, verb)] for the verbs fmt applies to strings. *)
Definition fmtString (v : verb) (s : string) : string :=
  match v with Verb_q => Quote s | _ => s end.

(** fmt printing the error operand [e] with [%+v], given what [Format]
    of [e] yields. *)
Definition print_plus_v (e : error) (formatted : outcome string) : string :=
  match e with
  | Nil => "<nil>"
  | _ => if is_formatter e then catch Verb_plus_v "Format" formatted
         else catch Verb_plus_v "Error" (Error e)
  end.

(** The [Format] methods: [errorWithStatus] (wrap.go) and pkg/errors'
    [withMessage] and [withStack].  Values that are not formatters write
    nothing (fmt does not call [Format] on them). *)
Fixpoint Format (e : error) (v : verb) : outcome string :=
  match e with
  | errorWithStatus statusCode err =>
      if is_formatter err then Format err v
      else match v with
           | Verb_plus_v =>
               Returns (pretty statusCode ++ " " ++ print_plus_v err (Format err Verb_plus_v))
           | Verb_v | Verb_s => Error e
           | Verb_q => Quote <$> Error e
           | Verb_d => Returns ""
           end
  | withMessage cause msg =>
      match v with
      | Verb_plus_v =>
          Returns (print_plus_v cause (Format cause Verb_plus_v) ++ String "010"%char "" ++ msg)
      | Verb_v | Verb_s | Verb_q => Error e
      | Verb_d => Returns ""
      end
  | withStack err stack =>
      match v with
      | Verb_plus_v => Returns (print_plus_v err (Format err Verb_plus_v) ++ stack)
      | Verb_v | Verb_s => Error e
      | Verb_q => Quote <$> Error e
      | Verb_d => Returns ""
      end
  | _ => Returns ""
  end.

(** [fmt.Sprintf("%<verb>", e)] for an error operand. *)
Definition Sprintf (v : verb) (e : error) : option string :=
  match e with
  | Nil => Some (if decide (v = Verb_v) then "<nil>" else "%!" ++ verb_letter v ++ "(<nil>)")
  | _ =>
      if is_formatter e then Some (catch v "Format" (Format e v))
      else match v with
           | Verb_d => None
           | _ => Some (catch v "Error" (fmtString v <$> Error e))
           end
  end.
End Format.

(** ** Lemmas *)

Section FormatLemmas.
Context (Quote : string -> string).

Lemma Format_v_s e v m :
  is_formatter e = true -> v = Verb_v \/ v = Verb_s -> Error e = Returns m -> Format Quote e v = Returns m.
Proof.
  intros Hf Hv. induction e as [| |c err IH| | | | |]; try discriminate; simpl; intros He.
  - destruct (is_formatter err) eqn:Hf'; [by apply IH|]. by destruct Hv as [-> | ->].
  - by destruct Hv as [-> | ->].
  - by destruct Hv as [-> | ->].
Qed.

Lemma Format_errorWithStatus_formatter c err v :
  is_formatter err = true -> Format Quote (errorWithStatus c err) v = Format Quote err v.
Proof. intros Hf. simpl. by rewrite Hf. Qed.

(** [%v] and [%s] of any error print its [Error()], whenever
    [Error()] returns: the formatters of the chain agree with it. *)
Theorem Sprintf_v_s_is_Error e v m :
  v = Verb_v \/ v = Verb_s -> Error e = Returns m -> Sprintf Quote v e = Some m.
Proof.
  intros Hv He. unfold Sprintf. destruct (is_formatter e) eqn:Hf.
  - destruct e; try discriminate; cbn [is_formatter];
      by rewrite (Format_v_s _ v m Hf Hv He).
  - destruct e; try discriminate; cbn [is_formatter]; rewrite He; by destruct Hv as [-> | ->].
Qed.

(** [%+v] of [Wrap(c, err)] prints the status code before [err]
    when [err] is not a formatter, but [Publicf(c, ...)] and
    [WrapPublic(Wrap(c, err))] hide the code: [errorWithPublic] has no
    [Format], so fmt prints its [Error()]. *)
Theorem Sprintf_plus_v_status_code c m :
  Sprintf Quote Verb_plus_v (Wrapf c m) = Some (pretty c ++ " " ++ m) /\
  Sprintf Quote Verb_plus_v (Publicf c m) = Some m.
Proof. split; reflexivity. Qed.

(** [Wrap(c, err)] over a formatter ([pkg/errors] values) formats as
    [err] does, with every verb: the status code never appears. *)
Lemma Sprintf_Wrap_formatter c err v :
  is_formatter err = true -> Sprintf Quote v (Wrap c err) = Sprintf Quote v err.
Proof.
  intros Hf. unfold Wrap, Sprintf. cbn [is_formatter].
  rewrite Format_errorWithStatus_formatter by done. by destruct err.
Qed.

(** [%d] of [Wrap(c, err)] prints nothing when [err] is not a formatter,
    not the status code. *)
Lemma Sprintf_d_Wrap c err :
  err <> Nil -> is_formatter err = false -> Sprintf Quote Verb_d (Wrap c err) = Some "".
Proof. intros Hn Hf. unfold Wrap, Sprintf. simpl. by rewrite Hf. Qed.

(** [Wrap(c, nil)]: [%+v] prints the code and [<nil>], [%v] the panic of
    [Error()] that fmt recovered. *)
Lemma Sprintf_Wrap_nil c :
  Sprintf Quote Verb_plus_v (Wrap c Nil) = Some (pretty c ++ " <nil>") /\
  Sprintf Quote Verb_v (Wrap c Nil) = Some ("%!v(PANIC=Format method: " ++ nil_deref ++ ")").
Proof. split; reflexivity. Qed.
End FormatLemmas.

(** ** Witnesses *)

Lemma Sprintf_v_s_is_Error_witness :
  Sprintf (fun s => s) Verb_s (pkg_wrap (Wrap 404 (errorString "no such user")) "lookup" "stack") =
  Some "lookup: no such user".
Proof. apply Sprintf_v_s_is_Error; [right; reflexivity | reflexivity]. Defined.

End Fmt.
