(* ===== verification/TestHelper.v ===== *)
(** * The test request helper (test.go)

    [TestRequest(ctx, vars...)] builds a request with
    [http.NewRequest("DONTCARE", "dont://care", nil)] (panicking on its
    error), panics unless [vars] has an even length, binds each pair
    [vars[i], vars[i+1]] as goji's [pattern.Variable] in [ctx] with
    [context.WithValue], and returns the request with that context.

    A context is its list of [WithValue] layers, innermost first, or
    [None] for a nil [context.Context]; [context.WithValue] and
    [r.WithContext] panic on a nil one.  The request [http.NewRequest]
    builds has a nil [Body]: the server-side request type of [GoHttp]
    says so with [req_body = None].  The theorems show what the loop
    binds (against a reference lookup), the panics, and what
    [JSONHandler] does with such a request. *)

From S2P Require Import Prelude GoHttp Errors Render Report JSONHandler Transport JSONClient.
Local Open Scope string_scope.

Module TestHelper.
Import HttpErr Report JSONHandler Transport JSONClient.

Abbreviation context := (option (list (ctx_key * ctx_val))).

(** [context.WithValue(parent, key, val)]. *)
Definition WithValue (parent : context) (k : ctx_key) (v : ctx_val) : outcome context :=
  match parent with
  | None => Panics "cannot create context from nil parent"
  | Some layers => Returns (Some ((k, v) :: layers))
  end.

(** [r.WithContext(ctx)]. *)
Definition WithContext (r : request) (ctx : context) : outcome request :=
  match ctx with
  | None => Panics "nil context"
  | Some layers =>
      Returns {| req_method := req_method r; req_header := req_header r; req_body := req_body r;
                 req_ctx := layers |}
  end.

Section TestRequest.
Context `{URLParser}.

(** [http.NewRequest(method, url, nil)] as a server handler sees the
    request: no header, a nil [Body], the background context. *)
Definition NewRequest_nil_body (method url : string) : string + request :=
  if negb (validMethod (request_method method))
  then inl ("net/http: invalid method " ++ quote method)
  else match url_Parse url with
       | inl err => inl err
       | inr _ => inr {| req_method := request_method method; req_header := ∅; req_body := None;
                         req_ctx := [] |}
       end.

(** [for i := 0; i < len(vars); i += 2 { ctx = context.WithValue(ctx,
    pattern.Variable(vars[i]), vars[i+1]) }]. *)
Fixpoint bind_vars (ctx : context) (vars : list string) : outcome context :=
  match vars with
  | name :: value :: rest =>
      match WithValue ctx (CtxKeyVariable name) (CtxOther value) with
      | Returns ctx' => bind_vars ctx' rest
      | Panics p => Panics p
      end
  | _ => Returns ctx
  end.

Definition usage : string := "usage: TestRequest(ctx, [var, value]...".

(** [TestRequest(ctx, vars...)]. *)
Definition TestRequest (ctx : context) (vars : list string) : outcome request :=
  match NewRequest_nil_body "DONTCARE" "dont://care" with
  | inl err => Panics err
  | inr r =>
      if negb (Nat.even (length vars)) then Panics usage
      else match bind_vars ctx vars with
           | Returns ctx' => WithContext r ctx'
           | Panics p => Panics p
           end
  end.
End TestRequest.

(** ** Specification *)

(** The reference lookup: the value bound last to [name] in [vars]. *)
Fixpoint last_binding (name : string) (vars : list string) : option string :=
  match vars with
  | name' :: value :: rest =>
      match last_binding name rest with
      | Some v => Some v
      | None => if String.eqb name name' then Some value else None
      end
  | _ => None
  end.

(** ** Inputs of the witnesses *)

Definition route_vars : list string := ["id"; "7"; "name"; "x"; "id"; "42"].
(** ** Lemmas *)

(** What the loop binds: each variable to its last value, every other
    key as in the parent context. *)
Lemma bind_vars_spec vars : forall l,
  exists l', bind_vars (Some l) vars = Returns (Some l') /\
    (forall name, ctx_value (CtxKeyVariable name) l' =
       match last_binding name vars with
       | Some v => Some (CtxOther v)
       | None => ctx_value (CtxKeyVariable name) l
       end) /\
    (forall k, (forall name, k <> CtxKeyVariable name) -> ctx_value k l' = ctx_value k l).
Proof.
  remember (length vars) as len eqn:Hlen. revert vars Hlen.
  induction len as [len IH] using lt_wf_ind. intros [|name [|value rest]] Hlen l.
  - exists l. naive_solver.
  - exists l. naive_solver.
  - destruct (IH (length rest) ltac:(simpl in Hlen; lia) rest eq_refl
                 ((CtxKeyVariable name, CtxOther value) :: l)) as (l' & Hb & Hvar & Hother).
    exists l'. split; [exact Hb|]. split.
    + intros n. rewrite Hvar. cbn [last_binding]. destruct (last_binding n rest); [done|].
      rewrite ctx_value_cons. destruct (String.eqb_spec n name) as [->|Hne];
        [by rewrite decide_True | rewrite decide_False; congruence].
    + intros k Hk. rewrite Hother by done. rewrite ctx_value_cons. by rewrite decide_False.
Qed.

Lemma bind_vars_nil_parent vars :
  vars <> [] -> Nat.even (length vars) = true -> bind_vars None vars = Panics "cannot create context from nil parent".
Proof. by destruct vars as [|? [|? ?]]. Qed.

Section TestRequestLemmas.
Context `{URLParser}.

Lemma NewRequest_nil_body_ok u :
  url_Parse "dont://care" = inr u ->
  NewRequest_nil_body "DONTCARE" "dont://care" =
  inr {| req_method := "DONTCARE"; req_header := ∅; req_body := None; req_ctx := [] |}.
Proof. intros Hu. unfold NewRequest_nil_body. simpl. by rewrite Hu. Qed.

(** With a parent context and an even number of names and values,
    [TestRequest] returns a request with a nil body whose context binds
    what [bind_vars_spec] says. *)
Lemma TestRequest_returns l vars u :
  url_Parse "dont://care" = inr u -> Nat.even (length vars) = true ->
  exists l', TestRequest (Some l) vars =
             Returns {| req_method := "DONTCARE"; req_header := ∅; req_body := None; req_ctx := l' |} /\
    (forall name, ctx_value (CtxKeyVariable name) l' =
       match last_binding name vars with
       | Some v => Some (CtxOther v)
       | None => ctx_value (CtxKeyVariable name) l
       end) /\
    (forall k, (forall name, k <> CtxKeyVariable name) -> ctx_value k l' = ctx_value k l).
Proof.
  intros Hu Hev. destruct (bind_vars_spec vars l) as (l' & Hb & Hvar & Hother).
  exists l'. split; [|done]. unfold TestRequest. rewrite (NewRequest_nil_body_ok u Hu), Hev. simpl.
  by rewrite Hb.
Qed.

Lemma TestRequest_nil_body ctx vars r :
  TestRequest ctx vars = Returns r -> req_body r = None.
Proof.
  unfold TestRequest, NewRequest_nil_body. destruct (validMethod _); simpl; [|done].
  destruct (url_Parse _); [done|]. destruct (Nat.even _); simpl; [|done].
  destruct (bind_vars ctx vars) as [[l|]|]; simpl; [|done|done]. by intros [= <-].
Qed.
End TestRequestLemmas.

(** ** Properties *)

Section TestRequestProperties.
Context `{URLParser}.

(** C15: (equivalence) for a parent context and an even number of names
    and values, the context of [TestRequest]'s request answers every
    path variable as the reference [last_binding] does (the last value
    given for a name wins, names not given come from the parent), and
    every other key, [OnError]'s included, as the parent does. *)
Theorem TestRequest_binds_last_value l vars u :
  url_Parse "dont://care" = inr u -> Nat.even (length vars) = true ->
  exists r, TestRequest (Some l) vars = Returns r /\
    (forall name, ctx_value (CtxKeyVariable name) (req_ctx r) =
       match last_binding name vars with
       | Some v => Some (CtxOther v)
       | None => ctx_value (CtxKeyVariable name) l
       end) /\
    ctx_value CtxKeyOnError (req_ctx r) = ctx_value CtxKeyOnError l.
Proof.
  intros Hu Hev. destruct (TestRequest_returns l vars u Hu Hev) as (l' & Ht & Hvar & Hother).
  eexists. split; [exact Ht|]. split; [exact Hvar|]. by apply Hother.
Qed.

(** C21: [TestRequest] panics with its usage message exactly when it is
    given an odd number of names and values; [http.NewRequest] cannot
    fail on its constant arguments. *)
Theorem TestRequest_usage_panic ctx vars u :
  url_Parse "dont://care" = inr u ->
  TestRequest ctx vars = Panics usage <-> Nat.even (length vars) = false.
Proof.
  intros Hu. unfold TestRequest. rewrite (NewRequest_nil_body_ok u Hu).
  destruct (Nat.even _) eqn:Hev; simpl; [|done]. split; [|done]. intros Hp.
  destruct ctx as [l|].
  - destruct (bind_vars_spec vars l) as (l' & Hb & _). rewrite Hb in Hp. discriminate.
  - destruct vars as [|x vars]; [discriminate|].
    rewrite bind_vars_nil_parent in Hp by done. discriminate.
Qed.

(** C14: [TestRequest] is documented as suitable for [JSONHandler], but
    its request has a nil [Body]: the handler of any function that takes
    a request value panics reading it, whatever the function. *)
Theorem JSONHandler_TestRequest_panics `{JSONCodec} f h ctx vars r w :
  JSONHandler f = Returns h -> length (f_in f) = 2 -> TestRequest ctx vars = Returns r ->
  ServeHTTP h r w = Panics nil_deref.
Proof.
  intros Hh Hn Ht. rewrite (serve_closure _ _ _ _ Hh). unfold json_closure. rewrite Hn. simpl.
  unfold bind at 2, lift, read_body. by rewrite (TestRequest_nil_body ctx vars r Ht).
Qed.
End TestRequestProperties.

(** ** Witnesses *)

#[local] Existing Instance demo_url_Parse.
#[local] Existing Instance demo_codec_inst.

Lemma TestRequest_binds_last_value_witness :
  exists r, TestRequest (Some []) route_vars = Returns r /\
    (forall name, ctx_value (CtxKeyVariable name) (req_ctx r) =
       match last_binding name route_vars with
       | Some v => Some (CtxOther v)
       | None => ctx_value (CtxKeyVariable name) []
       end) /\
    ctx_value CtxKeyOnError (req_ctx r) = ctx_value CtxKeyOnError [].
Proof. apply (TestRequest_binds_last_value [] route_vars "dont://care"); reflexivity. Defined.

Lemma TestRequest_usage_panic_witness :
  TestRequest (Some []) ["id"] = Panics usage <-> Nat.even (length ["id"]) = false.
Proof. apply (TestRequest_usage_panic _ _ "dont://care"). reflexivity. Defined.

Lemma JSONHandler_TestRequest_panics_witness :
  exists r, TestRequest (Some []) route_vars = Returns r /\
    ServeHTTP (mkHandlerFunc (json_closure foo_bar)) r world_empty = Panics nil_deref.
Proof.
  eexists. split; [reflexivity|].
  apply (JSONHandler_TestRequest_panics foo_bar _ (Some []) route_vars); reflexivity.
Defined.

End TestHelper.
