(* ===== verification/JSONTyping.v ===== *)
(** * Typing of the values JSONHandler passes (json.go)

    Go's reflection lets [JSONHandler] call the business function with
    any [reflect.Value]; [fval.Call] panics when an argument does not
    have the parameter's type.  This file gives values their Go types
    ([has_type], by the constructors of [value]), states what a JSON
    codec promises ([JSONCodecLaws]: a decoded value has the type it was
    decoded into), and proves against that interface that the closure
    only ever calls the function with arguments of its parameter types.
    The demonstration codec of [JSONHandler] is an instance. *)

From S2P Require Import Prelude GoHttp Errors Render Report JSONHandler.
Local Open Scope string_scope.

Module JSONTyping.
Import HttpErr JSONHandler.

(** [v] is a value of the Go type [t]: structs by their type name,
    pointers nil or to a value of the element type, errors of the
    [error] interface, and scalars of the other kinds. *)
Inductive has_type : value -> gotype -> Prop :=
| ht_nil t : has_type VNil (TPtr t)
| ht_ptr v t : has_type v t -> has_type (VPtr v) (TPtr t)
| ht_struct n fields : has_type (VStruct n fields) (TStruct n)
| ht_err e : has_type (VErr e) (TInterface "error")
| ht_scalar repr t : kind t <> KStruct -> kind t <> KPtr -> has_type (VScalar repr) t.

(** The law of a codec: what it decodes into [t] has type [t]. *)
Class JSONCodecLaws `{JSONCodec} :=
  json_decode_typed : forall t body v, json_decode t body = DecValue v -> has_type v t.

(** ** Lemmas *)

Lemma zero_value_typed t : has_type (zero_value t) t.
Proof. destruct t; constructor; discriminate. Qed.

#[export] Hint Resolve zero_value_typed : httpx.
#[export] Hint Constructors has_type : httpx.

Section Typing.
Context `{JSONCodecLaws}.

(** C20: (type) the closure [JSONHandler] builds either calls the
    business function with arguments of its parameter types (after the
    request: nothing when it takes the request only, the decoded body
    when it takes two), and then finishes with what the call returned,
    or never calls the function at all (a nil body, a body that does not
    decode, or a signature it does not call): [fval.Call] never meets an
    ill-typed argument. *)
Theorem json_closure_calls_typed f r w :
  (exists args, Forall2 has_type args (drop 1 (f_in f)) /\
     json_closure f r w = (do out <- lift (f_call f r args); finish f out) w) \/
  (forall c, json_closure (mkFunc (f_in f) (f_out f) c) r w = json_closure f r w).
Proof.
  destruct f as [ins outs call]; unfold json_closure; cbn [f_in f_out f_call].
  destruct ins as [|t0 [|t1 [|t2 ins]]]; cbn [length Nat.eqb]; [right; done|left|..|right; done].
  - exists []. split; [constructor | done].
  - unfold bind at 1 3, lift, read_body. destruct (req_body r) as [body|]; cbn; [|by right].
    destruct (decode_arg t1 body) as [msg|arg] eqn:Hd; [by right|left].
    exists [arg]. split; [|done]. constructor; [|constructor]. revert Hd. unfold decode_arg.
    destruct t1; destruct (json_decode _ body) as [| |v] eqn:Hj; intros [=]; subst;
      eauto using json_decode_typed with httpx.
Qed.
End Typing.

(** ** The demonstration codec satisfies the law *)

#[local] Existing Instance demo_codec_inst.

#[export] Instance demo_codec_laws : JSONCodecLaws.
Proof.
  intros t body v. cbn. unfold demo_decode.
  repeat case_match; intros [=]; subst; apply zero_value_typed.
Qed.


(** The closure for [func(r *http.Request, in Foo) ( *Bar, error)] on
    the body ["{}"], with the law discharged by the demonstration codec. *)
Lemma json_closure_calls_typed_witness :
  (exists args, Forall2 has_type args (drop 1 (f_in foo_bar)) /\
     json_closure foo_bar (test_request "{}") Report.world_empty =
     (do out <- lift (f_call foo_bar (test_request "{}") args); finish foo_bar out) Report.world_empty) \/
  (forall c, json_closure (mkFunc (f_in foo_bar) (f_out foo_bar) c) (test_request "{}") Report.world_empty =
             json_closure foo_bar (test_request "{}") Report.world_empty).
Proof. exact (json_closure_calls_typed foo_bar (test_request "{}") Report.world_empty). Defined.

End JSONTyping.
