(* ===== verification/Base64.v ===== *)
(** * Base64 of the basic credentials (basic_auth_transport.go)

    [BasicAuthTransport] sends [Authorization: Basic] followed by
    [base64.StdEncoding] of [username + ":" + password]; [b64_encode] of
    [Transport] is Go's encoder, which packs each 3-byte group into a
    24-bit word with shifts and ors and cuts it into 6-bit digits with
    shifts and masks.  This file states the encoding arithmetically
    ([b64_ref]: each group as a number written with four base-64
    digits), proves the two equal, and derives that the encoding is
    injective, so that two [basicAuth] headers are equal exactly when
    the [username:password] strings are; the colon between them makes
    pairs whose username has a colon collide with others. *)

From S2P Require Import Prelude GoHttp Errors Headers JSONHandler Transport.
Local Open Scope string_scope.

Module Base64.
Import Headers Transport.

(** The four base-64 digits of a 24-bit group, most significant first. *)
Definition group_digits (n : Z) : list Z :=
  [(n / 262144)%Z; ((n / 4096) mod 64)%Z; ((n / 64) mod 64)%Z; (n mod 64)%Z].

(** The reference encoding: full groups, then a group of 2 or 1 bytes
    padded with zero bits, its 3 or 2 digits, and [=] padding. *)
Fixpoint b64_ref (src : bytes) : bytes :=
  match src with
  | a :: b :: c :: rest =>
      map encode_char (group_digits (byte_val a * 65536 + byte_val b * 256 + byte_val c)%Z) ++
      b64_ref rest
  | [a; b] =>
      take 3 (map encode_char (group_digits (byte_val a * 65536 + byte_val b * 256)%Z)) ++ [StdPadding]
  | [a] =>
      take 2 (map encode_char (group_digits (byte_val a * 65536)%Z)) ++ [StdPadding; StdPadding]
  | [] => []
  end.

(** ** Lemmas on bits *)

Section Bits.
Local Open Scope Z_scope.

Lemma byte_val_range c : 0 <= byte_val c < 256.
Proof.
  unfold byte_val. pose proof (Ascii.nat_ascii_bounded c). lia.
Qed.

(** An or of a shifted word with a word below the shift is a sum. *)
Lemma lor_shiftl_small x y k :
  0 <= k -> 0 <= y < 2 ^ k -> Z.lor (Z.shiftl x k) y = x * 2 ^ k + y.
Proof.
  intros Hk Hy. rewrite Z.shiftl_mul_pow2 by done.
  assert (Hl : Z.land (x * 2 ^ k) y = 0).
  { apply Z.bits_inj'. intros i Hi. rewrite Z.land_spec, Z.bits_0.
    destruct (Z.lt_ge_cases i k) as [Hlt|Hge].
    - by rewrite Z.mul_pow2_bits_low.
    - assert (Hb : Z.testbit y i = false).
      { apply Z.testbit_false; [lia|]. rewrite Z.div_small; [done|]. split; [lia|].
        eapply Z.lt_le_trans; [apply Hy|]. apply Z.pow_le_mono_r; lia. }
      by rewrite Hb, andb_false_r. }
  by rewrite <- Z.lxor_lor, <- Z.add_nocarry_lxor.
Qed.

(** A 6-bit digit cut with a shift and a mask. *)
Lemma land_shiftr_63 n k : 0 <= k -> Z.land (Z.shiftr n k) 63 = (n / 2 ^ k) mod 64.
Proof.
  intros Hk. rewrite Z.shiftr_div_pow2 by done.
  change 63 with (Z.ones 6). by rewrite Z.land_ones.
Qed.

Lemma land_63 n : Z.land n 63 = n mod 64.
Proof. change 63 with (Z.ones 6). by rewrite Z.land_ones. Qed.

Lemma group_word2 a b :
  Z.lor (Z.shiftl (byte_val a) 16) (Z.shiftl (byte_val b) 8) = byte_val a * 65536 + byte_val b * 256.
Proof.
  pose proof (byte_val_range b).
  rewrite lor_shiftl_small; [| lia | rewrite Z.shiftl_mul_pow2 by lia; simpl; lia].
  rewrite Z.shiftl_mul_pow2 by lia. simpl. lia.
Qed.

Lemma group_word3 a b c :
  Z.lor (Z.lor (Z.shiftl (byte_val a) 16) (Z.shiftl (byte_val b) 8)) (byte_val c) =
  byte_val a * 65536 + byte_val b * 256 + byte_val c.
Proof.
  pose proof (byte_val_range c). rewrite group_word2.
  assert (Hp8 : 2 ^ 8 = 256) by reflexivity.
  assert (E : byte_val a * 65536 + byte_val b * 256 = Z.shiftl (byte_val a * 256 + byte_val b) 8)
    by (rewrite Z.shiftl_mul_pow2, Hp8 by lia; lia).
  rewrite E at 1. rewrite lor_shiftl_small by lia. rewrite Hp8. lia.
Qed.

Lemma group_word1 a : Z.shiftl (byte_val a) 16 = byte_val a * 65536.
Proof. rewrite Z.shiftl_mul_pow2 by lia. reflexivity. Qed.
(** The four masks of a 24-bit word are its base-64 digits. *)
Lemma sextets n :
  0 <= n < 16777216 ->
  [Z.land (Z.shiftr n 18) 63; Z.land (Z.shiftr n 12) 63; Z.land (Z.shiftr n 6) 63; Z.land n 63] =
  group_digits n.
Proof.
  intros Hn. rewrite !land_shiftr_63, land_63 by lia. unfold group_digits.
  f_equal. rewrite Z.mod_small; [reflexivity|].
  change (2 ^ 18) with 262144. split; [apply Z.div_pos; lia | apply Z.div_lt_upper_bound; lia].
Qed.
End Bits.

(** ** Injectivity *)

Lemma string_get_lookup n s : String.get n s = String.list_ascii_of_string s !! n.
Proof. revert n. induction s as [|c s IH]; intros [|n]; simpl; auto. Qed.

Lemma encodeStd_NoDup : NoDup (String.list_ascii_of_string encodeStd).
Proof. apply (bool_decide_unpack _). vm_compute. reflexivity. Qed.

Lemma encodeStd_length : length (String.list_ascii_of_string encodeStd) = 64%nat.
Proof. reflexivity. Qed.

Lemma encode_char_lookup i :
  (0 <= i < 64)%Z -> String.list_ascii_of_string encodeStd !! Z.to_nat i = Some (encode_char i).
Proof.
  intros Hi. unfold encode_char. rewrite string_get_lookup.
  destruct (lookup_lt_is_Some_2 (String.list_ascii_of_string encodeStd) (Z.to_nat i)) as [c Hc];
    [rewrite encodeStd_length; lia|]. by rewrite Hc.
Qed.

Lemma encode_char_inj i j :
  (0 <= i < 64)%Z -> (0 <= j < 64)%Z -> encode_char i = encode_char j -> i = j.
Proof.
  intros Hi Hj E. pose proof (encode_char_lookup i Hi) as Li. pose proof (encode_char_lookup j Hj) as Lj.
  rewrite E in Li. pose proof (NoDup_lookup _ _ _ _ encodeStd_NoDup Li Lj). lia.
Qed.

Lemma encode_char_not_pad i : encode_char i <> StdPadding.
Proof.
  unfold encode_char. rewrite string_get_lookup.
  destruct (_ !! _) as [c|] eqn:Hc; cbn [default]; [|discriminate].
  apply list_elem_of_lookup_2 in Hc. unfold id. intros Heq. subst c. revert Hc.
  apply (bool_decide_unpack (~ _)). vm_compute. reflexivity.
Qed.

Lemma byte_val_inj a b : byte_val a = byte_val b -> a = b.
Proof.
  unfold byte_val. intros H. apply Nat2Z.inj in H.
  by rewrite <- (Ascii.ascii_nat_embedding a), <- (Ascii.ascii_nat_embedding b), H.
Qed.

Section Digits.
Local Open Scope Z_scope.

Lemma group_digits_range n :
  0 <= n < 16777216 -> Forall (fun d => 0 <= d < 64) (group_digits n).
Proof.
  intros Hn. unfold group_digits. repeat constructor; try (apply Z.mod_pos_bound; lia).
  - apply Z.div_pos; lia.
  - apply Z.div_lt_upper_bound; lia.
Qed.

(** Equal characters for digits of equal range are equal digits. *)
Lemma map_encode_char_inj ds ds' :
  Forall (fun d => 0 <= d < 64) ds -> Forall (fun d => 0 <= d < 64) ds' ->
  map encode_char ds = map encode_char ds' -> ds = ds'.
Proof.
  intros Hd. revert ds'. induction Hd as [|d ds Hd _ IH]; intros [|d' ds'] Hd' E; try discriminate; [done|].
  inversion Hd'; subst. injection E as E1 E2. f_equal; [by apply encode_char_inj | by apply IH].
Qed.

Lemma group_digits_inj n m :
  0 <= n < 16777216 -> 0 <= m < 16777216 -> group_digits n = group_digits m -> n = m.
Proof. unfold group_digits. intros Hn Hm [= E0 E1 E2 E3]. Z.div_mod_to_equations. lia. Qed.

Lemma word_bytes_inj a b c a' b' c' :
  0 <= a < 256 -> 0 <= b < 256 -> 0 <= c < 256 -> 0 <= a' < 256 -> 0 <= b' < 256 -> 0 <= c' < 256 ->
  a * 65536 + b * 256 + c = a' * 65536 + b' * 256 + c' -> a = a' /\ b = b' /\ c = c'.
Proof. lia. Qed.
End Digits.

Section Groups.
Local Open Scope Z_scope.

Ltac digit_eqs :=
  repeat match goal with
  | E : encode_char ?i = encode_char ?j |- _ =>
      apply encode_char_inj in E;
      [| split; [apply Z.div_pos || apply Z.mod_pos_bound | apply Z.div_lt_upper_bound || apply Z.mod_pos_bound]; lia
       | split; [apply Z.div_pos || apply Z.mod_pos_bound | apply Z.div_lt_upper_bound || apply Z.mod_pos_bound]; lia]
  end.

Lemma full_group_inj a b c a' b' c' :
  map encode_char (group_digits (byte_val a * 65536 + byte_val b * 256 + byte_val c)) =
  map encode_char (group_digits (byte_val a' * 65536 + byte_val b' * 256 + byte_val c')) ->
  a = a' /\ b = b' /\ c = c'.
Proof.
  pose proof (byte_val_range a). pose proof (byte_val_range b). pose proof (byte_val_range c).
  pose proof (byte_val_range a'). pose proof (byte_val_range b'). pose proof (byte_val_range c').
  intros E. apply map_encode_char_inj in E; try (apply group_digits_range; lia).
  apply group_digits_inj in E; [|lia|lia].
  destruct (word_bytes_inj _ _ _ _ _ _ H H0 H1 H2 H3 H4 E) as (? & ? & ?).
  split_and!; by apply byte_val_inj.
Qed.

Lemma pair_group_inj a b a' b' :
  take 3 (map encode_char (group_digits (byte_val a * 65536 + byte_val b * 256))) =
  take 3 (map encode_char (group_digits (byte_val a' * 65536 + byte_val b' * 256))) ->
  a = a' /\ b = b'.
Proof.
  pose proof (byte_val_range a). pose proof (byte_val_range b).
  pose proof (byte_val_range a'). pose proof (byte_val_range b').
  cbn [group_digits map take]. intros [= E0 E1 E2]. digit_eqs.
  assert (byte_val a = byte_val a' /\ byte_val b = byte_val b') as [Ea Eb]
    by (Z.div_mod_to_equations; lia).
  split; by apply byte_val_inj.
Qed.

Lemma single_group_inj a a' :
  take 2 (map encode_char (group_digits (byte_val a * 65536))) =
  take 2 (map encode_char (group_digits (byte_val a' * 65536))) -> a = a'.
Proof.
  pose proof (byte_val_range a). pose proof (byte_val_range a').
  cbn [group_digits map take]. intros [= E0 E1]. digit_eqs.
  apply byte_val_inj. Z.div_mod_to_equations. lia.
Qed.
End Groups.

Ltac pad_contra :=
  match goal with
  | H : encode_char _ = StdPadding |- _ => by apply encode_char_not_pad in H
  | H : StdPadding = encode_char _ |- _ => symmetry in H; by apply encode_char_not_pad in H
  end.

Lemma b64_ref_inj x y : b64_ref x = b64_ref y -> x = y.
Proof.
  remember (length x) as k eqn:Hk. revert x y Hk.
  induction k as [k IH] using lt_wf_ind.
  intros [|a [|b [|c rest]]] [|a' [|b' [|c' rest']]] -> E; try done;
    try (cbn [b64_ref group_digits map app take] in E; injection E; intros; subst; pad_contra);
    try (cbn [b64_ref group_digits map app take] in E; discriminate).
  - cbn [b64_ref] in E. apply app_inj_2 in E as [E _]; [|done].
    by rewrite (single_group_inj a a' E).
  - cbn [b64_ref] in E. apply app_inj_2 in E as [E _]; [|done].
    by destruct (pair_group_inj a b a' b' E) as [-> ->].
  - cbn [b64_ref] in E. apply app_inj_1 in E as [E Er]; [|done].
    destruct (full_group_inj a b c a' b' c' E) as (-> & -> & ->).
    f_equal. f_equal. f_equal. eapply IH; [|reflexivity|exact Er]. simpl. lia.
Qed.

(** Induction along the 3-byte groups the encoder reads. *)
Lemma groups_ind (P : bytes -> Prop) :
  P [] -> (forall a, P [a]) -> (forall a b, P [a; b]) ->
  (forall a b c rest, P rest -> P (a :: b :: c :: rest)) -> forall s, P s.
Proof.
  intros H0 H1 H2 H3 s. remember (length s) as k eqn:Hk. revert s Hk.
  induction k as [k IH] using lt_wf_ind. intros [|a [|b [|c rest]]] ->; auto.
  apply H3. eapply IH; [|reflexivity]. simpl. lia.
Qed.

Lemma b64_encode_ref_eq src : b64_encode src = b64_ref src.
Proof.
  induction src as [|a|a b|a b c rest IH] using groups_ind.
  - reflexivity.
  - cbn [b64_encode b64_ref]. rewrite group_word1.
    pose proof (byte_val_range a).
    rewrite <- (sextets (byte_val a * 65536)) by lia. reflexivity.
  - cbn [b64_encode b64_ref]. rewrite group_word2.
    pose proof (byte_val_range a). pose proof (byte_val_range b).
    rewrite <- (sextets (byte_val a * 65536 + byte_val b * 256)) by lia. reflexivity.
  - cbn [b64_encode b64_ref]. rewrite group_word3.
    pose proof (byte_val_range a). pose proof (byte_val_range b). pose proof (byte_val_range c).
    rewrite <- (sextets (byte_val a * 65536 + byte_val b * 256 + byte_val c)) by lia.
    cbn [map app]. by rewrite IH.
Qed.

Lemma basicAuth_bytes u p :
  String.list_ascii_of_string (basicAuth u p) = b64_ref (String.list_ascii_of_string (u ++ ":" ++ p)).
Proof.
  unfold basicAuth, EncodeToString. by rewrite String.list_ascii_of_string_of_list_ascii, b64_encode_ref_eq.
Qed.

(** ** Properties *)


(** The credentials header loses nothing of the text it
    encodes: two [basicAuth] values are equal exactly when the strings
    [username + ":" + password] are equal, so the server can decode the
    credentials back, up to where the colon falls. *)
Theorem basicAuth_injective u p u' p' :
  basicAuth u p = basicAuth u' p' <-> u ++ ":" ++ p = u' ++ ":" ++ p'.
Proof.
  split; [|intros E; unfold basicAuth; by rewrite E].
  intros E. apply (f_equal String.list_ascii_of_string) in E. rewrite !basicAuth_bytes in E.
  apply b64_ref_inj in E.
  by rewrite <- (String.string_of_list_ascii_of_string (u ++ ":" ++ p)), E,
              String.string_of_list_ascii_of_string.
Qed.

(** A username with a colon: [("a:b", "c")] and [("a", "b:c")] send the
    same header. *)
Lemma basicAuth_colon_collision : basicAuth "a:b" "c" = basicAuth "a" "b:c".
Proof. reflexivity. Qed.

End Base64.
