(* ===== verification/BasicAuth.v ===== *)
(** * The server reads the basic credentials back (basic_auth_transport.go)

    [BasicAuthTransport] sets [Authorization: Basic <base64>]; a Go
    server reads it with [r.BasicAuth()], which cuts the case-insensitive
    prefix ["Basic "], decodes the rest with [base64.StdEncoding]
    ([DecodeString]) and splits the text at its first colon
    ([strings.Cut]).  These are library functions the repository's own
    test ([TestBasicAuthTransport]) relies on; they are written here as
    net/http and encoding/base64 do it: the decoder skips ['\r'] and
    ['\n'], reads quanta of four characters through [decodeMap], accepts
    [=] padding only in the last quantum, and assembles each quantum with
    shifts and ors.  The theorems show that decoding undoes the encoder
    of [Transport], and that the credentials the decorator sends come
    back exactly when the username has no colon. *)

From S2P Require Import Prelude GoHttp Errors Headers JSONHandler Transport Base64.
Local Open Scope string_scope.

Module BasicAuth.
Import Headers Transport Base64.

(** ** encoding/base64 *)

(** [enc.decodeMap[c]]: the digit of a character of the alphabet, and
    [None] for the [0xFF] entries. *)
Definition decode_char (c : Ascii.ascii) : option Z :=
  (fun p => Z.of_nat p.1) <$> list_find (fun d => d = c) (String.list_ascii_of_string encodeStd).

Definition is_newline (c : Ascii.ascii) : bool :=
  bool_decide (c = "010"%char) || bool_decide (c = "013"%char).

(** [val := uint(dbuf[0])<<18 | uint(dbuf[1])<<12 | uint(dbuf[2])<<6 | uint(dbuf[3])]. *)
Definition quantum (d0 d1 d2 d3 : Z) : Z :=
  Z.lor (Z.lor (Z.lor (Z.shiftl d0 18) (Z.shiftl d1 12)) (Z.shiftl d2 6)) d3.

(** [byte(val >> k)]. *)
Definition byte_at (val k : Z) : Ascii.ascii :=
  Ascii.ascii_of_nat (Z.to_nat (Z.land (Z.shiftr val k) 255)).

(** [decodeQuantum] in a loop, on input without newlines: a quantum of
    four digits gives three bytes; [xy==] and [xyz=] end the input with
    one or two bytes; anything else is a [CorruptInputError]. *)
Fixpoint decode_quanta (src : bytes) : option bytes :=
  match src with
  | [] => Some []
  | c0 :: c1 :: c2 :: c3 :: rest =>
      d0 ← decode_char c0; d1 ← decode_char c1;
      if decide (c2 = StdPadding) then
        if bool_decide (c3 = StdPadding) && bool_decide (rest = []) then
          Some [byte_at (quantum d0 d1 0 0) 16]
        else None
      else
        d2 ← decode_char c2;
        if decide (c3 = StdPadding) then
          if bool_decide (rest = []) then
            Some [byte_at (quantum d0 d1 d2 0) 16; byte_at (quantum d0 d1 d2 0) 8]
          else None
        else
          d3 ← decode_char c3;
          let val := quantum d0 d1 d2 d3 in
          (fun tl => byte_at val 16 :: byte_at val 8 :: byte_at val 0 :: tl) <$> decode_quanta rest
  | _ => None
  end.

(** [base64.StdEncoding.DecodeString]: the bytes, or [None] for an
    error. *)
Definition DecodeString (s : string) : option bytes :=
  decode_quanta (filter (fun c => negb (is_newline c)) (String.list_ascii_of_string s)).

(** ** net/http and strings *)

(** [ascii.EqualFold]. *)
Definition EqualFold (s t : bytes) : bool :=
  bool_decide (length s = length t) && bool_decide (map ascii_lower s = map ascii_lower t).

(** [strings.Cut(s, sep)]. *)
Definition Cut (s sep : bytes) : bytes * bytes * bool :=
  let i := Index s sep in
  if (0 <=? i)%Z then (take (Z.to_nat i) s, drop (Z.to_nat i + length sep) s, true)
  else (s, [], false).

Definition basic_prefix : bytes := String.list_ascii_of_string "Basic ".

(** [parseBasicAuth(auth)]. *)
Definition parseBasicAuth (auth : string) : string * string * bool :=
  let a := String.list_ascii_of_string auth in
  if (length a <? length basic_prefix)%nat || negb (EqualFold (take (length basic_prefix) a) basic_prefix)
  then ("", "", false)
  else match DecodeString (String.string_of_list_ascii (drop (length basic_prefix) a)) with
       | None => ("", "", false)
       | Some c =>
           match Cut c (String.list_ascii_of_string ":") with
           | (username, password, true) =>
               (String.string_of_list_ascii username, String.string_of_list_ascii password, true)
           | (_, _, false) => ("", "", false)
           end
       end.

(** [r.BasicAuth()]. *)
Definition Request_BasicAuth (r : request) : string * string * bool :=
  let auth := header_get "Authorization" (req_header r) in
  if String.eqb auth "" then ("", "", false) else parseBasicAuth auth.

(** ** Lemmas *)

Lemma encode_char_elem i : encode_char i ∈ String.list_ascii_of_string encodeStd.
Proof.
  unfold encode_char. rewrite string_get_lookup.
  destruct (_ !! _) as [c|] eqn:Hc; cbn [default].
  - by eapply list_elem_of_lookup_2.
  - by left.
Qed.

Lemma encode_char_not_newline i : is_newline (encode_char i) = false.
Proof.
  assert (Hall : Forall (fun c => is_newline c = false) (String.list_ascii_of_string encodeStd))
    by (apply (bool_decide_unpack _); vm_compute; reflexivity).
  rewrite Forall_forall in Hall. apply Hall, encode_char_elem.
Qed.

(** [decodeMap] inverts the alphabet. *)
Lemma decode_encode_char i : (0 <= i < 64)%Z -> decode_char (encode_char i) = Some i.
Proof.
  intros Hi. unfold decode_char.
  assert (Hf : list_find (fun d => d = encode_char i) (String.list_ascii_of_string encodeStd) =
               Some (Z.to_nat i, encode_char i)).
  { apply list_find_Some. split_and!; [by apply encode_char_lookup | done |].
    intros j y Hj Hlt ->. pose proof (NoDup_lookup _ _ _ _ encodeStd_NoDup Hj (encode_char_lookup i Hi)). lia. }
  rewrite Hf. simpl. f_equal. lia.
Qed.

Section Quanta.
Local Open Scope Z_scope.

Lemma quantum_sum d0 d1 d2 d3 :
  0 <= d1 < 64 -> 0 <= d2 < 64 -> 0 <= d3 < 64 ->
  quantum d0 d1 d2 d3 = d0 * 262144 + d1 * 4096 + d2 * 64 + d3.
Proof.
  intros H1 H2 H3. unfold quantum.
  assert (E : Z.lor (Z.lor (Z.shiftl d0 18) (Z.shiftl d1 12)) (Z.shiftl d2 6) =
              Z.shiftl (Z.lor (Z.shiftl (Z.lor (Z.shiftl d0 6) d1) 6) d2) 6).
  { rewrite !Z.shiftl_lor, !Z.shiftl_shiftl by lia. reflexivity. }
  rewrite E, !lor_shiftl_small by (lia || (rewrite ?Z.shiftl_mul_pow2; simpl; lia)).
  change (2 ^ 6) with 64. lia.
Qed.

(** [byte(val >> k)] is the byte [a] when those bits of [val] hold it. *)
Lemma byte_at_val n k a :
  0 <= k -> (n / 2 ^ k) mod 256 = byte_val a -> byte_at n k = a.
Proof.
  intros Hk E. unfold byte_at. rewrite Z.shiftr_div_pow2 by done.
  change 255 with (Z.ones 8). rewrite Z.land_ones by lia. change (2 ^ 8) with 256.
  rewrite E. unfold byte_val. rewrite Nat2Z.id. apply Ascii.ascii_nat_embedding.
Qed.
End Quanta.

Ltac digit_range := split; Z.div_mod_to_equations; lia.

Section Groups.
Local Open Scope Z_scope.

(** The four digits of a 24-bit word put back together. *)
Lemma digits_sum n :
  0 <= n < 16777216 ->
  n / 262144 * 262144 + (n / 4096) mod 64 * 4096 + (n / 64) mod 64 * 64 + n mod 64 = n.
Proof. intros Hn. Z.div_mod_to_equations. lia. Qed.

Ltac word_bits := change (2 ^ 16) with 65536; change (2 ^ 8) with 256; change (2 ^ 0) with 1;
                  Z.div_mod_to_equations; lia.

(** The bytes of a word of three bytes, read back with shifts and masks. *)
Lemma word_bytes a b c n :
  n = byte_val a * 65536 + byte_val b * 256 + byte_val c ->
  byte_at n 16 = a /\ byte_at n 8 = b /\ byte_at n 0 = c.
Proof.
  pose proof (byte_val_range a). pose proof (byte_val_range b). pose proof (byte_val_range c).
  intros ->. split_and!; apply byte_at_val; try lia; word_bits.
Qed.

Lemma decode_full a b c rest :
  decode_quanta (map encode_char (group_digits (byte_val a * 65536 + byte_val b * 256 + byte_val c)) ++ rest) =
  (fun tl => a :: b :: c :: tl) <$> decode_quanta rest.
Proof.
  pose proof (byte_val_range a). pose proof (byte_val_range b). pose proof (byte_val_range c).
  cbn [group_digits map app decode_quanta].
  rewrite !decode_encode_char by digit_range. cbn [mbind option_bind].
  rewrite !decide_False by apply encode_char_not_pad.
  rewrite quantum_sum by digit_range. rewrite digits_sum by lia.
  by destruct (word_bytes a b c _ eq_refl) as (-> & -> & ->).
Qed.

Lemma decode_pair a b :
  decode_quanta (take 3 (map encode_char (group_digits (byte_val a * 65536 + byte_val b * 256))) ++ [StdPadding]) =
  Some [a; b].
Proof.
  pose proof (byte_val_range a). pose proof (byte_val_range b).
  cbn [group_digits map app take decode_quanta].
  rewrite !decode_encode_char by digit_range. cbn [mbind option_bind].
  rewrite !decide_False by apply encode_char_not_pad. rewrite decide_True by done.
  rewrite quantum_sum by (digit_range || lia).
  destruct (word_bytes a b "000"%char (byte_val a * 65536 + byte_val b * 256)) as (Ea & Eb & _);
    [change (byte_val "000"%char) with 0; lia|].
  replace (_ / 262144 * 262144 + _ + _ + 0) with (byte_val a * 65536 + byte_val b * 256)
    by (Z.div_mod_to_equations; lia).
  by rewrite Ea, Eb.
Qed.

Lemma decode_single a :
  decode_quanta (take 2 (map encode_char (group_digits (byte_val a * 65536))) ++ [StdPadding; StdPadding]) =
  Some [a].
Proof.
  pose proof (byte_val_range a).
  cbn [group_digits map app take decode_quanta].
  rewrite !decode_encode_char by digit_range. cbn [mbind option_bind].
  rewrite decide_True by done.
  rewrite quantum_sum by (digit_range || lia).
  destruct (word_bytes a "000"%char "000"%char (byte_val a * 65536)) as (Ea & _ & _);
    [change (byte_val "000"%char) with 0; lia|].
  replace (_ / 262144 * 262144 + _ + _ + 0) with (byte_val a * 65536)
    by (Z.div_mod_to_equations; lia).
  by rewrite Ea.
Qed.
End Groups.

Lemma decode_quanta_ref src : decode_quanta (b64_ref src) = Some src.
Proof.
  induction src as [|a|a b|a b c rest IH] using groups_ind; cbn [b64_ref].
  - reflexivity.
  - apply decode_single.
  - apply decode_pair.
  - by rewrite decode_full, IH.
Qed.

Lemma b64_ref_no_newline src : Forall (fun c => is_newline c = false) (b64_ref src).
Proof.
  assert (Hmap : forall ds, Forall (fun c => is_newline c = false) (map encode_char ds)).
  { intros ds. apply Forall_forall. intros c (i & -> & _)%list_elem_of_fmap. apply encode_char_not_newline. }
  induction src as [|a|a b|a b c rest IH] using groups_ind; cbn [b64_ref];
    repeat apply Forall_app_2; try apply Forall_take; auto; repeat constructor.
Qed.

(** Skipping newlines changes nothing in the encoder's output. *)
Lemma filter_no_newline (s : bytes) :
  Forall (fun c => is_newline c = false) s -> filter (fun c => negb (is_newline c)) s = s.
Proof.
  induction 1 as [|c s Hc _ IH]; [done|]. rewrite filter_cons, Hc. simpl. by rewrite IH.
Qed.

Lemma DecodeString_EncodeToString_eq src : DecodeString (EncodeToString src) = Some src.
Proof.
  unfold DecodeString, EncodeToString. rewrite String.list_ascii_of_string_of_list_ascii, b64_encode_ref_eq.
  by rewrite filter_no_newline, decode_quanta_ref by apply b64_ref_no_newline.
Qed.

(** ** [strings.Cut] at a colon *)

Lemma index_nat_first c u p : c ∉ u -> index_nat (u ++ c :: p) [c] = Some (length u).
Proof.
  induction u as [|d u IH]; intros Hc; simpl.
  - by rewrite bool_decide_true.
  - rewrite bool_decide_false by (intros ->; apply Hc; left). simpl.
    rewrite IH; [done|]. intros Hu. apply Hc. by right.
Qed.

Lemma Cut_first c u p : c ∉ u -> Cut (u ++ c :: p) [c] = (u, p, true).
Proof.
  intros Hc. unfold Cut, Index. rewrite index_nat_first by done.
  rewrite Nat2Z.id. destruct (Z.leb_spec 0 (Z.of_nat (length u))); [|lia].
  by rewrite take_app_length, drop_app_add.
Qed.

(** The header [SetBasicAuth] writes is read back as the text
    [username:password] cut at its first colon. *)
Lemma parseBasicAuth_basicAuth u p :
  parseBasicAuth ("Basic " ++ basicAuth u p) =
  match Cut (String.list_ascii_of_string (u ++ ":" ++ p)) [":"%char] with
  | (username, password, true) => (String.string_of_list_ascii username, String.string_of_list_ascii password, true)
  | (_, _, false) => ("", "", false)
  end.
Proof.
  unfold parseBasicAuth. rewrite list_ascii_of_string_app. fold basic_prefix.
  rewrite take_app_length, drop_app_length, String.string_of_list_ascii_of_string.
  rewrite length_app. destruct (Nat.ltb_spec (length basic_prefix + length (String.list_ascii_of_string (basicAuth u p)))
                                              (length basic_prefix)); [lia|].
  unfold basicAuth. rewrite DecodeString_EncodeToString_eq. reflexivity.
Qed.

Lemma Request_BasicAuth_SetBasicAuth u p req :
  Request_BasicAuth (incoming (SetBasicAuth u p req)) = parseBasicAuth ("Basic " ++ basicAuth u p).
Proof.
  unfold Request_BasicAuth, incoming, SetBasicAuth, set_oq_header. cbn [req_header oq_header].
  by rewrite header_get_set.
Qed.

Lemma credentials_bytes u p :
  String.list_ascii_of_string (u ++ ":" ++ p) =
  (String.list_ascii_of_string u ++ ":"%char :: String.list_ascii_of_string p)%list.
Proof. by rewrite !list_ascii_of_string_app. Qed.

(** [r.BasicAuth()] of a request [SetBasicAuth] prepared gives back the
    username and password exactly when the username has no colon. *)
Lemma SetBasicAuth_credentials u p req :
  Request_BasicAuth (incoming (SetBasicAuth u p req)) = (u, p, true) <->
  ":"%char ∉ String.list_ascii_of_string u.
Proof.
  rewrite Request_BasicAuth_SetBasicAuth, parseBasicAuth_basicAuth, credentials_bytes. split.
  - intros E Hin. apply list_elem_of_split_l in Hin as (u1 & u2 & Hu & Hn).
    rewrite Hu, <- app_assoc, <- app_comm_cons, Cut_first in E by done. injection E as E _.
    apply (f_equal String.list_ascii_of_string) in E.
    rewrite String.list_ascii_of_string_of_list_ascii, Hu in E.
    apply (f_equal length) in E. rewrite length_app in E. simpl in E. lia.
  - intros Hn. by rewrite Cut_first, !String.string_of_list_ascii_of_string.
Qed.

(** ** Properties *)

(** C16: (roundtrip) a [BasicAuthTransport] in front of a server: the
    server receives one request, and [r.BasicAuth()] of it gives back
    the transport's username and password exactly when the username has
    no colon; otherwise the server splits at the colon inside the
    username. *)
Theorem BasicAuthTransport_server_credentials u p serve r n req :
  n_reqs n !! r = Some req ->
  exists sent, RoundTrip (mkBasicAuthTransport (server serve) u p) r n =
               Returns (inr (serve sent), receive sent (put_req r sent n)) /\
    (Request_BasicAuth (incoming sent) = (u, p, true) <-> ":"%char ∉ String.list_ascii_of_string u).
Proof.
  intros H. exists (SetBasicAuth u p req). split; [|apply SetBasicAuth_credentials].
  exact (forwards_server _ _ serve r n req (BasicAuthTransport_forwards (mkBasicAuthTransport (server serve) u p)) H).
Qed.

(** (roundtrip) [base64.StdEncoding.DecodeString] undoes the encoder
    of [BasicAuthTransport]: decoding its output gives back the bytes,
    for every byte string. *)
Theorem DecodeString_EncodeToString src : DecodeString (EncodeToString src) = Some src.
Proof. apply DecodeString_EncodeToString_eq. Qed.

(** ** Witnesses *)

Lemma BasicAuthTransport_server_credentials_witness :
  exists sent, RoundTrip (mkBasicAuthTransport (server ok_server) "alice" "hunter2") 0 (demo_net "/") =
               Returns (inr (ok_server sent), receive sent (put_req 0 sent (demo_net "/"))) /\
    (Request_BasicAuth (incoming sent) = ("alice", "hunter2", true) <->
     ":"%char ∉ String.list_ascii_of_string "alice").
Proof. apply (BasicAuthTransport_server_credentials _ _ _ 0 (demo_net "/") (demo_req "/")). reflexivity. Defined.

End BasicAuth.
