(* ===== verification/Tests.v ===== *)
(** * The repository's Go tests, run on the model

    Each [Test*] function of the repository's [_test.go] files is
    translated here: its inputs are definitions, and each of its
    [assert.Check] / [assert.Equal] calls is a lemma about the model,
    closed by computation.  A test that holds here shows that the model
    gives the result the Go test expects on the test's own input.

    What the tests read from the runtime is an input: the stack that
    [errors.Wrap] records (as [removePath] leaves it), the JSON texts
    that encoding/json produces and parses for the tests' structs (a
    table codec, [test_codec]), and the [FakeServer] round trippers
    (servers that record the request and answer with the test's
    response).  The tests' [r.Context()] comparisons are not modelled:
    the outgoing request carries no context. *)

From S2P Require Import Prelude GoHttp Errors Render Report JSONHandler Headers Format Transport JSONClient Base64 BasicAuth.
Local Open Scope string_scope.

Module Tests.
Import HttpErr Render JSONHandler Headers Fmt Transport JSONClient BasicAuth.

(** ** write_test.go: [TestWrite] *)

(** [http.NewRequest("GET", "/", nil)] as [Write] receives it. *)
Definition get_root : request :=
  {| req_method := "GET"; req_header := ∅; req_body := None; req_ctx := [] |}.

(** [w := httptest.NewRecorder(); Write(w, r, err)]: [w.Code] and the
    body. *)
Definition recorded (err : error) : option (Z * string) :=
  (fun w => (resp_code w, resp_body w)) <$> final (Write 0 get_root err fresh_response).

(** [errors.Wrap(differentResponseWriter{}, "foo")]; the stack pkg/errors
    records is not read by [Write]. *)
Definition custom_err : error := pkg_wrap differentResponseWriter "foo" "".

(** ** wrap_test.go: [TestWrap] *)

(** The stack [errors.Wrap] records in [TestWrap], as [removePath]
    prints it: the test function and its file. *)
Definition test_stack : string :=
  newline ++ "github.com/nametaginc/httpx/httperr.TestWrap" ++ newline ++
  String "009"%char "<PACKAGE_DIR>/wrap_test.go:<LINE>".

Definition e1 : error := errorString "cannot frob the grob".
Definition e2 : error := Wrap 419 e1.
Definition e3 : error := pkg_wrap e2 "while trying to frob the grov" test_stack.
Definition e4 : error := Wrap 999 e3.

(** [differentStatusCoder{}]: [Error()] is ["foo"], [StatusCode()] 123. *)
Definition differentStatusCoder : error := userError "foo" (Some 123%Z) None None Nil.

(** [is.Contains(s, sub)]. *)
Definition Contains (s : option string) (sub : string) : bool :=
  match s with
  | Some s => (0 <=? Index (String.list_ascii_of_string s) (String.list_ascii_of_string sub))%Z
  | None => false
  end.

(** ** json_test.go: [TestHttpHandlerTypeSignaturesArePanicFree] *)

Definition TestInputType : gotype := TStruct "httpx.TestInputType".
Definition TestOutputType : gotype := TStruct "httpx.TestOutputType".

(** The six functions of the test, each returning its zero results. *)
Definition requestArgReturnsOutputPtrError : gofunc :=
  mkFunc [TPtr http_Request; TestInputType] [TPtr TestOutputType; TInterface "error"]
         (fun _ _ => Returns [VNil; VErr Nil]).
Definition requestPtrArgReturnsOutputPtrError : gofunc :=
  mkFunc [TPtr http_Request; TPtr TestInputType] [TPtr TestOutputType; TInterface "error"]
         (fun _ _ => Returns [VNil; VErr Nil]).
Definition requestArgReturnsError : gofunc :=
  mkFunc [TPtr http_Request; TestInputType] [TInterface "error"] (fun _ _ => Returns [VErr Nil]).
Definition requestPtrArgReturnsError : gofunc :=
  mkFunc [TPtr http_Request; TPtr TestInputType] [TInterface "error"] (fun _ _ => Returns [VErr Nil]).
Definition requestReturnsError : gofunc :=
  mkFunc [TPtr http_Request] [TInterface "error"] (fun _ _ => Returns [VErr Nil]).
Definition requestOnly : gofunc :=
  mkFunc [TPtr http_Request] [] (fun _ _ => Returns []).

Definition signatures : list gofunc :=
  [requestArgReturnsOutputPtrError; requestPtrArgReturnsOutputPtrError; requestArgReturnsError;
   requestPtrArgReturnsError; requestReturnsError; requestOnly].

(** [JSONHandler(f) != nil]: it returns a handler without panicking. *)
Definition returns {A} (o : outcome A) : bool := match o with Returns _ => true | Panics _ => false end.

(** ** headers_test.go: [TestSplitHeaderOnSpace] *)

Definition headerTests : list (string * string * string) :=
  [("biscuit value", "biscuit", "value");
   ("biscuit    value", "biscuit", "value");
   ("biscuit   biscuit two", "biscuit", "biscuit two");
   ("bearer  value with spaces", "bearer", "value with spaces")].

(** One iteration of the test's loop: both [cmp.Equal] checks. *)
Definition header_check (test : string * string * string) : bool :=
  let '(i, p, v) := test in
  match SplitHeaderOnSpace (String.list_ascii_of_string i) with
  | Returns (p', v') => bool_decide (p' = String.list_ascii_of_string p) &&
                        bool_decide (v' = String.list_ascii_of_string v)
  | Panics _ => false
  end.

(** ** json_client_test.go: [TestJSONClient] *)

(** A JSON string literal. *)
Definition jstr (s : string) : string := dquote ++ s ++ dquote.

(** [RequestBody{Foo: "foo"}], [ResponseBody{Bar: "baz"}] and the
    [APIError] the server sends; a scalar field holds its JSON text. *)
Definition RequestBody_foo : value := VStruct "httpx.RequestBody" [("Foo", VScalar (jstr "foo"))].
Definition ResponseBody_baz : value := VStruct "httpx.ResponseBody" [("Bar", VScalar (jstr "baz"))].
Definition APIError_1337 : value :=
  VStruct "httpx.APIError" [("Code", VScalar "1337"); ("Message", VScalar (jstr "good hacker. have cookie"))].
Definition CannotMarshal : value := VStruct "httpx.CannotMarshal" [].

Definition ResponseBody : gotype := TStruct "httpx.ResponseBody".
Definition APIError : gotype := TStruct "httpx.APIError".

(** The bodies of the test. *)
Definition foo_json : string := "{" ++ jstr "Foo" ++ ":" ++ jstr "foo" ++ "}".
Definition bar_baz_json : string := "{" ++ jstr "Bar" ++ ": " ++ jstr "baz" ++ "}".
Definition api_error_json : string :=
  "{" ++ jstr "Code" ++ ": 1337, " ++ jstr "Message" ++ ": " ++ jstr "good hacker. have cookie" ++ "}".
Definition invalid_json : string := "{invalid json".
Definition invalid_json_msg : string := "invalid character 'i' looking for beginning of object key string".
Definition marshal_error_msg : string :=
  "json: error calling MarshalJSON for type httpx.CannotMarshal: cannot frob the grob".

(** encoding/json on the values and texts of the test: [json.Marshal]
    of a struct of scalar fields, [CannotMarshal]'s failing
    [MarshalJSON], and the decoding of the three response bodies. *)
Definition test_marshal (v : value) : string + string :=
  match v with
  | VStruct "httpx.CannotMarshal" _ => inl marshal_error_msg
  | VStruct _ fields =>
      inr ("{" ++ String.concat ","
                   (map (fun '(k, x) => jstr k ++ ":" ++ match x with VScalar r => r | _ => "null" end) fields)
                 ++ "}")
  | _ => inr "null"
  end.

Definition test_decode (t : gotype) (body : string) : decode_result :=
  if bool_decide (body = bar_baz_json) && bool_decide (t = ResponseBody) then DecValue ResponseBody_baz
  else if bool_decide (body = api_error_json) && bool_decide (t = APIError) then DecValue APIError_1337
  else DecErr invalid_json_msg.

#[local] Instance test_codec : JSONCodec := {| json_decode := test_decode; json_marshal := test_marshal |}.
#[local] Instance test_unmarshal : JSONUnmarshaler := test_decode.
#[local] Existing Instance demo_url_Parse.

(** [&http.Response{}] with a status code and a body. *)
Definition fake_response (code : Z) (body : string) : client_response :=
  {| cr_Status := ""; cr_StatusCode := code; cr_Header := ∅; cr_Body := body |}.

(** [HandleJSONError(func() error { panic("not reached") })]: reading the
    body succeeds, then the factory panics. *)
Definition not_reached : client_response -> M net (option cerror) := fun _ => panic "not reached".

(** [FakeServer(func(r) { panic("not reached") })]. *)
Definition panicking_server : RoundTripperV := mkRoundTripper (fun _ => panic "not reached").

Definition fake_client (t : RoundTripperV) (onError : option (client_response -> M net (option cerror)))
  : JSONClient := mkJSONClient (mkClient t) onError.

(** [c.DoJSON(ctx, "POST", "https://api.example.com/foo", request, response)]
    on a fresh heap. *)
Definition run_DoJSON (c : JSONClient) (request : option value) (response : option gotype)
  : outcome ((option cerror * option value) * net) :=
  DoJSON no_redirects c "POST" api_uri request response net0.

(** What the [FakeServer] checks of the request: method, URL,
    [Content-type], [Accept] and body. *)
Definition request_view (req : outreq) : string * option string * string * string * option string :=
  (oq_method req, oq_url req, header_get "Content-type" (oq_header req),
   header_get "Accept" (oq_header req), oq_body req).

(** The request the server received, if any, and what [DoJSON] returned. *)
Definition observe (o : outcome ((option cerror * option value) * net)) :=
  match o with
  | Returns (res, n) => Some (request_view <$> last (n_wire n), res)
  | Panics _ => None
  end.

(** ** The transport tests *)

(** [client.Get(url)]: [http.NewRequest("GET", url, nil)], then [Do]. *)
Definition Get (c : Client) (url : string) : M net result :=
  do res <- NewRequestWithContext "GET" url None;
  match res with
  | inl err => ret (inl err)
  | inr r => Do no_redirects c r
  end.

Definition hello_server : RoundTripperV := server (fun _ => fake_response 0 "Hello, World!").

(** What the [FakeServer] checks of the request it received ([f]), and
    the response body the test reads. *)
Definition observe_rt {A} (f : outreq -> A) (o : outcome (result * net)) : option (option A * option string) :=
  match o with
  | Returns (res, n) => Some (f <$> last (n_wire n), match res with inr resp => Some (cr_Body resp) | inl _ => None end)
  | Panics _ => None
  end.

Definition user_agent_client : Client :=
  mkClient (to_iface (mkUserAgentTransport hello_server "frobnicator/1.2.3")).

(** [req, _ := http.NewRequest("GET", "/frob", nil); req.Header.Add("User-Agent", "blobnify/5.6"); client.Do(req)]. *)
Definition Do_with_user_agent : M net result :=
  do res <- NewRequestWithContext "GET" "/frob" None;
  match res with
  | inl err => ret (inl err)
  | inr r =>
      do req <- load r;
      do _ <- store r (set_oq_header (header_add "User-Agent" "blobnify/5.6") req);
      Do no_redirects user_agent_client r
  end.

Definition url_prefix_client : Client :=
  mkClient (to_iface (mkURLPrefixTransport hello_server "https://api.example.com/v1")).

Definition basic_auth_client : Client :=
  mkClient (to_iface (mkBasicAuthTransport hello_server "alice" "hunter2")).

(** ** The tests *)

Lemma TestWrite_private : recorded teapot_private = Some (418%Z, "I'm a teapot" ++ newline).
Proof. vm_compute. reflexivity. Qed.

Lemma TestWrite_public : recorded teapot_public = Some (418%Z, "I'm a teapot" ++ newline).
Proof. vm_compute. reflexivity. Qed.

Lemma TestWrite_custom : recorded custom_err = Some (999%Z, "Hello, world!" ++ newline).
Proof. vm_compute. reflexivity. Qed.

Lemma TestWrap_StatusCode :
  map StatusCode [e1; e2; e3; e4; differentStatusCoder] = [0; 419; 419; 999; 123]%Z.
Proof. vm_compute. reflexivity. Qed.

Lemma TestWrap_stack :
  Contains (Sprintf id Verb_plus_v e3) "/httpx/httperr" = true /\
  Contains (Sprintf id Verb_plus_v e4) "/httpx/httperr" = true.
Proof. split; vm_compute; reflexivity. Qed.

Lemma TestHttpHandlerTypeSignaturesArePanicFree :
  forallb (fun f => returns (@JSONHandler demo_codec_inst f)) signatures = true.
Proof. vm_compute. reflexivity. Qed.

Lemma TestSplitHeaderOnSpace : forallb header_check headerTests = true.
Proof. vm_compute. reflexivity. Qed.

Lemma TestJSONClient_success :
  observe (run_DoJSON (fake_client (server (fun _ => fake_response 0 bar_baz_json)) (Some not_reached))
                      (Some RequestBody_foo) (Some (TPtr ResponseBody))) =
  Some (Some ("POST", Some api_uri, "application/json", "application/json", Some foo_json),
        (None, Some ResponseBody_baz)).
Proof. vm_compute. reflexivity. Qed.

Lemma TestJSONClient_parse_error :
  observe (run_DoJSON (fake_client (server (fun _ => fake_response 418 api_error_json))
                                   (Some (HandleJSONError (Some (TPtr APIError)))))
                      (Some RequestBody_foo) (Some (TPtr ResponseBody))) =
  Some (Some ("POST", Some api_uri, "application/json", "application/json", Some foo_json),
        (Some (ErrValue (VPtr APIError_1337)), None)).
Proof. vm_compute. reflexivity. Qed.

Lemma TestJSONClient_no_request_body :
  observe (run_DoJSON (fake_client (server (fun _ => fake_response 0 bar_baz_json)) (Some not_reached))
                      None (Some (TPtr ResponseBody))) =
  Some (Some ("POST", Some api_uri, "", "application/json", None), (None, Some ResponseBody_baz)).
Proof. vm_compute. reflexivity. Qed.

Lemma TestJSONClient_no_response_body :
  observe (run_DoJSON (fake_client (server (fun _ => fake_response 0 bar_baz_json)) (Some not_reached))
                      (Some RequestBody_foo) None) =
  Some (Some ("POST", Some api_uri, "application/json", "", Some foo_json), (None, None)).
Proof. vm_compute. reflexivity. Qed.

Lemma TestJSONClient_error_cannot_be_parsed :
  observe (run_DoJSON (fake_client (server (fun _ => fake_response 418 invalid_json))
                                   (Some (HandleJSONError (Some (TPtr APIError)))))
                      (Some RequestBody_foo) (Some (TPtr ResponseBody))) =
  Some (Some ("POST", Some api_uri, "application/json", "application/json", Some foo_json),
        (Some (ErrResponse (fake_response 418 invalid_json)), None)).
Proof. vm_compute. reflexivity. Qed.

Lemma TestJSONClient_cannot_marshal_request :
  observe (run_DoJSON (fake_client panicking_server (Some not_reached)) (Some CannotMarshal) None) =
  Some (None, (Some (ErrMsg marshal_error_msg), None)).
Proof. vm_compute. reflexivity. Qed.

Lemma TestJSONClient_cannot_unmarshal_response :
  observe (run_DoJSON (fake_client (server (fun _ => fake_response 0 invalid_json)) (Some not_reached))
                      None (Some (TPtr ResponseBody))) =
  Some (Some ("POST", Some api_uri, "", "application/json", None), (Some (ErrMsg invalid_json_msg), None)).
Proof. vm_compute. reflexivity. Qed.

Lemma TestJSONClient_default_error_handler :
  observe (run_DoJSON (fake_client (server (fun _ => fake_response 418 api_error_json)) None)
                      None (Some (TPtr ResponseBody))) =
  Some (Some ("POST", Some api_uri, "", "application/json", None),
        (Some (ErrResponse (fake_response 418 api_error_json)), None)).
Proof. vm_compute. reflexivity. Qed.

Lemma TestUserAgentTransport_adds_header_if_missing :
  observe_rt (header_get "User-Agent" ∘ oq_header) (Get user_agent_client "dontcare" net0) =
  Some (Some "frobnicator/1.2.3", Some "Hello, World!").
Proof. vm_compute. reflexivity. Qed.

Lemma TestUserAgentTransport_doesnt_overwrite_header :
  observe_rt (header_get "User-Agent" ∘ oq_header) (Do_with_user_agent net0) =
  Some (Some "blobnify/5.6", Some "Hello, World!").
Proof. vm_compute. reflexivity. Qed.

Lemma TestUrlPrefixTransport :
  observe_rt oq_url (Get url_prefix_client "/foo" net0) =
  Some (Some (Some "https://api.example.com/v1/foo"), Some "Hello, World!").
Proof. vm_compute. reflexivity. Qed.

Lemma TestBasicAuthTransport :
  observe_rt (Request_BasicAuth ∘ incoming) (Get basic_auth_client "dontcare" net0) =
  Some (Some ("alice", "hunter2", true), Some "Hello, World!").
Proof. vm_compute. reflexivity. Qed.

End Tests.
